(** * SKR: a shallow embedding of [skr/skr.h]

    The single-header engine is embedded function by function.  State that the
    C code keeps in globals or behind pointers is passed explicitly:

    - the global error buffer [SKR_LAST_ERROR] is a list of bytes of fixed
      length, written only through a bounded [snprintf];
    - calls into libc, OpenGL and GLFW are recorded, in program order, in a
      trace; what such a call returns is read from a [Backend] record whose
      fields are functions of the trace so far (a deterministic driver);
    - [float] values are IEEE-754 binary32 numbers ([SpecFloat], precision 24,
      [emax] 128, round to nearest even). *)

From Stdlib Require Import ZArith String Ascii List Bool Lia.
From Stdlib Require Import DecimalString.
From Stdlib Require Import SpecFloat.
Import ListNotations.

Local Open Scope string_scope.
Local Open Scope list_scope.
Local Open Scope Z_scope.

(** ** C strings and bounded writes *)

Definition NUL : ascii := Ascii.zero.

(** A [char] array. *)
Definition cbuf := list ascii.

(** The C string held by an array: the bytes before the first terminator. *)
Fixpoint cstr (b : cbuf) : list ascii :=
  match b with
  | [] => []
  | c :: r => if Ascii.eqb c NUL then [] else c :: cstr r
  end.

(** A [const char*] argument as [%s] prints it. *)
Definition text (s : string) : list ascii := cstr (list_ascii_of_string s).

(** [%d] of an [int]. *)
Definition decimal (z : Z) : list ascii :=
  list_ascii_of_string (NilZero.string_of_int (Z.to_int z)).

(** Overwrite [bytes] at offset [off] of an array. *)
Definition store (b : cbuf) (off : nat) (bytes : list ascii) : cbuf :=
  firstn off b ++ bytes ++ skipn (off + length bytes) b.

Definition INT_MAX : Z := 2147483647.

(** [snprintf(b + off, n, ...)] where the formatted output is [out]: at most
    [n - 1] bytes of it are written, then the terminator; the value returned
    is the length the whole output would have had (negative when that does
    not fit an [int]). *)
Definition snprintf (b : cbuf) (off : nat) (n : Z) (out : list ascii)
  : cbuf * Z :=
  let len := Z.of_nat (length out) in
  let ret := if len >? INT_MAX then -1 else len in
  if n <=? 0 then (b, ret)
  else (store b off (firstn (Z.to_nat (n - 1)) out ++ [NUL]), ret).

(** ** The error channel (skr.h 119-158, 541-583) *)

Definition SKR_LAST_ERROR_SIZE : Z := 1044.

(** [#define SKR_OK (SKR_LAST_ERROR[0] == '\0')] *)
Definition SKR_OK (SKR_LAST_ERROR : cbuf) : bool :=
  Ascii.eqb (nth 0 SKR_LAST_ERROR NUL) NUL.

(** The output of the first format, ["[SKR] ERROR %s:%d:%s: "]. *)
Definition meta_prefix (file : string) (line : Z) (func : string)
  : list ascii :=
  list_ascii_of_string "[SKR] ERROR " ++ text file
    ++ list_ascii_of_string ":" ++ decimal line
    ++ list_ascii_of_string ":" ++ text func
    ++ list_ascii_of_string ": ".

(** [m_skr_last_error_set_with_meta(file, line, func, fmt, ...)].  [msg] is
    what [fmt] and its arguments format to. *)
Definition m_skr_last_error_set_with_meta
    (file : string) (line : Z) (func : string) (msg : string)
    (SKR_LAST_ERROR : cbuf) : cbuf :=
  let '(b1, written) :=
    snprintf SKR_LAST_ERROR 0 SKR_LAST_ERROR_SIZE
             (meta_prefix file line func) in
  let written :=
    if (written <? 0) || (written >=? SKR_LAST_ERROR_SIZE) then 0
    else written in
  fst (snprintf b1 (Z.to_nat written) (SKR_LAST_ERROR_SIZE - written)
                (text msg)).

(** [m_skr_last_error_clear()]: [SKR_LAST_ERROR[0] = '\0']. *)
Definition m_skr_last_error_clear (SKR_LAST_ERROR : cbuf) : cbuf :=
  match SKR_LAST_ERROR with
  | [] => []
  | _ :: r => NUL :: r
  end.

(** ** External calls and the world *)

Definition GLuint := Z.
Definition GLenum := Z.

(** Values of [GL/glew.h] and [GLFW/glfw3.h] (not part of the header). *)
Definition GL_FRAGMENT_SHADER : GLenum := 35632.
Definition GL_VERTEX_SHADER : GLenum := 35633.
Definition GL_GEOMETRY_SHADER : GLenum := 36313.

(** The calls the header makes into libc, OpenGL and GLFW, and into the
    user's input handler. *)
Inductive Call :=
| fopen (path : string)
| fseek_end
| ftell
| rewind
| malloc (size : Z)
| fread (len : Z)
| fclose
| free
| glCreateShader (type : GLenum)
| glShaderSource (shader : GLuint) (source : string)
| glCompileShader (shader : GLuint)
| glGetShaderiv_COMPILE_STATUS (shader : GLuint)
| glGetShaderInfoLog (shader : GLuint)
| glDeleteShader (shader : GLuint)
| glCreateProgram
| glAttachShader (program shader : GLuint)
| glLinkProgram (program : GLuint)
| glGetProgramiv_LINK_STATUS (program : GLuint)
| glGetProgramInfoLog (program : GLuint)
| glDetachShader (program shader : GLuint)
| glDeleteProgram (program : GLuint)
| glClear_COLOR_DEPTH
| glUseProgram (program : GLuint)
| glBindVertexArray (array : GLuint)
| glDrawArrays_TRIANGLES (first count : Z)
| glDeleteTextures (texture : GLuint)
| glDeleteVertexArrays (array : GLuint)
| glDeleteBuffers (buffer : GLuint)
| glBindBuffer_ARRAY (buffer : GLuint)
| glBindBuffer_ELEMENT_ARRAY (buffer : GLuint)
| glfwGetFramebufferSize (window : Z)
| glfwSwapBuffers (window : Z)
| glfwPollEvents
| InputHandler_call (handler : Z).

Definition Trace := list Call.

Record World := mkWorld {
  SKR_LAST_ERROR : cbuf;   (* static char SKR_LAST_ERROR[SKR_LAST_ERROR_SIZE] *)
  calls : Trace            (* every external call so far, oldest first *)
}.

(** A computation on the world. *)
Definition M (A : Type) : Type := World -> A * World.

Definition ret {A} (a : A) : M A := fun w => (a, w).

Definition bind {A B} (c : M A) (k : A -> M B) : M B :=
  fun w => let '(a, w1) := c w in k a w1.

Notation "x <- c ;; k" := (bind c (fun x => k))
  (at level 61, c at next level, right associativity).
Notation "c ;; k" := (bind c (fun _ => k))
  (at level 61, right associativity).

(** An external call: it is recorded, and its result is what the backend
    answers after it. *)
Definition extern {A} (c : Call) (answer : Trace -> A) : M A :=
  fun w => let t := calls w ++ [c] in
           (answer t, mkWorld (SKR_LAST_ERROR w) t).

Definition call (c : Call) : M unit := extern c (fun _ => tt).

Fixpoint for_each {A} (l : list A) (body : A -> M unit) : M unit :=
  match l with
  | [] => ret tt
  | a :: r => body a ;; for_each r body
  end.

(** ** Data model (skr.h 36-508) *)

Inductive SkrApiBackendType := SKR_BACKEND_API_GL | SKR_BACKEND_API_VK.
Inductive SkrWindowBackendType := SKR_BACKEND_WINDOW_GLFW | SKR_BACKEND_WINDOW_SDL.

Inductive SkrTextureType :=
| SKR_TEXTURE_DIFFUSE | SKR_TEXTURE_SPECULAR | SKR_TEXTURE_NORMAL
| SKR_TEXTURE_HEIGHT | SKR_TEXTURE_EMISSIVE | SKR_TEXTURE_AMBIENT
| SKR_TEXTURE_METALLIC | SKR_TEXTURE_ROUGHNESS | SKR_TEXTURE_REFLECTION
| SKR_TEXTURE_UNKNOWN.

(** [struct SkrShader]; a NULL [Source] or [Path] is [None]. *)
Record SkrShader := mkShader {
  shader_Type : GLenum;
  shader_Source : option string;
  shader_Path : option string
}.

Record SkrTexture := mkTexture {
  texture_ID : GLuint;
  texture_Type : SkrTextureType;
  texture_Source : option string;
  texture_Path : option string
}.

(** [struct SkrMesh].  A pointer with its count is one optional list
    ([None]: NULL); the CPU-side [Vertices] are never read by the header's
    functions and are left out, their count is kept. *)
Record SkrMesh := mkMesh {
  VAO : GLuint;
  VBO : GLuint;
  EBO : GLuint;
  VertexCount : Z;
  Indices : Z;
  mesh_Textures : option (list SkrTexture);
  GL_Program : GLuint                      (* Backend.GL.Program *)
}.

Record SkrModel := mkModel {
  Meshes : option (list SkrMesh);
  model_Textures : option (list SkrTexture);
  model_Path : option string
}.

(** [struct SkrWindow], with [Backend.Type] and [Backend.Handler.GLFW];
    pointers to foreign objects are numbers, 0 for NULL. *)
Record SkrWindow := mkWindow {
  Title : string;
  Width : Z;
  Height : Z;
  InputHandler : option Z;                 (* None: no handler installed *)
  Backend_Type : SkrWindowBackendType;
  Handler_GLFW : Z
}.

Record SkrShaderProgram := mkProgram {
  program_ID : GLuint;
  program_Name : string;
  program_Shaders : list SkrShader
}.

Record SkrState := mkState {
  Window : option SkrWindow;
  Models : list SkrModel;
  Programs : list SkrShaderProgram
}.

(** What the environment answers.  None of this is code of the header:
    a field is the result of a call into libc, the GL driver, GLFW or the
    user's handler, as a function of the calls made so far, or a macro of
    the build. *)
Record Backend := mkBackend {
  FILE_ : string;                          (* __FILE__ of the translation unit *)
  fopen_result : Trace -> option string;   (* None: NULL; Some: the file's bytes *)
  malloc_result : Trace -> bool;           (* false: NULL *)
  glCreate_result : Trace -> GLuint;       (* glCreateShader, glCreateProgram *)
  COMPILE_STATUS : Trace -> bool;
  LINK_STATUS : Trace -> bool;
  InfoLog : Trace -> string;
  FramebufferSize : Trace -> Z * Z;
  InputHandler_effect : Trace -> SkrWindow -> SkrWindow;
    (* the window as the user's handler leaves it *)
  SKR_BACKEND_API : SkrApiBackendType;     (* build-time selection *)
  SKR_BACKEND_WINDOW : SkrWindowBackendType
}.

Section Engine.

Variable env : Backend.

(** [m_skr_last_error_set(...)]: the macro passes [__FILE__], [__LINE__] and
    [__func__] of the place it is used at. *)
Definition m_skr_last_error_set (line : Z) (func msg : string) : M unit :=
  fun w =>
    (tt, mkWorld (m_skr_last_error_set_with_meta (FILE_ env) line func msg
                                                 (SKR_LAST_ERROR w))
                 (calls w)).

Definition last_error_clear : M unit :=
  fun w => (tt, mkWorld (m_skr_last_error_clear (SKR_LAST_ERROR w)) (calls w)).

(** ** Resource loader (skr.h 629-653) *)

(** The loader on a regular file that is read whole: [ftell] answers the
    length of the file's bytes and [fread] delivers them all, so the buffer
    returned holds them.  [Stdio.m_skr_read_file] below keeps the answers
    of the stream apart. *)
Definition m_skr_read_file (path : string) : M (option string) :=
  file <- extern (fopen path) (fopen_result env) ;;
  match file with
  | None =>
      m_skr_last_error_set 632 "m_skr_read_file" "failed to open" ;;
      ret None
  | Some contents =>
      call fseek_end ;;
      call ftell ;;
      let len := Z.of_nat (String.length contents) in
      call rewind ;;
      buffer <- extern (malloc (len + 1)) (malloc_result env) ;;
      if negb buffer then
        call fclose ;;
        m_skr_last_error_set 643 "m_skr_read_file" "failed to open" ;;
        ret None
      else
        call (fread len) ;;
        call fclose ;;
        last_error_clear ;;
        ret (Some contents)
  end.

(** ** Shader compiler and linker (skr.h 783-971) *)

Definition m_skr_gl_check_compile_errors (shader : GLuint) (type : string)
  : M Z :=
  if String.eqb type "prog" then
    success <- extern (glGetProgramiv_LINK_STATUS shader) (LINK_STATUS env) ;;
    if negb success then
      infoLog <- extern (glGetProgramInfoLog shader) (InfoLog env) ;;
      m_skr_last_error_set 793 "m_skr_gl_check_compile_errors"
        ("failed to link " ++ type ++ ": " ++ infoLog) ;;
      ret 0
    else ret 1
  else
    success <- extern (glGetShaderiv_COMPILE_STATUS shader)
                      (COMPILE_STATUS env) ;;
    if negb success then
      infoLog <- extern (glGetShaderInfoLog shader) (InfoLog env) ;;
      m_skr_last_error_set 802 "m_skr_gl_check_compile_errors"
        ("failed to compile " ++ type ++ ": " ++ infoLog) ;;
      ret 0
    else ret 1.

Definition type_str (type : GLenum) : string :=
  if type =? GL_VERTEX_SHADER then "vert"
  else if type =? GL_FRAGMENT_SHADER then "frag"
  else if type =? GL_GEOMETRY_SHADER then "geom"
  else "unknown".

Definition m_skr_gl_create_shader (type : GLenum) (source : string)
  : M GLuint :=
  shader <- extern (glCreateShader type) (glCreate_result env) ;;
  call (glShaderSource shader source) ;;
  call (glCompileShader shader) ;;
  ok <- m_skr_gl_check_compile_errors shader (type_str type) ;;
  if ok =? 0 then
    call (glDeleteShader shader) ;;
    ret 0
  else
    last_error_clear ;;
    ret shader.

Definition m_skr_gl_create_shader_from_file (type : GLenum) (path : string)
  : M GLuint :=
  source <- m_skr_read_file path ;;
  match source with
  | None => ret 0
  | Some source =>
      shader <- m_skr_gl_create_shader type source ;;
      call free ;;
      last_error_clear ;;
      ret shader
  end.

Definition m_skr_gl_create_program (shaders : list GLuint) : M GLuint :=
  program <- extern glCreateProgram (glCreate_result env) ;;
  for_each shaders (fun sh => call (glAttachShader program sh)) ;;
  call (glLinkProgram program) ;;
  ok <- m_skr_gl_check_compile_errors program "prog" ;;
  if ok =? 0 then
    call (glDeleteProgram program) ;;
    ret 0
  else
    for_each shaders (fun sh =>
      call (glDetachShader program sh) ;;
      call (glDeleteShader sh)) ;;
    last_error_clear ;;
    ret program.

(** The [if (s->Source) ... else if (s->Path) ... else] of the loop body:
    [Some shader] for the first two branches, [None] for the third. *)
Definition resolve_shader (s : SkrShader) : M (option GLuint) :=
  match shader_Source s, shader_Path s with
  | Some source, _ =>
      shader <- m_skr_gl_create_shader (shader_Type s) source ;;
      ret (Some shader)
  | None, Some path =>
      shader <- m_skr_gl_create_shader_from_file (shader_Type s) path ;;
      ret (Some shader)
  | None, None => ret None
  end.

(** [for (j = 0; j < i; ++j) glDeleteShader(shaders[j]);] where [shaders]
    holds the [i] entries written so far. *)
Definition delete_compiled (shaders : list GLuint) : M unit :=
  for_each shaders (fun sh => call (glDeleteShader sh)).

(** The loop over [shaders_input], from index [i = length shaders] on.
    [None]: the function returned 0 from inside the loop. *)
Fixpoint compile_all (shaders_input : list SkrShader) (shaders : list GLuint)
  : M (option (list GLuint)) :=
  match shaders_input with
  | [] => ret (Some shaders)
  | s :: rest =>
      r <- resolve_shader s ;;
      match r with
      | None =>
          delete_compiled shaders ;;
          call free ;;
          m_skr_last_error_set 946 "m_skr_gl_create_program_from_shaders"
            "shader.Source and shader.Path are NULL" ;;
          ret None
      | Some shader =>
          if shader =? 0 then
            delete_compiled shaders ;;
            call free ;;
            ret None
          else compile_all rest (shaders ++ [shader])
      end
  end.

(** [shaders_input] with [count]: [None] is a NULL pointer, and the list
    has [count] entries. *)
Definition m_skr_gl_create_program_from_shaders
    (shaders_input : option (list SkrShader)) : M GLuint :=
  match shaders_input with
  | None | Some [] =>
      m_skr_last_error_set 922 "m_skr_gl_create_program_from_shaders"
        "either shaders_input != 1 or count == 0" ;;
      ret 0
  | Some input =>
      let count := Z.of_nat (length input) in
      shaders <- extern (malloc (4 * count)) (malloc_result env) ;;
      if negb shaders then
        m_skr_last_error_set 928 "m_skr_gl_create_program_from_shaders"
          "shaders_input == NULL" ;;
        ret 0
      else
        compiled <- compile_all input [] ;;
        match compiled with
        | None => ret 0
        | Some shaders =>
            program <- m_skr_gl_create_program shaders ;;
            call free ;;
            if program =? 0 then ret 0
            else
              last_error_clear ;;
              ret program
        end
  end.

End Engine.

Section Renderer.

Variable env : Backend.

(** ** Renderer (skr.h 1066-1160, 1268-1291) *)

Definition m_skr_gl_renderer_render (s : SkrState) : M unit :=
  call glClear_COLOR_DEPTH ;;
  for_each (Models s) (fun model =>
    match Meshes model with
    | None => ret tt
    | Some meshes =>
        for_each meshes (fun mesh =>
          if (VAO mesh =? 0) || (VertexCount mesh =? 0) then ret tt
          else
            call (glUseProgram (GL_Program mesh)) ;;
            call (glBindVertexArray (VAO mesh)) ;;
            call (glDrawArrays_TRIANGLES 0 (VertexCount mesh)))
    end) ;;
  call (glBindVertexArray 0).

Fixpoint map_M {A B} (l : list A) (body : A -> M B) : M (list B) :=
  match l with
  | [] => ret []
  | a :: r => b <- body a ;; bs <- map_M r body ;; ret (b :: bs)
  end.

Definition when (b : bool) (c : M unit) : M unit := if b then c else ret tt.

(** The body of the inner loop of [m_skr_gl_renderer_finalize]. *)
Definition finalize_mesh (mesh : SkrMesh) : M SkrMesh :=
  match mesh_Textures mesh with
  | Some (t :: ts) =>
      for_each (t :: ts) (fun tex => call (glDeleteTextures (texture_ID tex)))
  | _ => ret tt
  end ;;
  when (negb (VAO mesh =? 0)) (call (glDeleteVertexArrays (VAO mesh))) ;;
  when (negb (VBO mesh =? 0)) (call (glDeleteBuffers (VBO mesh))) ;;
  when (negb (EBO mesh =? 0)) (call (glDeleteBuffers (EBO mesh))) ;;
  ret (mkMesh 0 0 0 (VertexCount mesh) (Indices mesh) (mesh_Textures mesh) 0).

Definition finalize_model (model : SkrModel) : M SkrModel :=
  match Meshes model with
  | None => ret model
  | Some meshes =>
      meshes' <- map_M meshes finalize_mesh ;;
      ret (mkModel (Some meshes') (model_Textures model) (model_Path model))
  end.

(** [s] is the pointer argument ([None]: NULL); the state it points to is
    returned as the function leaves it. *)
Definition m_skr_gl_renderer_finalize (s : option SkrState)
  : M (option SkrState) :=
  match s with
  | None => ret None
  | Some st =>
      models <- map_M (Models st) finalize_model ;;
      call (glBindVertexArray 0) ;;
      call (glBindBuffer_ARRAY 0) ;;
      call (glBindBuffer_ELEMENT_ARRAY 0) ;;
      call (glUseProgram 0) ;;
      ret (Some (mkState (Window st) models (Programs st)))
  end.

(** [m_skr_gl_glfw_renderer_render(s)], for [s->Window] pointing to [w].
    The user's handler and the callbacks that GLFW runs from inside
    [glfwPollEvents] are not code of this function: both calls are
    recorded, of the handler the window it leaves is kept, and what either
    does to [SKR_LAST_ERROR] (the resize callback clears it) is outside the
    model, so nothing is stated on the buffer across a frame. *)
Definition m_skr_gl_glfw_renderer_render (s : SkrState) (w : SkrWindow)
  : M SkrState :=
  w <- match InputHandler w with
       | Some handler =>
           extern (InputHandler_call handler)
                  (fun t => InputHandler_effect env t w)
       | None => ret w
       end ;;
  size <- extern (glfwGetFramebufferSize (Handler_GLFW w))
                 (FramebufferSize env) ;;
  let w := mkWindow (Title w) (fst size) (snd size) (InputHandler w)
                    (Backend_Type w) (Handler_GLFW w) in
  let s := mkState (Some w) (Models s) (Programs s) in
  m_skr_gl_renderer_render s ;;
  call (glfwSwapBuffers (Handler_GLFW w)) ;;
  call glfwPollEvents ;;
  ret s.

Definition SkrRendererRender (s : option SkrState) : M (option SkrState) :=
  match s with
  | None => ret None
  | Some st =>
      match Window st with
      | None => ret (Some st)
      | Some w =>
          match SKR_BACKEND_API env, SKR_BACKEND_WINDOW env with
          | SKR_BACKEND_API_GL, SKR_BACKEND_WINDOW_GLFW =>
              st' <- m_skr_gl_glfw_renderer_render st w ;;
              ret (Some st')
          | _, _ => ret (Some st)
          end
      end
  end.

End Renderer.

(** ** Camera controller (skr.h 485-524, 686-727) *)

(** C [float]: binary32. *)
Definition float := spec_float.

Definition fadd : float -> float -> float := SFadd 24 128.
Definition fsub : float -> float -> float := SFsub 24 128.
Definition fmul : float -> float -> float := SFmul 24 128.
(** [a < b] and [a > b]; both are false when an operand is NaN. *)
Definition flt (a b : float) : bool := SFltb a b.
Definition fgt (a b : float) : bool := SFltb b a.
Definition fle (a b : float) : bool := SFleb a b.

(** An integer constant written with an [f] suffix. *)
Definition float_of_Z (z : Z) : float := binary_normalize 24 128 z 0 false.

(** The conversion [float x = d] of a [double]. *)
Definition float_of_double (d : spec_float) : float :=
  match d with
  | S754_finite s m e => binary_round 24 128 s m e
  | _ => d
  end.

Definition f89 : float := float_of_Z 89.          (* 89.0f *)
Definition fm89 : float := SFopp f89.              (* -89.0f *)

Definition vec3 : Type := float * float * float.

Record SkrCamera := mkCamera {
  Position : vec3;
  Front : vec3;
  Up : vec3;
  Right : vec3;
  WorldUp : vec3;
  Yaw : float;
  Pitch : float;
  FOV : float;
  Sensitivity : float;
  LastX : float;
  LastY : float;
  FirstMouse : bool;
  Initialized : bool
}.

Definition set_Last (c : SkrCamera) (x y : float) : SkrCamera :=
  mkCamera (Position c) (Front c) (Up c) (Right c) (WorldUp c) (Yaw c)
           (Pitch c) (FOV c) (Sensitivity c) x y (FirstMouse c)
           (Initialized c).

Definition set_FirstMouse (c : SkrCamera) (b : bool) : SkrCamera :=
  mkCamera (Position c) (Front c) (Up c) (Right c) (WorldUp c) (Yaw c)
           (Pitch c) (FOV c) (Sensitivity c) (LastX c) (LastY c) b
           (Initialized c).

Definition set_Yaw (c : SkrCamera) (v : float) : SkrCamera :=
  mkCamera (Position c) (Front c) (Up c) (Right c) (WorldUp c) v
           (Pitch c) (FOV c) (Sensitivity c) (LastX c) (LastY c)
           (FirstMouse c) (Initialized c).

Definition set_Pitch (c : SkrCamera) (v : float) : SkrCamera :=
  mkCamera (Position c) (Front c) (Up c) (Right c) (WorldUp c) (Yaw c)
           v (FOV c) (Sensitivity c) (LastX c) (LastY c)
           (FirstMouse c) (Initialized c).

Definition set_Front (c : SkrCamera) (v : vec3) : SkrCamera :=
  mkCamera (Position c) v (Up c) (Right c) (WorldUp c) (Yaw c)
           (Pitch c) (FOV c) (Sensitivity c) (LastX c) (LastY c)
           (FirstMouse c) (Initialized c).

(** [cosf], [sinf] of libm and [glm_rad], [glm_vec3_normalize_to] of cglm:
    not code of the header. *)
Record MathLib := mkMath {
  cosf : float -> float;
  sinf : float -> float;
  glm_rad : float -> float;
  glm_vec3_normalize_to : vec3 -> vec3
}.

Section Camera.

Variable libm : MathLib.

(** Lines 688-709: the camera [*g_skr_camera] after [Pitch += yoffset]. *)
Definition mouse_accumulate (cam : SkrCamera) (xposIn yposIn : spec_float)
  : SkrCamera :=
  let xpos := float_of_double xposIn in
  let ypos := float_of_double yposIn in
  let cam :=
    if FirstMouse cam then set_FirstMouse (set_Last cam xpos ypos) false
    else cam in
  let xoffset := fsub xpos (LastX cam) in
  let yoffset := fsub (LastY cam) ypos in
  let cam := set_Last cam xpos ypos in
  let sensitivity := Sensitivity cam in
  let xoffset := fmul xoffset sensitivity in
  let yoffset := fmul yoffset sensitivity in
  let cam := set_Yaw cam (fadd (Yaw cam) xoffset) in
  set_Pitch cam (fadd (Pitch cam) yoffset).

(** Lines 713-726: the two clamps and the new [Front]. *)
Definition mouse_clamp_front (cam : SkrCamera) : SkrCamera :=
  let cam := if fgt (Pitch cam) f89 then set_Pitch cam f89 else cam in
  let cam := if flt (Pitch cam) fm89 then set_Pitch cam fm89 else cam in
  let front : vec3 :=
    (fmul (cosf libm (glm_rad libm (Yaw cam)))
          (cosf libm (glm_rad libm (Pitch cam))),
     sinf libm (glm_rad libm (Pitch cam)),
     fmul (sinf libm (glm_rad libm (Yaw cam)))
          (cosf libm (glm_rad libm (Pitch cam)))) in
  set_Front cam (glm_vec3_normalize_to libm front).

(** [m_skr_gl_glfw_mouse_callback(window, xposIn, yposIn)] on the camera
    [g_skr_camera] points to. *)
Definition m_skr_gl_glfw_mouse_callback (cam : SkrCamera)
    (xposIn yposIn : spec_float) : SkrCamera :=
  mouse_clamp_front (mouse_accumulate cam xposIn yposIn).

(** The cameras after each of a sequence of cursor events. *)
Fixpoint mouse_moves (cam : SkrCamera) (events : list (spec_float * spec_float))
  : list SkrCamera :=
  match events with
  | [] => []
  | (x, y) :: rest =>
      let cam' := m_skr_gl_glfw_mouse_callback cam x y in
      cam' :: mouse_moves cam' rest
  end.

End Camera.

(** [SkrDefaultFPSCamera]; members the initializer leaves out are zero. *)
Definition fzero : float := S754_zero false.
Definition SkrDefaultFPSCamera : SkrCamera :=
  mkCamera (fzero, fzero, float_of_Z 3)
           (fzero, fzero, float_of_Z (-1))
           (fzero, float_of_Z 1, fzero)
           (fzero, fzero, fzero)
           (fzero, fzero, fzero)
           (float_of_Z (-90))
           fzero
           (float_of_Z 70)
           (SFdiv 24 128 (float_of_Z 1) (float_of_Z 10))
           (float_of_Z 400)
           (float_of_Z 300)
           true
           false.

(** Concrete inputs used to exercise the error channel. *)
Definition blank_buffer : cbuf := repeat NUL (Z.to_nat SKR_LAST_ERROR_SIZE).
Definition stale_buffer : cbuf :=
  fst (snprintf blank_buffer 0 SKR_LAST_ERROR_SIZE
                (list_ascii_of_string "an earlier error")).
Definition long_file_name : string :=
  string_of_list_ascii (repeat "a"%char 1100).

(** A driver to run the model on: object names count the calls made so
    far, a shader compiles unless its source is ["garbage"], every program
    links, and only ["missing.glsl"] cannot be opened. *)
Fixpoint last_source (t : Trace) : option string :=
  match t with
  | [] => None
  | c :: r =>
      match last_source r with
      | Some s => Some s
      | None => match c with glShaderSource _ s => Some s | _ => None end
      end
  end.

Definition last_call (t : Trace) : option Call := last (map Some t) None.

Definition demo_backend : Backend :=
  mkBackend "skr/skr.h"
    (fun t => match last_call t with
              | Some (fopen path) =>
                  if String.eqb path "missing.glsl" then None
                  else Some "garbage"
              | _ => None
              end)
    (fun _ => true)
    (fun t => Z.of_nat (length t))
    (fun t => match last_source t with
              | Some s => negb (String.eqb s "garbage")
              | None => false
              end)
    (fun _ => true)
    (fun _ => "0:1(1): error: syntax error")
    (fun _ => (1024, 768))
    (fun _ w => w)
    SKR_BACKEND_API_GL
    SKR_BACKEND_WINDOW_GLFW.

Definition fresh_world : World := mkWorld blank_buffer [].

(** The descriptors of a batch resolve and compile one after the other,
    from [w] on: the shader names obtained and the world reached; [None]
    when one of them has neither source nor path, or yields 0. *)
Fixpoint resolve_prefix (env : Backend) (ds : list SkrShader) (w : World)
  : option (list GLuint * World) :=
  match ds with
  | [] => Some ([], w)
  | d :: rest =>
      match resolve_shader env d w with
      | (Some shader, w1) =>
          if shader =? 0 then None
          else match resolve_prefix env rest w1 with
               | Some (hs, w2) => Some (shader :: hs, w2)
               | None => None
               end
      | (None, _) => None
      end
  end.

(** A descriptor with its [Path] set to NULL when it has a [Source]. *)
Definition without_shadowed_path (s : SkrShader) : SkrShader :=
  match shader_Source s with
  | Some _ => mkShader (shader_Type s) (shader_Source s) None
  | None => s
  end.

Definition is_fopen (c : Call) : bool :=
  match c with fopen _ => true | _ => false end.

(** Descriptors to run the model on. *)
Definition vert_inline : SkrShader :=
  mkShader GL_VERTEX_SHADER (Some "void main() {}") None.
Definition frag_garbage : SkrShader :=
  mkShader GL_FRAGMENT_SHADER (Some "garbage") None.
Definition geom_inline : SkrShader :=
  mkShader GL_GEOMETRY_SHADER (Some "void main() {}") None.
Definition vert_garbage_file : SkrShader :=
  mkShader GL_VERTEX_SHADER None (Some "bad.vert").
Definition frag_absent : SkrShader :=
  mkShader GL_FRAGMENT_SHADER None None.
Definition vert_both : SkrShader :=
  mkShader GL_VERTEX_SHADER (Some "void main() {}") (Some "missing.glsl").

(** The earlier variant of the header (src/unnamed/part_001, 825-872):
    the draw pass only clears, and the frame takes the window itself.  As
    for the current frame, the handler and the callbacks run by
    [glfwPollEvents] are recorded calls, and their effect on
    [SKR_LAST_ERROR] is outside the model. *)
Module Legacy.

Definition m_skr_gl_renderer_render : M unit := call glClear_COLOR_DEPTH.

Definition m_skr_gl_glfw_renderer_render (env : Backend) (w : SkrWindow)
  : M SkrWindow :=
  w <- match InputHandler w with
       | Some handler =>
           extern (InputHandler_call handler)
                  (fun t => InputHandler_effect env t w)
       | None => ret w
       end ;;
  call glfwPollEvents ;;
  size <- extern (glfwGetFramebufferSize (Handler_GLFW w))
                 (FramebufferSize env) ;;
  let w := mkWindow (Title w) (fst size) (snd size) (InputHandler w)
                    (Backend_Type w) (Handler_GLFW w) in
  m_skr_gl_renderer_render ;;
  call (glfwSwapBuffers (Handler_GLFW w)) ;;
  ret w.

End Legacy.

(** The calls of the draw pass for the meshes of a state. *)
Definition mesh_draw_calls (mesh : SkrMesh) : Trace :=
  if (VAO mesh =? 0) || (VertexCount mesh =? 0) then []
  else [glUseProgram (GL_Program mesh); glBindVertexArray (VAO mesh);
        glDrawArrays_TRIANGLES 0 (VertexCount mesh)].

Definition model_draw_calls (model : SkrModel) : Trace :=
  match Meshes model with
  | None => []
  | Some meshes => flat_map mesh_draw_calls meshes
  end.

(** The texture releases of a teardown. *)
Definition mesh_texture_deletes (mesh : SkrMesh) : Trace :=
  match mesh_Textures mesh with
  | Some textures => map (fun t => glDeleteTextures (texture_ID t)) textures
  | None => []
  end.

Definition model_texture_deletes (model : SkrModel) : Trace :=
  match Meshes model with
  | None => []
  | Some meshes => flat_map mesh_texture_deletes meshes
  end.

(** Every mesh of the state has [VAO], [VBO], [EBO] and its program at 0. *)
Definition mesh_zeroed (mesh : SkrMesh) : Prop :=
  VAO mesh = 0 /\ VBO mesh = 0 /\ EBO mesh = 0 /\ GL_Program mesh = 0.

Definition model_zeroed (model : SkrModel) : Prop :=
  match Meshes model with
  | None => True
  | Some meshes => Forall mesh_zeroed meshes
  end.

Definition state_zeroed (s : SkrState) : Prop :=
  Forall model_zeroed (Models s).

(** States to run the model on: the triangle of [m_skr_gl_triangle] in a
    window with an input handler, and the same after a teardown. *)
Definition demo_window : SkrWindow :=
  mkWindow "Hello SKR" 800 600 (Some 4096) SKR_BACKEND_WINDOW_GLFW 77.

Definition triangle_mesh : SkrMesh :=
  mkMesh 1 1 0 3 0 (Some [mkTexture 9 SKR_TEXTURE_DIFFUSE None None]) 3.

Definition triangle_state : SkrState :=
  mkState (Some demo_window) [mkModel (Some [triangle_mesh]) None None] [].

Definition finalized_triangle_state : SkrState :=
  match fst (m_skr_gl_renderer_finalize (Some triangle_state) fresh_world)
  with
  | Some st => st
  | None => triangle_state
  end.

(** Inputs to run the camera on.  [double_of_Z] is an integer constant as
    a [double]; [FLT_MAX] is the largest finite [float]. *)
Definition double_of_Z (z : Z) : spec_float := binary_normalize 53 1024 z 0 false.
Definition FLT_MAX : float := SFmax_float 24 128.
Definition FLT_MAX_as_double : spec_float :=
  double_of_Z (16777215 * 2 ^ 104).

Definition demo_math : MathLib :=
  mkMath (fun x => x) (fun x => x) (fun x => x) (fun v => v).

Definition set_Sensitivity (c : SkrCamera) (v : float) : SkrCamera :=
  mkCamera (Position c) (Front c) (Up c) (Right c) (WorldUp c) (Yaw c)
           (Pitch c) (FOV c) v (LastX c) (LastY c) (FirstMouse c)
           (Initialized c).

(** The default camera after its first event, with the sensitivity set to
    NaN by the application. *)
Definition camera_nan_sensitivity : SkrCamera :=
  set_Sensitivity (set_FirstMouse SkrDefaultFPSCamera false) S754_nan.

(** A camera of finite members only: the last cursor row at [-FLT_MAX],
    the sensitivity 0. *)
Definition camera_far_cursor : SkrCamera :=
  set_Sensitivity
    (set_Last (set_FirstMouse SkrDefaultFPSCamera false)
              (float_of_Z 400) (SFopp FLT_MAX))
    fzero.

(** The default camera with its pitch set to 100 degrees. *)
Definition camera_pitch_100 : SkrCamera :=
  set_Pitch SkrDefaultFPSCamera (float_of_Z 100).

(** Zeros and finite numbers. *)
Definition is_finite (x : float) : bool :=
  match x with
  | S754_zero _ | S754_finite _ _ _ => true
  | _ => false
  end.

Definition is_zero (x : float) : bool :=
  match x with S754_zero _ => true | _ => false end.

(** Equal, or both zero: [==] of C on numbers. *)
Definition same_number (a b : float) : Prop :=
  a = b \/ (is_zero a = true /\ is_zero b = true).

(** [p] is NaN or lies in [[-89, 89]]. *)
Definition pitch_clamped (p : float) : Prop :=
  p = S754_nan \/ (fle fm89 p = true /\ fle p f89 = true).

(** ** Vocabulary of the statements *)

(** What [m_skr_last_error_set_with_meta] leaves in the buffer. *)
Definition prefix_fits (file : string) (line : Z) (func : string) : bool :=
  Z.of_nat (length (meta_prefix file line func)) <? SKR_LAST_ERROR_SIZE.

Definition is_empty (l : list ascii) : bool :=
  match l with [] => true | _ => false end.

(** The calls of one [m_skr_gl_create_shader] up to the status query. *)
Definition compile_calls (env : Backend) (t : Trace) (type : GLenum)
    (source : string) : Trace :=
  let shader := glCreate_result env (t ++ [glCreateShader type]) in
  t ++ [glCreateShader type; glShaderSource shader source;
        glCompileShader shader; glGetShaderiv_COMPILE_STATUS shader].

(** The calls of a successful [m_skr_read_file] up to the allocation. *)
Definition read_calls (t : Trace) (path contents : string) : Trace :=
  t ++ [fopen path; fseek_end; ftell; rewind;
        malloc (Z.of_nat (String.length contents) + 1)].

(** The function after the loop. *)
Definition link_compiled (env : Backend) (shaders : list GLuint) : M GLuint :=
  program <- m_skr_gl_create_program env shaders ;;
  call free ;;
  if program =? 0 then ret 0
  else last_error_clear ;; ret program.

(** The two clamps of the callback on a pitch [p]. *)
Definition clamp_pitch (p : float) : float :=
  let p := if fgt p f89 then f89 else p in
  if flt p fm89 then fm89 else p.

(** ** Further functions of the header *)

(** Program objects (skr.h 973-994).  The pointer argument of
    [m_skr_gl_shader_destroy] is [None] when NULL; the program name it
    points to is returned as the function leaves it. *)
Definition m_skr_gl_shader_use (program : GLuint) : M unit :=
  call (glUseProgram program) ;;
  last_error_clear.

Definition m_skr_gl_shader_destroy (program : option GLuint)
  : M (option GLuint) :=
  match program with
  | Some p =>
      if negb (p =? 0) then
        call (glDeleteProgram p) ;;
        last_error_clear ;;
        ret (Some 0)
      else ret (Some p)
  | None => ret None
  end.

(** The error macro of the earlier variant of the header
    (src/unnamed/part_001, 98-99): a plain bounded [snprintf] of the
    message, with no prefix. *)
Module LegacyError.

Definition SKR_LAST_ERROR_SET (msg : string) (SKR_LAST_ERROR : cbuf) : cbuf :=
  fst (snprintf SKR_LAST_ERROR 0 SKR_LAST_ERROR_SIZE (text msg)).

End LegacyError.

(** A mesh and a model as a teardown leaves them. *)
Definition zero_mesh (mesh : SkrMesh) : SkrMesh :=
  mkMesh 0 0 0 (VertexCount mesh) (Indices mesh) (mesh_Textures mesh) 0.

Definition zero_model (model : SkrModel) : SkrModel :=
  match Meshes model with
  | None => model
  | Some meshes =>
      mkModel (Some (map zero_mesh meshes)) (model_Textures model)
              (model_Path model)
  end.

(** The calls of a teardown for one mesh and one model. *)
Definition mesh_finalize_calls (mesh : SkrMesh) : Trace :=
  mesh_texture_deletes mesh
  ++ (if VAO mesh =? 0 then [] else [glDeleteVertexArrays (VAO mesh)])
  ++ (if VBO mesh =? 0 then [] else [glDeleteBuffers (VBO mesh)])
  ++ (if EBO mesh =? 0 then [] else [glDeleteBuffers (EBO mesh)]).

Definition model_finalize_calls (model : SkrModel) : Trace :=
  match Meshes model with
  | None => []
  | Some meshes => flat_map mesh_finalize_calls meshes
  end.

Definition unbind_calls : Trace :=
  [glBindVertexArray 0; glBindBuffer_ARRAY 0; glBindBuffer_ELEMENT_ARRAY 0;
   glUseProgram 0].

Definition is_object_delete (c : Call) : bool :=
  match c with
  | glDeleteVertexArrays _ | glDeleteBuffers _ => true
  | _ => false
  end.

(** The calls of [m_skr_gl_create_program] up to the status query. *)
Definition link_calls (env : Backend) (t : Trace) (shaders : list GLuint)
  : Trace :=
  let program := glCreate_result env (t ++ [glCreateProgram]) in
  t ++ glCreateProgram :: map (glAttachShader program) shaders
    ++ [glLinkProgram program; glGetProgramiv_LINK_STATUS program].

Definition release_calls (program : GLuint) (shaders : list GLuint) : Trace :=
  flat_map (fun sh => [glDetachShader program sh; glDeleteShader sh]) shaders.

(** A driver like [demo_backend] whose allocations all fail, and one whose
    programs never link. *)
Definition no_memory_backend : Backend :=
  mkBackend (FILE_ demo_backend) (fopen_result demo_backend) (fun _ => false)
    (glCreate_result demo_backend) (COMPILE_STATUS demo_backend)
    (LINK_STATUS demo_backend) (InfoLog demo_backend)
    (FramebufferSize demo_backend) (InputHandler_effect demo_backend)
    (SKR_BACKEND_API demo_backend) (SKR_BACKEND_WINDOW demo_backend).

Definition no_link_backend : Backend :=
  mkBackend (FILE_ demo_backend) (fopen_result demo_backend)
    (malloc_result demo_backend)
    (glCreate_result demo_backend) (COMPILE_STATUS demo_backend)
    (fun _ => false) (InfoLog demo_backend)
    (FramebufferSize demo_backend) (InputHandler_effect demo_backend)
    (SKR_BACKEND_API demo_backend) (SKR_BACKEND_WINDOW demo_backend).

(** ** The loader and the stream (skr.h 629-653)

    [m_skr_read_file] above takes the length from the bytes of the file
    and returns those bytes: what the calls give on a regular file that
    is read whole.  Here the answers of [ftell], [malloc] and [fread] are
    kept apart, as the code has them.  The length is what [ftell] answers,
    unchecked; the block has [len + 1] bytes of whatever [malloc] left in
    it; [fread] overwrites as many bytes as it delivers, at most [len], and
    its result is not looked at; the terminator is written at index
    [len]. *)

Record Libc := mkLibc {
  LONG_MAX : Z;
  ftell_result : Trace -> Z;               (* -1: failure *)
  fread_result : Trace -> list ascii;      (* the bytes delivered *)
  malloc_block : Trace -> nat -> ascii     (* a fresh block, byte by byte *)
}.

(** How a call ends: it returns, or it runs into behaviour that the C
    standard leaves undefined. *)
Inductive Outcome (A : Type) :=
| Returned (a : A)
| Undefined.

Arguments Returned {A} a.
Arguments Undefined {A}.

Module Stdio.

Section Loader.

Variable env : Backend.
Variable libc : Libc.

(** The buffer is returned as the array it is; callers read it as a C
    string. *)
Definition m_skr_read_file (path : string) : M (Outcome (option cbuf)) :=
  file <- extern (fopen path) (fopen_result env) ;;
  match file with
  | None =>
      m_skr_last_error_set env 632 "m_skr_read_file" "failed to open" ;;
      ret (Returned None)
  | Some _ =>
      call fseek_end ;;
      len <- extern ftell (ftell_result libc) ;;
      call rewind ;;
      if LONG_MAX libc <=? len then
        ret Undefined                      (* [len + 1] overflows a [long] *)
      else
        buffer <- extern (malloc (len + 1))
                    (fun t =>
                       if malloc_result env t then
                         Some (map (malloc_block libc t)
                                   (seq 0 (Z.to_nat (len + 1))))
                       else None) ;;
        match buffer with
        | None =>
            call fclose ;;
            m_skr_last_error_set env 643 "m_skr_read_file"
              "failed to open" ;;
            ret (Returned None)
        | Some block =>
            bytes <- extern (fread len) (fread_result libc) ;;
            if len <? 0 then
              ret Undefined                (* [buffer[len]] is outside the block *)
            else
              let buffer := store block 0 (firstn (Z.to_nat len) bytes) in
              let buffer := store buffer (Z.to_nat len) [NUL] in
              call fclose ;;
              last_error_clear ;;
              ret (Returned (Some buffer))
        end
  end.

End Loader.

End Stdio.

(** Streams to run the loader on: a regular file that is read whole, a
    stream that cannot be positioned and delivers its bytes all the same,
    and a file of which [fread] delivers only the first bytes. *)
Definition regular_file (contents : string) : Libc :=
  mkLibc 9223372036854775807
    (fun _ => Z.of_nat (String.length contents))
    (fun _ => list_ascii_of_string contents)
    (fun _ _ => "?"%char).

Definition unseekable_stream (contents : string) : Libc :=
  mkLibc 9223372036854775807
    (fun _ => -1)
    (fun _ => list_ascii_of_string contents)
    (fun _ _ => "?"%char).

Definition short_read (contents : string) (delivered : nat) : Libc :=
  mkLibc 9223372036854775807
    (fun _ => Z.of_nat (String.length contents))
    (fun _ => firstn delivered (list_ascii_of_string contents))
    (fun _ _ => "?"%char).

(** The calls of a loader run up to the allocation, for the length [len]
    that [ftell] answered. *)
Definition stream_calls (t : Trace) (path : string) (len : Z) : Trace :=
  t ++ [fopen path; fseek_end; ftell; rewind; malloc (len + 1)].

(** ** Window, textures and the public interface
    (skr.h 664-772, 1137-1139, 1171-1365)

    These functions call into GLFW, the texture part of OpenGL and the
    user's image loader.  Their calls are recorded in a trace of their own,
    in which a call of the kind recorded before appears as [core]; a
    function modelled on the world runs, lifted, on the [core] calls made
    so far. *)

Inductive PlatformCall :=
| core (c : Call)
| glfwInit
| glfwWindowHint (hint value : Z)
| glfwCreateWindow (width height : Z) (title : string)
| glfwTerminate
| glfwSetFramebufferSizeCallback (window : Z)
| glfwMakeContextCurrent (window : Z)
| glfwSetCursorPosCallback (window : Z)
| glfwWindowShouldClose (window : Z)
| glfwSetInputMode_CURSOR_DISABLED (window : Z)
| glViewport (x y width height : Z)
| glGenTextures
| glBindTexture_2D (texture : GLuint)
| glTexParameteri_2D (pname param : Z)
| m_skr_load_image_from_file (path : string)
| glTexImage2D_2D (format width height : Z)
| glGenerateMipmap_2D
| m_skr_free_image
| glDeleteTextures_array (count : Z) (textures : list GLuint)
| glGenVertexArrays
| glGenBuffers
| glBufferData_ARRAY_STATIC (size : Z)
| glVertexAttribPointer_FLOAT (index size stride offset : Z)
| glEnableVertexAttribArray (index : Z).

Record System := mkSystem {
  sys_error : cbuf;                 (* SKR_LAST_ERROR *)
  sys_calls : list PlatformCall     (* every external call so far *)
}.

Definition P (A : Type) : Type := System -> A * System.

Definition pret {A} (a : A) : P A := fun s => (a, s).

Definition pbind {A B} (c : P A) (k : A -> P B) : P B :=
  fun s => let '(a, s1) := c s in k a s1.

Declare Scope platform_scope.
Delimit Scope platform_scope with platform.
Notation "x <- c ;; k" := (pbind c (fun x => k))
  (at level 61, c at next level, right associativity) : platform_scope.
Notation "c ;; k" := (pbind c (fun _ => k))
  (at level 61, right associativity) : platform_scope.

Definition pextern {A} (c : PlatformCall) (answer : list PlatformCall -> A)
  : P A :=
  fun s => let t := sys_calls s ++ [c] in (answer t, mkSystem (sys_error s) t).

Definition pcall (c : PlatformCall) : P unit := pextern c (fun _ => tt).

(** The calls recorded before, among those of a platform trace. *)
Fixpoint core_calls (t : list PlatformCall) : Trace :=
  match t with
  | [] => []
  | core c :: r => c :: core_calls r
  | _ :: r => core_calls r
  end.

(** A computation on the world, run on the system: the calls it adds are
    appended as [core] calls. *)
Definition lift {A} (c : M A) : P A :=
  fun s =>
    let w := mkWorld (sys_error s) (core_calls (sys_calls s)) in
    let '(a, w') := c w in
    (a, mkSystem (SKR_LAST_ERROR w')
                 (sys_calls s
                  ++ map core (skipn (length (calls w)) (calls w')))).

(** Values of [GLFW/glfw3.h] and [GL/glew.h]. *)
Definition GLFW_CONTEXT_VERSION_MAJOR : Z := 139266.
Definition GLFW_CONTEXT_VERSION_MINOR : Z := 139267.
Definition GLFW_OPENGL_PROFILE : Z := 139272.
Definition GLFW_OPENGL_CORE_PROFILE : Z := 204801.
Definition GLFW_OPENGL_FORWARD_COMPAT : Z := 139270.
Definition GL_TRUE : Z := 1.
Definition GL_TEXTURE_MAG_FILTER : Z := 10240.
Definition GL_TEXTURE_MIN_FILTER : Z := 10241.
Definition GL_TEXTURE_WRAP_S : Z := 10242.
Definition GL_TEXTURE_WRAP_T : Z := 10243.
Definition GL_REPEAT : Z := 10497.
Definition GL_LINEAR : Z := 9729.
Definition GL_LINEAR_MIPMAP_LINEAR : Z := 9987.
Definition GL_RED : Z := 6403.
Definition GL_RGB : Z := 6407.
Definition GL_RGBA : Z := 6408.

(** What GLFW, the driver and the user's image loader answer, as functions
    of the calls made so far, and whether [__APPLE__] is defined. *)
Record Platform := mkPlatform {
  glfwInit_result : list PlatformCall -> bool;
  glfwCreateWindow_result : list PlatformCall -> Z;      (* 0: NULL *)
  glfwWindowShouldClose_result : list PlatformCall -> Z;
  glGen_result : list PlatformCall -> GLuint;
    (* glGenTextures, glGenVertexArrays, glGenBuffers *)
  load_image_result : list PlatformCall -> option (Z * Z * Z);
    (* None: NULL; Some: width, height and channels written *)
  APPLE : bool
}.

Definition set_Handler_GLFW (w : SkrWindow) (handle : Z) : SkrWindow :=
  mkWindow (Title w) (Width w) (Height w) (InputHandler w) (Backend_Type w)
           handle.

Definition LF : string := String "010"%char EmptyString.

(** The sources of [m_skr_gl_triangle]. *)
Definition triangle_vert : string :=
  "#version 330 core" ++ LF
  ++ "layout (location = 0) in vec3 aPos;" ++ LF
  ++ "layout (location = 1) in vec3 aColor;" ++ LF
  ++ "out vec3 ourColor;" ++ LF
  ++ "void main() {" ++ LF
  ++ "  gl_Position = vec4(aPos, 1.0);" ++ LF
  ++ "  ourColor = aColor;" ++ LF
  ++ "}" ++ LF.

Definition triangle_frag : string :=
  "#version 330 core" ++ LF
  ++ "out vec4 FragColor;" ++ LF
  ++ "in vec3 ourColor;" ++ LF
  ++ "void main() {" ++ LF
  ++ "  FragColor = vec4(ourColor, 1.0f);" ++ LF
  ++ "}" ++ LF.

Section Interface.

Variable env : Backend.
Variable plat : Platform.

Local Open Scope platform_scope.

Definition p_error_set (line : Z) (func msg : string) : P unit :=
  fun s =>
    (tt, mkSystem (m_skr_last_error_set_with_meta (FILE_ env) line func msg
                                                  (sys_error s))
                  (sys_calls s)).

Definition p_error_clear : P unit :=
  fun s => (tt, mkSystem (m_skr_last_error_clear (sys_error s)) (sys_calls s)).

(** Resize callbacks (skr.h 664-684). *)
Definition m_skr_gl_framebuffer_size_callback (width height : Z) : P unit :=
  pcall (glViewport 0 0 width height) ;;
  p_error_clear.

Definition m_skr_gl_glfw_framebuffer_size_callback (window width height : Z)
  : P unit :=
  m_skr_gl_framebuffer_size_callback width height ;;
  p_error_clear.

(** [m_skr_gl_glfw_init(w)] (skr.h 736-772).  [w] is the pointer ([None]:
    NULL) and [g_skr_camera] the global camera pointer; the window is
    returned as the function leaves it. *)
Definition m_skr_gl_glfw_init (g_skr_camera : option SkrCamera)
    (w : option SkrWindow) : P (Z * option SkrWindow) :=
  initialized <- pextern glfwInit (glfwInit_result plat) ;;
  match initialized, w with
  | true, Some win =>
      pcall (glfwWindowHint GLFW_CONTEXT_VERSION_MAJOR 3) ;;
      pcall (glfwWindowHint GLFW_CONTEXT_VERSION_MINOR 3) ;;
      pcall (glfwWindowHint GLFW_OPENGL_PROFILE GLFW_OPENGL_CORE_PROFILE) ;;
      (if APPLE plat
       then pcall (glfwWindowHint GLFW_OPENGL_FORWARD_COMPAT GL_TRUE)
       else pret tt) ;;
      handle <- pextern (glfwCreateWindow (Width win) (Height win) (Title win))
                        (glfwCreateWindow_result plat) ;;
      let win := set_Handler_GLFW win handle in
      if handle =? 0 then
        p_error_set 756 "m_skr_gl_glfw_init" "window backend is NULL" ;;
        pcall glfwTerminate ;;
        pret (0, Some win)
      else
        pcall (glfwSetFramebufferSizeCallback handle) ;;
        pcall (glfwMakeContextCurrent handle) ;;
        match g_skr_camera with
        | Some _ => pcall (glfwSetCursorPosCallback handle)
        | None => pret tt
        end ;;
        p_error_clear ;;
        pret (1, Some win)
  | _, _ =>
      p_error_set 738 "m_skr_gl_glfw_init"
        "either glfwInit != 1 or SkrWindow == NULL" ;;
      pret (0, w)
  end.

(** [SkrWindowInit], [SkrInit] (skr.h 1238-1258). *)
Definition SkrWindowInit (g_skr_camera : option SkrCamera)
    (w : option SkrWindow) : P (Z * option SkrWindow) :=
  match SKR_BACKEND_API env, SKR_BACKEND_WINDOW env with
  | SKR_BACKEND_API_GL, SKR_BACKEND_WINDOW_GLFW =>
      r <- m_skr_gl_glfw_init g_skr_camera w ;;
      if fst r =? 0 then pret (0, snd r) else pret (1, snd r)
  | _, _ => pret (1, w)
  end.

Definition SkrInit (g_skr_camera : option SkrCamera) (w : option SkrWindow)
  : P SkrState :=
  r <- SkrWindowInit g_skr_camera w ;;
  if fst r =? 0 then pret (mkState None [] [])
  else pret (mkState (snd r) [] []).

(** [m_skr_gl_glfw_should_close], [SkrWindowShouldClose]
    (skr.h 1137-1139, 1260-1266). *)
Definition m_skr_gl_glfw_should_close (w : SkrWindow) : P Z :=
  pextern (glfwWindowShouldClose (Handler_GLFW w))
          (glfwWindowShouldClose_result plat).

Definition SkrWindowShouldClose (w : SkrWindow) : P Z :=
  match SKR_BACKEND_WINDOW env with
  | SKR_BACKEND_WINDOW_GLFW => m_skr_gl_glfw_should_close w
  | _ => pret 0
  end.

(** Textures (skr.h 1171-1236).  [m_skr_gl_load_texture_2d_from_path]
    returns its result and the name written through [texture]. *)
Definition m_skr_gl_load_texture_2d_from_path (path : string)
  : P (Z * GLuint) :=
  texture <- pextern glGenTextures (glGen_result plat) ;;
  pcall (glBindTexture_2D texture) ;;
  pcall (glTexParameteri_2D GL_TEXTURE_WRAP_S GL_REPEAT) ;;
  pcall (glTexParameteri_2D GL_TEXTURE_WRAP_T GL_REPEAT) ;;
  pcall (glTexParameteri_2D GL_TEXTURE_MIN_FILTER GL_LINEAR_MIPMAP_LINEAR) ;;
  pcall (glTexParameteri_2D GL_TEXTURE_MAG_FILTER GL_LINEAR) ;;
  data <- pextern (m_skr_load_image_from_file path)
                  (load_image_result plat) ;;
  match data with
  | None =>
      p_error_set 1186 "m_skr_gl_load_texture_2d_from_path"
        "failed to load texture" ;;
      pret (0, texture)
  | Some (width, height, nrChannels) =>
      let format :=
        if nrChannels =? 1 then GL_RED
        else if nrChannels =? 3 then GL_RGB
        else if nrChannels =? 4 then GL_RGBA
        else GL_RGB in
      pcall (glTexImage2D_2D format width height) ;;
      pcall glGenerateMipmap_2D ;;
      pcall m_skr_free_image ;;
      p_error_clear ;;
      pret (1, texture)
  end.

(** The loop of [m_skr_gl_load_textures_2d_from_paths] over the paths from
    index [length written] on; [written] are the entries of [textures]
    written so far.  The result comes with the entries written. *)
Fixpoint load_textures_from (paths : list string) (written : list GLuint)
  : P (Z * list GLuint) :=
  match paths with
  | [] =>
      p_error_clear ;;
      pret (1, written)
  | path :: rest =>
      r <- m_skr_gl_load_texture_2d_from_path path ;;
      if fst r =? 0 then pret (0, written ++ [snd r])
      else load_textures_from rest (written ++ [snd r])
  end.

(** [paths] holds [count] entries; a [count] of 0 or less is the empty
    list. *)
Definition m_skr_gl_load_textures_2d_from_paths (paths : list string)
  : P (Z * list GLuint) :=
  load_textures_from paths [].

(** [textures] is [None] when NULL. *)
Definition m_skr_free_textures_2d (textures : option (list GLuint))
    (count : Z) : P unit :=
  match textures with
  | Some l =>
      if count >? 0 then
        pcall (glDeleteTextures_array count l) ;;
        p_error_clear
      else pret tt
  | None => pret tt
  end.

(** [SkrFinalize(s)] (skr.h 1279-1291), for a non-NULL [s]: [None] stands
    for the read of [s->Window->Backend.Type] through a NULL [Window],
    which C leaves undefined. *)
Definition SkrFinalize (s : SkrState) : P (option SkrState) :=
  match SKR_BACKEND_API env with
  | SKR_BACKEND_API_GL =>
      s' <- lift (m_skr_gl_renderer_finalize (Some s)) ;;
      match Window s with
      | None => pret None
      | Some win =>
          match Backend_Type win with
          | SKR_BACKEND_WINDOW_GLFW => pcall glfwTerminate
          | _ => pret tt
          end ;;
          pret (Some (mkState None [] (Programs s)))
      end
  | _ => pret (Some (mkState None [] (Programs s)))
  end.

(** [m_skr_gl_triangle(s)], [SkrTriangle(s)] (skr.h 1293-1356).  The static
    mesh and model are zero apart from the members the function writes. *)
Definition m_skr_gl_triangle (s : SkrState) : P (GLuint * SkrState) :=
  program <- lift (m_skr_gl_create_program_from_shaders env
                     (Some [mkShader GL_VERTEX_SHADER (Some triangle_vert) None;
                            mkShader GL_FRAGMENT_SHADER (Some triangle_frag)
                                     None])) ;;
  pcall (core (glUseProgram program)) ;;
  vao <- pextern glGenVertexArrays (glGen_result plat) ;;
  vbo <- pextern glGenBuffers (glGen_result plat) ;;
  pcall (core (glBindVertexArray vao)) ;;
  pcall (core (glBindBuffer_ARRAY vbo)) ;;
  pcall (glBufferData_ARRAY_STATIC 72) ;;
  pcall (glVertexAttribPointer_FLOAT 0 3 24 0) ;;
  pcall (glEnableVertexAttribArray 0) ;;
  pcall (glVertexAttribPointer_FLOAT 1 3 24 12) ;;
  pcall (glEnableVertexAttribArray 1) ;;
  pcall (core (glBindBuffer_ARRAY 0)) ;;
  pcall (core (glBindVertexArray 0)) ;;
  let mesh := mkMesh vao vbo 0 3 0 None program in
  let model := mkModel (Some [mesh]) None None in
  pret (program, mkState (Window s) [model] (Programs s)).

Definition SkrTriangle (s : SkrState) : P SkrState :=
  match SKR_BACKEND_API env with
  | SKR_BACKEND_API_GL =>
      r <- m_skr_gl_triangle s ;;
      pret (snd r)
  | _ => pret s
  end.

End Interface.

(** A platform to run the model on: GLFW starts, windows get the handle
    77, names count the calls made so far, and only ["missing.png"] cannot
    be loaded; other images are 4 by 4 with 4 channels. *)
Definition last_platform_call (t : list PlatformCall) : option PlatformCall :=
  last (map Some t) None.

Definition demo_platform : Platform :=
  mkPlatform (fun _ => true) (fun _ => 77) (fun _ => 0)
    (fun t => Z.of_nat (length t))
    (fun t => match last_platform_call t with
              | Some (m_skr_load_image_from_file path) =>
                  if String.eqb path "missing.png" then None
                  else Some (4, 4, 4)
              | _ => None
              end)
    false.

Definition no_window_platform : Platform :=
  mkPlatform (fun _ => true) (fun _ => 0) (fun _ => 0)
    (glGen_result demo_platform) (load_image_result demo_platform) false.

Definition fresh_system : System := mkSystem blank_buffer [].

(** The paths of a batch load one after the other, from [s] on: the names
    written and the system reached; [None] when one of them fails. *)
Fixpoint load_prefix (env : Backend) (plat : Platform) (paths : list string)
    (s : System) : option (list GLuint * System) :=
  match paths with
  | [] => Some ([], s)
  | path :: rest =>
      let '(r, s1) := m_skr_gl_load_texture_2d_from_path env plat path s in
      if fst r =? 0 then None
      else match load_prefix env plat rest s1 with
           | Some (names, s2) => Some (snd r :: names, s2)
           | None => None
           end
  end.

Definition is_texture_delete (c : PlatformCall) : bool :=
  match c with
  | glDeleteTextures_array _ _ | core (glDeleteTextures _) => true
  | _ => false
  end.

(** The calls of [m_skr_gl_glfw_init] up to the creation of the window,
    and of [m_skr_gl_load_texture_2d_from_path] up to the image load. *)
Definition init_window_calls (plat : Platform) (t : list PlatformCall)
    (win : SkrWindow) : list PlatformCall :=
  t ++ [glfwInit;
        glfwWindowHint GLFW_CONTEXT_VERSION_MAJOR 3;
        glfwWindowHint GLFW_CONTEXT_VERSION_MINOR 3;
        glfwWindowHint GLFW_OPENGL_PROFILE GLFW_OPENGL_CORE_PROFILE]
    ++ (if APPLE plat
        then [glfwWindowHint GLFW_OPENGL_FORWARD_COMPAT GL_TRUE] else [])
    ++ [glfwCreateWindow (Width win) (Height win) (Title win)].

Definition texture_load_calls (plat : Platform) (t : list PlatformCall)
    (path : string) : list PlatformCall :=
  let texture := glGen_result plat (t ++ [glGenTextures]) in
  t ++ [glGenTextures; glBindTexture_2D texture;
        glTexParameteri_2D GL_TEXTURE_WRAP_S GL_REPEAT;
        glTexParameteri_2D GL_TEXTURE_WRAP_T GL_REPEAT;
        glTexParameteri_2D GL_TEXTURE_MIN_FILTER GL_LINEAR_MIPMAP_LINEAR;
        glTexParameteri_2D GL_TEXTURE_MAG_FILTER GL_LINEAR;
        m_skr_load_image_from_file path].

Definition texture_format (nrChannels : Z) : Z :=
  if nrChannels =? 1 then GL_RED
  else if nrChannels =? 3 then GL_RGB
  else if nrChannels =? 4 then GL_RGBA
  else GL_RGB.

Definition upload_calls (image : option (Z * Z * Z)) : list PlatformCall :=
  match image with
  | Some (width, height, nrChannels) =>
      [glTexImage2D_2D (texture_format nrChannels) width height;
       glGenerateMipmap_2D; m_skr_free_image]
  | None => []
  end.

Definition is_some {A} (o : option A) : bool :=
  match o with Some _ => true | None => false end.

(** * Properties *)

(** ** C strings *)

Lemma cstr_nonul (b : cbuf) : ~ In NUL (cstr b).
Proof.
  induction b as [|c r IH]; simpl; [tauto|].
  destruct (Ascii.eqb_spec c NUL) as [E|E]; simpl; [tauto|].
  intros [H|H]; [congruence | exact (IH H)].
Qed.

Lemma cstr_app_NUL (t r : list ascii) :
  ~ In NUL t -> cstr (t ++ NUL :: r) = t.
Proof.
  induction t as [|c t IH]; simpl; intros H.
  - reflexivity.
  - destruct (Ascii.eqb_spec c NUL) as [E|E].
    + exfalso; apply H; left; exact E.
    + f_equal; apply IH; tauto.
Qed.

Lemma nonul_app (a b : list ascii) :
  ~ In NUL a -> ~ In NUL b -> ~ In NUL (a ++ b).
Proof. intros Ha Hb H; apply in_app_or in H; tauto. Qed.

Lemma nonul_firstn (n : nat) (l : list ascii) :
  ~ In NUL l -> ~ In NUL (firstn n l).
Proof.
  intros H Hin; apply H.
  rewrite <- (firstn_skipn n l); apply in_or_app; left; exact Hin.
Qed.

Lemma uint_digits_nonul (d : Decimal.uint) :
  ~ In NUL (list_ascii_of_string (NilEmpty.string_of_uint d)).
Proof.
  induction d; simpl; try tauto;
    (intros [H|H]; [discriminate H | exact (IHd H)]).
Qed.

Lemma zuint_digits_nonul (d : Decimal.uint) :
  ~ In NUL (list_ascii_of_string (NilZero.string_of_uint d)).
Proof.
  destruct d; try apply uint_digits_nonul.
  simpl; intros [H|[]]; discriminate H.
Qed.

Lemma decimal_nonul (z : Z) : ~ In NUL (decimal z).
Proof.
  unfold decimal, NilZero.string_of_int.
  destruct (Z.to_int z) as [d|d].
  - apply zuint_digits_nonul.
  - simpl; intros [H|H]; [discriminate H|].
    revert H; apply zuint_digits_nonul.
Qed.

Lemma meta_prefix_nonul file line func :
  ~ In NUL (meta_prefix file line func).
Proof.
  unfold meta_prefix, text.
  repeat apply nonul_app;
    try apply cstr_nonul; try apply decimal_nonul;
    simpl; intros H; repeat (destruct H as [H|H]; [discriminate H|]);
    exact H.
Qed.

Lemma SKR_OK_cstr (b : cbuf) :
  SKR_OK b = match cstr b with [] => true | _ => false end.
Proof.
  unfold SKR_OK; destruct b as [|c r]; simpl; [reflexivity|].
  destruct (Ascii.eqb c NUL); reflexivity.
Qed.

Lemma store_length (b : cbuf) (off : nat) (bytes : list ascii) :
  (off + length bytes <= length b)%nat ->
  length (store b off bytes) = length b.
Proof.
  intros H; unfold store.
  rewrite !length_app, length_firstn, length_skipn; lia.
Qed.

Lemma store_0 (b : cbuf) (bytes : list ascii) :
  store b 0 bytes = bytes ++ skipn (length bytes) b.
Proof. reflexivity. Qed.

Lemma store_after (p r : list ascii) (bytes : list ascii) :
  store (p ++ r) (length p) bytes
  = p ++ bytes ++ skipn (length bytes) r.
Proof.
  unfold store.
  rewrite firstn_app, firstn_all, Nat.sub_diag; simpl.
  rewrite app_nil_r, skipn_app.
  rewrite (skipn_all2 p) by lia; simpl.
  replace (length p + length bytes - length p)%nat with (length bytes) by lia.
  reflexivity.
Qed.

Lemma clear_is_ok (b : cbuf) : SKR_OK (m_skr_last_error_clear b) = true.
Proof. destruct b; reflexivity. Qed.

Lemma clear_length (b : cbuf) :
  length (m_skr_last_error_clear b) = length b.
Proof. destruct b; reflexivity. Qed.

Lemma SIZE_bounds : 0 < SKR_LAST_ERROR_SIZE <= INT_MAX.
Proof. unfold SKR_LAST_ERROR_SIZE, INT_MAX; lia. Qed.

Lemma set_with_meta_shape file line func msg (b : cbuf) :
  exists rest,
    m_skr_last_error_set_with_meta file line func msg b
    = firstn (Z.to_nat (SKR_LAST_ERROR_SIZE - 1))
        ((if prefix_fits file line func
          then meta_prefix file line func else []) ++ text msg)
      ++ NUL :: rest.
Proof.
  pose proof SIZE_bounds as HS.
  unfold m_skr_last_error_set_with_meta, prefix_fits, snprintf.
  generalize (meta_prefix file line func) as P.
  generalize (text msg) as T.
  generalize dependent SKR_LAST_ERROR_SIZE.
  intros n HS T P.
  destruct (n <=? 0) eqn:En; [apply Z.leb_le in En; lia|].
  destruct (Z.of_nat (length P) <? n) eqn:Efit.
  - apply Z.ltb_lt in Efit.
    destruct (Z.of_nat (length P) >? INT_MAX) eqn:Ebig;
      [apply Z.gtb_lt in Ebig; lia|].
    replace ((Z.of_nat (length P) <? 0) || (Z.of_nat (length P) >=? n))
      with false
      by (symmetry; apply orb_false_iff; split;
          [apply Z.ltb_ge; lia | rewrite Z.geb_leb; apply Z.leb_gt; lia]).
    rewrite Nat2Z.id.
    destruct (n - Z.of_nat (length P) <=? 0) eqn:En2;
      [apply Z.leb_le in En2; lia|].
    rewrite store_0, (firstn_all2 P) by lia.
    rewrite <- app_assoc.
    cbv beta iota delta [fst].
    rewrite store_after.
    eexists.
    rewrite firstn_app, (firstn_all2 P) by lia.
    rewrite <- !app_assoc.
    replace (Z.to_nat (n - 1) - length P)%nat
      with (Z.to_nat (n - Z.of_nat (length P) - 1)) by lia.
    reflexivity.
  - apply Z.ltb_ge in Efit.
    match goal with
    | |- context [if ?c then 0 else ?w] =>
        replace (if c then 0 else w) with 0
    end.
    2:{ destruct (Z.of_nat (length P) >? INT_MAX) eqn:Ebig;
          [reflexivity|].
        replace (Z.of_nat (length P) >=? n) with true
          by (symmetry; rewrite Z.geb_leb; apply Z.leb_le; lia).
        rewrite orb_true_r; reflexivity. }
    rewrite Z.sub_0_r, En.
    cbv beta iota delta [fst].
    change (Z.to_nat 0) with 0%nat.
    rewrite store_0.
    eexists. rewrite <- app_assoc. reflexivity.
Qed.

Lemma set_with_meta_length file line func msg (b : cbuf) :
  Z.of_nat (length b) = SKR_LAST_ERROR_SIZE ->
  Z.of_nat (length (m_skr_last_error_set_with_meta file line func msg b))
  = SKR_LAST_ERROR_SIZE.
Proof.
  pose proof SIZE_bounds as HS.
  unfold m_skr_last_error_set_with_meta, snprintf.
  generalize (meta_prefix file line func) as P.
  generalize (text msg) as T.
  generalize dependent SKR_LAST_ERROR_SIZE.
  intros n HS T P Hb.
  destruct (n <=? 0) eqn:En; [apply Z.leb_le in En; lia|].
  set (b1 := store b 0 (firstn (Z.to_nat (n - 1)) P ++ [NUL])).
  assert (Hb1 : length b1 = length b).
  { apply store_length. rewrite length_app, length_firstn; simpl; lia. }
  match goal with
  | |- context [if ?c then 0 else ?v] => set (w := if c then 0 else v)
  end.
  assert (Hw : 0 <= w < n).
  { subst w.
    match goal with |- context [if ?c then _ else _] => destruct c eqn:E end;
      [lia|].
    apply orb_false_iff in E; destruct E as [E1 E2].
    apply Z.ltb_ge in E1. rewrite Z.geb_leb in E2. apply Z.leb_gt in E2.
    lia. }
  destruct (n - w <=? 0) eqn:En2; [apply Z.leb_le in En2; lia|].
  cbv beta iota delta [fst]. rewrite store_length; [lia|].
  rewrite length_app, length_firstn; simpl; lia.
Qed.

Lemma set_with_meta_reads file line func msg (b : cbuf) :
  cstr (m_skr_last_error_set_with_meta file line func msg b)
  = firstn (Z.to_nat (SKR_LAST_ERROR_SIZE - 1))
      ((if prefix_fits file line func
        then meta_prefix file line func else []) ++ text msg).
Proof.
  destruct (set_with_meta_shape file line func msg b) as [rest ->].
  apply cstr_app_NUL, nonul_firstn, nonul_app.
  - destruct (prefix_fits file line func);
      [apply meta_prefix_nonul | simpl; tauto].
  - apply cstr_nonul.
Qed.

Lemma meta_prefix_starts file line func :
  exists r, meta_prefix file line func = "["%char :: r.
Proof. unfold meta_prefix; simpl; eexists; reflexivity. Qed.

Lemma set_with_meta_ok file line func msg (b : cbuf) :
  SKR_OK (m_skr_last_error_set_with_meta file line func msg b)
  = negb (prefix_fits file line func) && is_empty (text msg).
Proof.
  rewrite SKR_OK_cstr, set_with_meta_reads.
  replace (Z.to_nat (SKR_LAST_ERROR_SIZE - 1))
    with (S (Z.to_nat (SKR_LAST_ERROR_SIZE - 2)))
    by (unfold SKR_LAST_ERROR_SIZE; lia).
  destruct (prefix_fits file line func).
  - destruct (meta_prefix_starts file line func) as [r ->]; reflexivity.
  - destruct (text msg); reflexivity.
Qed.

(** C4 (as amended).  Clearing the error channel always leaves it ok.
    Setting it never writes outside the [SKR_LAST_ERROR_SIZE] bytes of the
    buffer; the buffer then reads back, cut to [SKR_LAST_ERROR_SIZE - 1]
    characters, the formatted message after the ["[SKR] ERROR
    file:line:func: "] prefix when that prefix is shorter than the buffer,
    and the formatted message alone when it is not; the channel is then not
    ok, except when the prefix does not fit and the message is empty. *)
Theorem error_channel_clear_then_set :
  forall (buf : cbuf) (file : string) (line : Z) (func msg : string),
    Z.of_nat (length buf) = SKR_LAST_ERROR_SIZE ->
    let buf' := m_skr_last_error_set_with_meta file line func msg buf in
    let kept :=
      if prefix_fits file line func then meta_prefix file line func
      else [] in
    SKR_OK (m_skr_last_error_clear buf) = true
    /\ Z.of_nat (length (m_skr_last_error_clear buf)) = SKR_LAST_ERROR_SIZE
    /\ Z.of_nat (length buf') = SKR_LAST_ERROR_SIZE
    /\ cstr buf'
       = firstn (Z.to_nat (SKR_LAST_ERROR_SIZE - 1)) (kept ++ text msg)
    /\ SKR_OK buf'
       = negb (prefix_fits file line func) && is_empty (text msg).
Proof.
  intros buf file line func msg Hlen buf' kept.
  split; [apply clear_is_ok|].
  split; [rewrite clear_length; exact Hlen|].
  split; [apply set_with_meta_length; exact Hlen|].
  split; [apply set_with_meta_reads | apply set_with_meta_ok].
Qed.

Lemma error_channel_clear_then_set_witness :
  Z.of_nat (length stale_buffer) = SKR_LAST_ERROR_SIZE
  /\ SKR_OK (m_skr_last_error_clear stale_buffer) = true
  /\ SKR_OK (m_skr_last_error_set_with_meta
               "skr/skr.h" 632 "m_skr_read_file" "failed to open"
               stale_buffer) = false.
Proof.
  assert (H : Z.of_nat (length stale_buffer) = SKR_LAST_ERROR_SIZE)
    by (vm_compute; reflexivity).
  split; [exact H|].
  destruct (error_channel_clear_then_set
              stale_buffer "skr/skr.h" 632 "m_skr_read_file"
              "failed to open" H) as (Hc & _ & _ & _ & Hs).
  split; [exact Hc|].
  rewrite Hs; vm_compute; reflexivity.
Defined.

(** C4, as stated, fails: with a file name longer than the buffer the
    prefix is dropped, and an empty message then leaves the channel ok
    after a set. *)
Lemma set_can_leave_channel_ok :
  SKR_OK stale_buffer = false
  /\ SKR_OK (m_skr_last_error_set_with_meta
               long_file_name 1 "f" "" stale_buffer) = true
  /\ cstr (m_skr_last_error_set_with_meta
             long_file_name 1 "f" "boom" stale_buffer)
     = list_ascii_of_string "boom".
Proof. vm_compute. repeat split. Qed.

(** ** Computations on the world *)

Ltac run_M :=
  unfold bind, ret, call, extern, m_skr_last_error_set, last_error_clear;
  cbn [fst snd calls SKR_LAST_ERROR].

Ltac norm_step :=
  first [ progress cbn [fst snd calls SKR_LAST_ERROR app negb]
        | progress change (Z.eqb 0 0) with true
        | progress change (Z.eqb 1 0) with false
        | progress cbv beta iota
        | rewrite <- app_assoc ].

Ltac norm_trace := repeat norm_step.

Lemma for_each_calls {A} (l : list A) (f : A -> Call) (w : World) :
  for_each l (fun a => call (f a)) w
  = (tt, mkWorld (SKR_LAST_ERROR w) (calls w ++ map f l)).
Proof.
  revert w; induction l as [|a l IH]; intros w; simpl.
  - rewrite app_nil_r; destruct w; reflexivity.
  - unfold bind at 1. unfold call at 1, extern at 1.
    rewrite IH; simpl. rewrite <- app_assoc; reflexivity.
Qed.

Lemma type_str_not_prog (type : GLenum) :
  String.eqb (type_str type) "prog" = false.
Proof.
  unfold type_str.
  destruct (type =? GL_VERTEX_SHADER); [reflexivity|].
  destruct (type =? GL_FRAGMENT_SHADER); [reflexivity|].
  destruct (type =? GL_GEOMETRY_SHADER); reflexivity.
Qed.

Section ShaderFacts.

Variable env : Backend.

Lemma create_shader_run (type : GLenum) (source : string) (w : World) :
  let shader := glCreate_result env (calls w ++ [glCreateShader type]) in
  let t := compile_calls env (calls w) type source in
  m_skr_gl_create_shader env type source w
  = if COMPILE_STATUS env t then
      (shader, mkWorld (m_skr_last_error_clear (SKR_LAST_ERROR w)) t)
    else
      (0, mkWorld
            (m_skr_last_error_set_with_meta (FILE_ env) 802
               "m_skr_gl_check_compile_errors"
               ("failed to compile " ++ type_str type ++ ": "
                ++ InfoLog env (t ++ [glGetShaderInfoLog shader]))
               (SKR_LAST_ERROR w))
            (t ++ [glGetShaderInfoLog shader; glDeleteShader shader])).
Proof.
  unfold m_skr_gl_create_shader, m_skr_gl_check_compile_errors,
    compile_calls.
  rewrite type_str_not_prog. run_M. norm_trace.
  destruct (COMPILE_STATUS env _); norm_trace; reflexivity.
Qed.

End ShaderFacts.

Section LoaderFacts.

Variable env : Backend.

Lemma read_file_run (path : string) (w : World) :
  m_skr_read_file env path w
  = match fopen_result env (calls w ++ [fopen path]) with
    | None =>
        (None, mkWorld
                 (m_skr_last_error_set_with_meta (FILE_ env) 632
                    "m_skr_read_file" "failed to open" (SKR_LAST_ERROR w))
                 (calls w ++ [fopen path]))
    | Some contents =>
        let t := read_calls (calls w) path contents in
        if malloc_result env t then
          (Some contents,
           mkWorld (m_skr_last_error_clear (SKR_LAST_ERROR w))
                   (t ++ [fread (Z.of_nat (String.length contents));
                          fclose]))
        else
          (None, mkWorld
                   (m_skr_last_error_set_with_meta (FILE_ env) 643
                      "m_skr_read_file" "failed to open" (SKR_LAST_ERROR w))
                   (t ++ [fclose]))
    end.
Proof.
  unfold m_skr_read_file, read_calls. run_M.
  destruct (fopen_result env _) as [contents|]; norm_trace;
    [|reflexivity].
  destruct (malloc_result env _); norm_trace; reflexivity.
Qed.

(** A message that prints at least one character leaves the channel not
    ok, whatever the file name of the translation unit. *)
Lemma set_nonempty_not_ok file line func msg (b : cbuf) :
  is_empty (text msg) = false ->
  SKR_OK (m_skr_last_error_set_with_meta file line func msg b) = false.
Proof.
  intros H. rewrite set_with_meta_ok, H. apply andb_false_r.
Qed.

Lemma read_file_failure_not_ok (path : string) (w : World) :
  fst (m_skr_read_file env path w) = None ->
  SKR_OK (SKR_LAST_ERROR (snd (m_skr_read_file env path w))) = false.
Proof.
  rewrite read_file_run.
  destruct (fopen_result env _) as [contents|]; cbv zeta.
  - destruct (malloc_result env _); cbn [fst snd SKR_LAST_ERROR];
      [discriminate|].
    intros _. apply set_nonempty_not_ok. reflexivity.
  - intros _. cbn [fst snd SKR_LAST_ERROR].
    apply set_nonempty_not_ok. reflexivity.
Qed.

(** The other failure of [m_skr_gl_create_shader_from_file]: a file that
    cannot be read gives 0 with the error of the loader left in place. *)
Lemma create_shader_from_file_read_failure (type : GLenum) (path : string)
    (w : World) :
  fst (m_skr_read_file env path w) = None ->
  fst (m_skr_gl_create_shader_from_file env type path w) = 0
  /\ SKR_OK (SKR_LAST_ERROR
               (snd (m_skr_gl_create_shader_from_file env type path w)))
     = false.
Proof.
  intros Hread. pose proof (read_file_failure_not_ok path w Hread) as Hok.
  unfold m_skr_gl_create_shader_from_file, bind.
  destruct (m_skr_read_file env path w) as [[source|] w1];
    cbn [fst snd] in *; [discriminate Hread|].
  unfold ret. split; [reflexivity | exact Hok].
Qed.

(** C3.  A file that is read but fails to compile: the function returns 0
    with the channel cleared, the compiler's message gone. *)
Theorem compile_failure_from_file_leaves_channel_ok :
  forall (type : GLenum) (path contents : string) (w : World),
    let t := read_calls (calls w) path contents in
    let t' := t ++ [fread (Z.of_nat (String.length contents)); fclose] in
    fopen_result env (calls w ++ [fopen path]) = Some contents ->
    malloc_result env t = true ->
    COMPILE_STATUS env (compile_calls env t' type contents) = false ->
    fst (m_skr_gl_create_shader_from_file env type path w) = 0
    /\ SKR_OK (SKR_LAST_ERROR
                 (snd (m_skr_gl_create_shader_from_file env type path w)))
       = true.
Proof.
  intros type path contents w t t' Hopen Hmalloc Hstatus.
  assert (E : exists b u,
             m_skr_gl_create_shader_from_file env type path w
             = (0, mkWorld (m_skr_last_error_clear b) u)).
  { unfold m_skr_gl_create_shader_from_file.
    unfold bind at 1. rewrite read_file_run, Hopen. cbv zeta.
    fold t. rewrite Hmalloc. fold t'.
    unfold bind at 1. rewrite create_shader_run.
    cbn [calls SKR_LAST_ERROR]. rewrite Hstatus.
    run_M. eexists; eexists; reflexivity. }
  destruct E as (b & u & ->). cbn [fst snd SKR_LAST_ERROR].
  split; [reflexivity | apply clear_is_ok].
Qed.

End LoaderFacts.

Lemma compile_failure_from_file_witness :
  fst (m_skr_gl_create_shader_from_file
         demo_backend GL_VERTEX_SHADER "bad.vert" fresh_world) = 0
  /\ SKR_OK (SKR_LAST_ERROR
               (snd (m_skr_gl_create_shader_from_file
                       demo_backend GL_VERTEX_SHADER "bad.vert"
                       fresh_world))) = true.
Proof.
  apply (compile_failure_from_file_leaves_channel_ok
           demo_backend GL_VERTEX_SHADER "bad.vert" "garbage" fresh_world);
    vm_compute; reflexivity.
Defined.

Section ProgramFacts.

Variable env : Backend.

Lemma delete_compiled_run (shaders : list GLuint) (w : World) :
  delete_compiled shaders w
  = (tt, mkWorld (SKR_LAST_ERROR w)
                 (calls w ++ map glDeleteShader shaders)).
Proof. apply for_each_calls. Qed.

(** A prefix that compiles is consumed by the loop, which goes on with
    the rest of the batch. *)
Lemma compile_all_prefix (pre rest : list SkrShader) :
  forall (shaders hs : list GLuint) (w wk : World),
    resolve_prefix env pre w = Some (hs, wk) ->
    compile_all env (pre ++ rest) shaders w
    = compile_all env rest (shaders ++ hs) wk.
Proof.
  induction pre as [|d pre IH]; intros shaders hs w wk H.
  - injection H as <- <-. rewrite app_nil_r. reflexivity.
  - cbn [resolve_prefix] in H. cbn [app compile_all].
    unfold bind at 1.
    destruct (resolve_shader env d w) as [[shader|] w1]; [|discriminate].
    destruct (shader =? 0); [discriminate|].
    destruct (resolve_prefix env pre w1) as [[hs' w2]|] eqn:E;
      [|discriminate].
    injection H as <- <-.
    rewrite (IH _ _ _ _ E), <- app_assoc. reflexivity.
Qed.

Lemma resolve_prefix_length (pre : list SkrShader) :
  forall (hs : list GLuint) (w wk : World),
    resolve_prefix env pre w = Some (hs, wk) ->
    length hs = length pre /\ Forall (fun h => h <> 0) hs.
Proof.
  induction pre as [|d pre IH]; intros hs w wk H.
  - injection H as <- <-. split; [reflexivity | constructor].
  - cbn [resolve_prefix] in H.
    destruct (resolve_shader env d w) as [[shader|] w1]; [|discriminate].
    destruct (shader =? 0) eqn:E0; [discriminate|].
    destruct (resolve_prefix env pre w1) as [[hs' w2]|] eqn:E;
      [|discriminate].
    injection H as <- <-.
    destruct (IH _ _ _ E) as [Hl Hf].
    split; [simpl; congruence|].
    constructor; [apply Z.eqb_neq; exact E0 | exact Hf].
Qed.

(** One turn of the loop. *)
Lemma compile_all_step (d : SkrShader) (post : list SkrShader)
    (shaders : list GLuint) (wk : World) :
  compile_all env (d :: post) shaders wk
  = match resolve_shader env d wk with
    | (None, w1) =>
        (None,
         mkWorld (m_skr_last_error_set_with_meta (FILE_ env) 946
                    "m_skr_gl_create_program_from_shaders"
                    "shader.Source and shader.Path are NULL"
                    (SKR_LAST_ERROR w1))
                 (calls w1 ++ map glDeleteShader shaders ++ [free]))
    | (Some shader, w1) =>
        if shader =? 0 then
          (None, mkWorld (SKR_LAST_ERROR w1)
                         (calls w1 ++ map glDeleteShader shaders ++ [free]))
        else compile_all env post (shaders ++ [shader]) w1
    end.
Proof.
  cbn [compile_all]. unfold bind at 1.
  destruct (resolve_shader env d wk) as [[shader|] w1].
  - destruct (shader =? 0); [|reflexivity].
    unfold bind. rewrite delete_compiled_run. run_M. norm_trace.
    reflexivity.
  - unfold bind. rewrite delete_compiled_run. run_M. norm_trace.
    reflexivity.
Qed.

(** The loop at the first descriptor that does not give a shader. *)
Lemma compile_all_failure (d : SkrShader) (post : list SkrShader)
    (shaders : list GLuint) (wk : World) :
  fst (resolve_shader env d wk) = None
  \/ fst (resolve_shader env d wk) = Some 0 ->
  fst (compile_all env (d :: post) shaders wk) = None
  /\ calls (snd (compile_all env (d :: post) shaders wk))
     = calls (snd (resolve_shader env d wk))
       ++ map glDeleteShader shaders ++ [free].
Proof.
  intros H. rewrite compile_all_step.
  destruct (resolve_shader env d wk) as [[shader|] w1];
    cbn [fst snd] in *.
  - destruct H as [H|H]; [discriminate|]. injection H as ->.
    change (Z.eqb 0 0) with true. cbv beta iota.
    split; reflexivity.
  - split; reflexivity.
Qed.

(** The function past its first guard. *)
Lemma create_program_nonempty (input : list SkrShader) (w : World) :
  input <> [] ->
  m_skr_gl_create_program_from_shaders env (Some input) w
  = (shaders <- extern (malloc (4 * Z.of_nat (length input)))
                       (malloc_result env) ;;
     if negb shaders then
       m_skr_last_error_set env 928 "m_skr_gl_create_program_from_shaders"
         "shaders_input == NULL" ;;
       ret 0
     else
       compiled <- compile_all env input [] ;;
       match compiled with
       | None => ret 0
       | Some shaders =>
           program <- m_skr_gl_create_program env shaders ;;
           call free ;;
           if program =? 0 then ret 0
           else last_error_clear ;; ret program
       end) w.
Proof. destruct input; [congruence | reflexivity]. Qed.

Lemma create_program_run (input : list SkrShader) (w : World) :
  input <> [] ->
  m_skr_gl_create_program_from_shaders env (Some input) w
  = let w0 := mkWorld (SKR_LAST_ERROR w)
                      (calls w ++ [malloc (4 * Z.of_nat (length input))]) in
    if malloc_result env (calls w0) then
      match compile_all env input [] w0 with
      | (Some shaders, w1) => link_compiled env shaders w1
      | (None, w1) => (0, w1)
      end
    else
      (0, mkWorld (m_skr_last_error_set_with_meta (FILE_ env) 928
                     "m_skr_gl_create_program_from_shaders"
                     "shaders_input == NULL" (SKR_LAST_ERROR w))
                  (calls w0)).
Proof.
  intros H. rewrite create_program_nonempty by exact H.
  unfold bind at 1. unfold extern at 1. cbv zeta. cbn [calls].
  destruct (malloc_result env _); cbn [negb].
  - unfold bind at 1.
    destruct (compile_all env input [] _) as [[shaders|] w1]; reflexivity.
  - run_M. reflexivity.
Qed.

(** C1.  When the descriptors before index [k] all compile, to the shaders
    [hs], and the descriptor at index [k] does not give a shader (it has
    neither source nor path, or its compilation yields 0), then the function
    returns 0, and after the calls made for the descriptors up to [k] it
    makes exactly these: [glDeleteShader] on each of [hs], in index order,
    and the [free] of its array.  The descriptors after [k] take no part:
    nothing is called for them. *)
Theorem create_program_fails_fast :
  forall (pre : list SkrShader) (d : SkrShader) (post : list SkrShader)
         (w : World) (hs : list GLuint) (wk : World),
    let count := Z.of_nat (length (pre ++ d :: post)) in
    let w0 := mkWorld (SKR_LAST_ERROR w) (calls w ++ [malloc (4 * count)]) in
    malloc_result env (calls w0) = true ->
    resolve_prefix env pre w0 = Some (hs, wk) ->
    fst (resolve_shader env d wk) = None
    \/ fst (resolve_shader env d wk) = Some 0 ->
    let result :=
      m_skr_gl_create_program_from_shaders env (Some (pre ++ d :: post)) w in
    fst result = 0
    /\ calls (snd result)
       = calls (snd (resolve_shader env d wk))
         ++ map glDeleteShader hs ++ [free]
    /\ length hs = length pre.
Proof.
  intros pre d post w hs wk count w0 Hmalloc Hpre Hfail result.
  destruct (compile_all_failure d post hs wk Hfail) as [Hnone Hcalls].
  assert (E : result = (0, snd (compile_all env (d :: post) hs wk))).
  { subst result.
    rewrite create_program_nonempty by (destruct pre; discriminate).
    fold count.
    unfold bind at 1. unfold extern at 1. cbv zeta.
    change (mkWorld (SKR_LAST_ERROR w) (calls w ++ [malloc (4 * count)]))
      with w0.
    change (calls w ++ [malloc (4 * count)]) with (calls w0).
    rewrite Hmalloc. cbn [negb]. unfold bind at 1.
    rewrite (compile_all_prefix pre (d :: post) [] hs w0 wk Hpre).
    cbn [app].
    destruct (compile_all env (d :: post) hs wk) as [[r|] w'];
      [discriminate Hnone | reflexivity]. }
  rewrite E. cbn [fst snd].
  split; [reflexivity|]. split; [exact Hcalls|].
  apply (resolve_prefix_length pre hs w0 wk Hpre).
Qed.

End ProgramFacts.

Lemma create_program_fails_fast_witness :
  fst (m_skr_gl_create_program_from_shaders
         demo_backend (Some ([vert_inline] ++ frag_garbage :: [geom_inline]))
         fresh_world) = 0
  /\ calls (snd (m_skr_gl_create_program_from_shaders
                   demo_backend
                   (Some ([vert_inline] ++ frag_garbage :: [geom_inline]))
                   fresh_world))
     = [malloc 12;
        glCreateShader GL_VERTEX_SHADER; glShaderSource 2 "void main() {}";
        glCompileShader 2; glGetShaderiv_COMPILE_STATUS 2;
        glCreateShader GL_FRAGMENT_SHADER; glShaderSource 6 "garbage";
        glCompileShader 6; glGetShaderiv_COMPILE_STATUS 6;
        glGetShaderInfoLog 6; glDeleteShader 6;
        glDeleteShader 2; free].
Proof.
  edestruct (create_program_fails_fast
               demo_backend [vert_inline] frag_garbage [geom_inline]
               fresh_world) as (H0 & Hcalls & _).
  - vm_compute; reflexivity.
  - vm_compute; reflexivity.
  - right; vm_compute; reflexivity.
  - split; [exact H0|]. rewrite Hcalls. vm_compute. reflexivity.
Defined.

Section ResolutionFacts.

Variable env : Backend.

Lemma resolve_without_shadowed_path (s : SkrShader) (w : World) :
  resolve_shader env (without_shadowed_path s) w = resolve_shader env s w.
Proof.
  unfold without_shadowed_path, resolve_shader.
  destruct s as [type [source|] [path|]]; reflexivity.
Qed.

Lemma compile_all_without_shadowed_path (batch : list SkrShader) :
  forall (shaders : list GLuint) (w : World),
    compile_all env (map without_shadowed_path batch) shaders w
    = compile_all env batch shaders w.
Proof.
  induction batch as [|d batch IH]; intros shaders w; [reflexivity|].
  cbn [map]. rewrite !compile_all_step, resolve_without_shadowed_path.
  destruct (resolve_shader env d w) as [[shader|] w1]; [|reflexivity].
  destruct (shader =? 0); [reflexivity | apply IH].
Qed.

(** A batch holding a descriptor with neither source nor path never gives
    a program. *)
Lemma compile_all_absent (batch : list SkrShader) :
  forall (shaders : list GLuint) (w : World),
    Exists (fun d => shader_Source d = None /\ shader_Path d = None) batch ->
    fst (compile_all env batch shaders w) = None.
Proof.
  induction batch as [|d batch IH]; intros shaders w H.
  - inversion H.
  - rewrite compile_all_step.
    destruct (resolve_shader env d w) as [[shader|] w1] eqn:E;
      [|reflexivity].
    destruct (shader =? 0); [reflexivity|].
    inversion H as [? ? [Hs Hp]|? ? Hrest]; subst.
    + unfold resolve_shader in E. rewrite Hs, Hp in E. discriminate E.
    + apply IH, Hrest.
Qed.

Lemma absent_descriptor_returns_0 (batch : list SkrShader) (w : World) :
  Exists (fun d => shader_Source d = None /\ shader_Path d = None) batch ->
  fst (m_skr_gl_create_program_from_shaders env (Some batch) w) = 0.
Proof.
  intros H. destruct batch as [|d batch]; [inversion H|].
  rewrite create_program_run by discriminate. cbv zeta.
  destruct (malloc_result env _); [|reflexivity].
  match goal with
  | |- context [compile_all env (d :: batch) [] ?w0] =>
      pose proof (compile_all_absent (d :: batch) [] w0 H) as Hn;
      destruct (compile_all env (d :: batch) [] w0) as [[r|] w2]
  end; [discriminate Hn | reflexivity].
Qed.

(** When the descriptor with neither source nor path is the first that
    gives no shader, the error set is the one that names the cause. *)
Lemma absent_descriptor_first_failure (pre : list SkrShader) (d : SkrShader)
    (post : list SkrShader) (w : World) (hs : list GLuint) (wk : World) :
  let count := Z.of_nat (length (pre ++ d :: post)) in
  let w0 := mkWorld (SKR_LAST_ERROR w) (calls w ++ [malloc (4 * count)]) in
  malloc_result env (calls w0) = true ->
  resolve_prefix env pre w0 = Some (hs, wk) ->
  shader_Source d = None -> shader_Path d = None ->
  m_skr_gl_create_program_from_shaders env (Some (pre ++ d :: post)) w
  = (0, mkWorld (m_skr_last_error_set_with_meta (FILE_ env) 946
                   "m_skr_gl_create_program_from_shaders"
                   "shader.Source and shader.Path are NULL"
                   (SKR_LAST_ERROR wk))
                (calls wk ++ map glDeleteShader hs ++ [free])).
Proof.
  intros count w0 Hmalloc Hpre Hs Hp.
  rewrite create_program_run by (destruct pre; discriminate).
  fold count. cbv zeta. fold w0. rewrite Hmalloc.
  rewrite (compile_all_prefix env pre (d :: post) [] hs w0 wk Hpre).
  cbn [app]. rewrite compile_all_step.
  unfold resolve_shader. rewrite Hs, Hp. reflexivity.
Qed.

End ResolutionFacts.

(** C7.  A batch whose first descriptor names a file that is read but does
    not compile, and whose second descriptor has neither source nor path:
    the function returns 0 and the error channel is left ok (empty). *)
Theorem absent_descriptor_after_file_failure :
  fst (m_skr_gl_create_program_from_shaders
         demo_backend (Some [vert_garbage_file; frag_absent]) fresh_world)
  = 0
  /\ SKR_OK (SKR_LAST_ERROR
               (snd (m_skr_gl_create_program_from_shaders
                       demo_backend (Some [vert_garbage_file; frag_absent])
                       fresh_world))) = true
  /\ Exists (fun d => shader_Source d = None /\ shader_Path d = None)
            [vert_garbage_file; frag_absent].
Proof.
  split; [vm_compute; reflexivity|].
  split; [vm_compute; reflexivity|].
  right; left; split; reflexivity.
Qed.

(** ** Renderer *)

Lemma for_each_flat {A} (l : list A) (body : A -> M unit) (f : A -> Trace) :
  (forall a w, body a w = (tt, mkWorld (SKR_LAST_ERROR w) (calls w ++ f a))) ->
  forall w,
    for_each l body w
    = (tt, mkWorld (SKR_LAST_ERROR w) (calls w ++ flat_map f l)).
Proof.
  intros Hbody. induction l as [|a l IH]; intros w; cbn [for_each flat_map].
  - unfold ret. rewrite app_nil_r. destruct w; reflexivity.
  - unfold bind. rewrite Hbody, IH. norm_trace. reflexivity.
Qed.

Lemma draw_mesh_run (mesh : SkrMesh) (w : World) :
  (if (VAO mesh =? 0) || (VertexCount mesh =? 0) then ret tt
   else
     call (glUseProgram (GL_Program mesh)) ;;
     call (glBindVertexArray (VAO mesh)) ;;
     call (glDrawArrays_TRIANGLES 0 (VertexCount mesh))) w
  = (tt, mkWorld (SKR_LAST_ERROR w) (calls w ++ mesh_draw_calls mesh)).
Proof.
  unfold mesh_draw_calls.
  destruct ((VAO mesh =? 0) || (VertexCount mesh =? 0)).
  - unfold ret. rewrite app_nil_r. destruct w; reflexivity.
  - run_M. norm_trace. reflexivity.
Qed.

Lemma renderer_render_run (s : SkrState) (w : World) :
  m_skr_gl_renderer_render s w
  = (tt, mkWorld (SKR_LAST_ERROR w)
                 (calls w ++ glClear_COLOR_DEPTH
                    :: flat_map model_draw_calls (Models s)
                    ++ [glBindVertexArray 0])).
Proof.
  unfold m_skr_gl_renderer_render.
  unfold bind at 1. unfold call at 1, extern at 1. cbv zeta.
  unfold bind at 1.
  rewrite (for_each_flat (Models s) _ model_draw_calls).
  - run_M. norm_trace. reflexivity.
  - intros model w0. unfold model_draw_calls.
    destruct (Meshes model) as [meshes|].
    + apply for_each_flat. intros mesh w1. apply draw_mesh_run.
    + unfold ret. rewrite app_nil_r. destruct w0; reflexivity.
Qed.

(** C2.  The calls of one frame, in the order made: the input handler when
    one is installed, the framebuffer-size query, the clear, the draw calls
    of the meshes, the vertex-array unbind, the buffer swap and, last, the
    event poll.  The size reported is stored in the window. *)
Theorem frame_calls_in_order :
  forall (env : Backend) (s : SkrState) (win : SkrWindow) (w : World),
    let handler_calls :=
      match InputHandler win with
      | Some handler => [InputHandler_call handler]
      | None => []
      end in
    let win1 :=
      match InputHandler win with
      | Some handler =>
          InputHandler_effect env (calls w ++ handler_calls) win
      | None => win
      end in
    let query := glfwGetFramebufferSize (Handler_GLFW win1) in
    let size := FramebufferSize env (calls w ++ handler_calls ++ [query]) in
    let r := m_skr_gl_glfw_renderer_render env s win w in
    calls (snd r)
    = calls w ++ handler_calls
      ++ [query; glClear_COLOR_DEPTH]
      ++ flat_map model_draw_calls (Models s)
      ++ [glBindVertexArray 0; glfwSwapBuffers (Handler_GLFW win1);
          glfwPollEvents]
    /\ fst r
       = mkState (Some (mkWindow (Title win1) (fst size) (snd size)
                                 (InputHandler win1) (Backend_Type win1)
                                 (Handler_GLFW win1)))
                 (Models s) (Programs s).
Proof.
  intros env s win w handler_calls win1 query size r.
  assert (Er : r = (mkState (Some (mkWindow (Title win1) (fst size)
                                        (snd size) (InputHandler win1)
                                        (Backend_Type win1)
                                        (Handler_GLFW win1)))
                            (Models s) (Programs s),
                    mkWorld (SKR_LAST_ERROR w)
                      (calls w ++ handler_calls
                       ++ [query; glClear_COLOR_DEPTH]
                       ++ flat_map model_draw_calls (Models s)
                       ++ [glBindVertexArray 0;
                           glfwSwapBuffers (Handler_GLFW win1);
                           glfwPollEvents]))).
  { subst r. unfold m_skr_gl_glfw_renderer_render.
    unfold bind at 1.
    assert (E : (match InputHandler win with
                 | Some handler =>
                     extern (InputHandler_call handler)
                            (fun t => InputHandler_effect env t win)
                 | None => ret win
                 end) w
                = (win1, mkWorld (SKR_LAST_ERROR w)
                                 (calls w ++ handler_calls))).
    { subst win1 handler_calls. destruct (InputHandler win).
      - reflexivity.
      - unfold ret. rewrite app_nil_r. destruct w; reflexivity. }
    rewrite E. clear E.
    unfold bind at 1. unfold extern at 1. cbv zeta.
    cbn [calls SKR_LAST_ERROR].
    unfold bind at 1. rewrite renderer_render_run.
    run_M. norm_trace. cbn [Models Programs Handler_GLFW].
    subst size query. norm_trace. reflexivity. }
  rewrite Er. cbn [fst snd calls SKR_LAST_ERROR].
  repeat split; reflexivity.
Qed.

(** The earlier variant polls right after the handler and has no draw
    calls. *)
Lemma legacy_frame_calls (env : Backend) (win : SkrWindow) (w : World) :
  exists win1,
    calls (snd (Legacy.m_skr_gl_glfw_renderer_render env win w))
    = calls w
      ++ match InputHandler win with
         | Some handler => [InputHandler_call handler]
         | None => []
         end
      ++ [glfwPollEvents; glfwGetFramebufferSize (Handler_GLFW win1);
          glClear_COLOR_DEPTH; glfwSwapBuffers (Handler_GLFW win1)].
Proof.
  unfold Legacy.m_skr_gl_glfw_renderer_render,
    Legacy.m_skr_gl_renderer_render.
  destruct (InputHandler win) as [handler|]; run_M; norm_trace;
    cbn [Handler_GLFW]; eexists; reflexivity.
Qed.

Lemma finalize_mesh_run (mesh : SkrMesh) (w : World) :
  mesh_zeroed mesh ->
  finalize_mesh mesh w
  = (mesh, mkWorld (SKR_LAST_ERROR w)
                   (calls w ++ mesh_texture_deletes mesh)).
Proof.
  intros (Ha & Hb & He & Hp).
  destruct mesh as [vao vbo ebo n idx textures prog].
  cbn [VAO VBO EBO GL_Program] in *. subst.
  unfold finalize_mesh, mesh_texture_deletes, when.
  cbn [VAO VBO EBO VertexCount Indices mesh_Textures GL_Program].
  change (Z.eqb 0 0) with true. cbn [negb].
  unfold bind at 1.
  assert (E : forall w0,
             match textures with
             | Some (t :: ts) =>
                 for_each (t :: ts)
                   (fun tex => call (glDeleteTextures (texture_ID tex)))
             | _ => ret tt
             end w0
             = (tt, mkWorld (SKR_LAST_ERROR w0)
                      (calls w0
                       ++ match textures with
                          | Some l =>
                              map (fun t => glDeleteTextures (texture_ID t)) l
                          | None => []
                          end))).
  { intros w0. destruct textures as [[|t ts]|].
    - unfold ret. cbn [map]. rewrite app_nil_r. destruct w0; reflexivity.
    - apply for_each_calls.
    - unfold ret. rewrite app_nil_r. destruct w0; reflexivity. }
  rewrite E. run_M. reflexivity.
Qed.

Lemma finalize_meshes_run (meshes : list SkrMesh) :
  Forall mesh_zeroed meshes ->
  forall w,
    map_M meshes finalize_mesh w
    = (meshes, mkWorld (SKR_LAST_ERROR w)
                       (calls w ++ flat_map mesh_texture_deletes meshes)).
Proof.
  induction 1 as [|mesh meshes Hm _ IH]; intros w; cbn [map_M flat_map].
  - unfold ret. rewrite app_nil_r. destruct w; reflexivity.
  - unfold bind at 1. rewrite (finalize_mesh_run mesh w Hm).
    unfold bind at 1. rewrite IH. unfold ret. norm_trace. reflexivity.
Qed.

Lemma finalize_models_run (models : list SkrModel) :
  Forall model_zeroed models ->
  forall w,
    map_M models finalize_model w
    = (models, mkWorld (SKR_LAST_ERROR w)
                       (calls w ++ flat_map model_texture_deletes models)).
Proof.
  induction 1 as [|model models Hm _ IH]; intros w; cbn [map_M flat_map].
  - unfold ret. rewrite app_nil_r. destruct w; reflexivity.
  - unfold bind at 1.
    assert (E : finalize_model model w
                = (model, mkWorld (SKR_LAST_ERROR w)
                            (calls w ++ model_texture_deletes model))).
    { unfold finalize_model, model_texture_deletes, model_zeroed in *.
      destruct model as [[meshes|] textures path];
        cbn [Meshes model_Textures model_Path] in *.
      - unfold bind. rewrite (finalize_meshes_run meshes Hm). reflexivity.
      - unfold ret. rewrite app_nil_r. destruct w; reflexivity. }
    rewrite E. unfold bind at 1. rewrite IH. unfold ret. norm_trace.
    reflexivity.
Qed.

(** C9.  On a state whose meshes all have [VAO], [VBO], [EBO] and program
    at zero, the teardown leaves the state as it is, all those handles at
    zero, and does not touch the error channel; no vertex array or buffer
    is deleted: the calls made are the texture releases and the four
    unbinds. *)
Theorem finalize_is_idempotent :
  forall (s : SkrState) (w : World),
    state_zeroed s ->
    let r := m_skr_gl_renderer_finalize (Some s) w in
    fst r = Some s
    /\ SKR_LAST_ERROR (snd r) = SKR_LAST_ERROR w
    /\ calls (snd r)
       = calls w ++ flat_map model_texture_deletes (Models s)
         ++ [glBindVertexArray 0; glBindBuffer_ARRAY 0;
             glBindBuffer_ELEMENT_ARRAY 0; glUseProgram 0].
Proof.
  intros s w Hz r.
  assert (Er : r = (Some s,
                    mkWorld (SKR_LAST_ERROR w)
                      (calls w ++ flat_map model_texture_deletes (Models s)
                       ++ [glBindVertexArray 0; glBindBuffer_ARRAY 0;
                           glBindBuffer_ELEMENT_ARRAY 0; glUseProgram 0]))).
  { subst r. unfold m_skr_gl_renderer_finalize.
    unfold bind at 1. rewrite (finalize_models_run (Models s) Hz).
    run_M. norm_trace. destruct s; reflexivity. }
  rewrite Er. repeat split; reflexivity.
Qed.

(** Whatever the state, a teardown leaves every mesh zeroed. *)
Lemma finalize_mesh_zeroes (mesh : SkrMesh) (w : World) :
  mesh_zeroed (fst (finalize_mesh mesh w)).
Proof.
  unfold finalize_mesh, when.
  destruct (mesh_Textures mesh) as [[|t ts]|];
    destruct (VAO mesh =? 0), (VBO mesh =? 0), (EBO mesh =? 0);
    cbn [negb]; unfold bind;
    try rewrite for_each_calls; run_M;
    repeat split; reflexivity.
Qed.

Lemma finalize_meshes_zero (meshes : list SkrMesh) :
  forall w, Forall mesh_zeroed (fst (map_M meshes finalize_mesh w)).
Proof.
  induction meshes as [|mesh meshes IH]; intros w; cbn [map_M].
  - constructor.
  - unfold bind at 1.
    pose proof (finalize_mesh_zeroes mesh w) as Hm.
    destruct (finalize_mesh mesh w) as [mesh' w1]. cbn [fst] in Hm.
    unfold bind at 1. specialize (IH w1).
    destruct (map_M meshes finalize_mesh w1) as [meshes' w2].
    unfold ret. cbn [fst] in *. constructor; assumption.
Qed.

Lemma finalize_models_zero (models : list SkrModel) :
  forall w, Forall model_zeroed (fst (map_M models finalize_model w)).
Proof.
  induction models as [|model models IH]; intros w; cbn [map_M].
  - constructor.
  - unfold bind at 1.
    assert (Hm : model_zeroed (fst (finalize_model model w))).
    { unfold finalize_model, model_zeroed.
      destruct (Meshes model) as [meshes|] eqn:E.
      - unfold bind. pose proof (finalize_meshes_zero meshes w) as H.
        destruct (map_M meshes finalize_mesh w) as [meshes' w1].
        unfold ret. cbn [fst Meshes] in *. exact H.
      - unfold ret. cbn [fst]. rewrite E. exact I. }
    destruct (finalize_model model w) as [model' w1]. cbn [fst] in Hm.
    unfold bind at 1. specialize (IH w1).
    destruct (map_M models finalize_model w1) as [models' w2].
    unfold ret. cbn [fst] in *. constructor; assumption.
Qed.

Lemma finalize_zeroes (s : SkrState) (w : World) :
  exists s',
    fst (m_skr_gl_renderer_finalize (Some s) w) = Some s'
    /\ state_zeroed s'.
Proof.
  unfold m_skr_gl_renderer_finalize, state_zeroed.
  unfold bind at 1.
  pose proof (finalize_models_zero (Models s) w) as H.
  destruct (map_M (Models s) finalize_model w) as [models w1].
  run_M. eexists; split; [reflexivity|]. exact H.
Qed.

Lemma finalize_is_idempotent_witness :
  fst (m_skr_gl_renderer_finalize (Some finalized_triangle_state) fresh_world)
  = Some finalized_triangle_state
  /\ calls (snd (m_skr_gl_renderer_finalize
                   (Some finalized_triangle_state) fresh_world))
     = [glDeleteTextures 9; glBindVertexArray 0; glBindBuffer_ARRAY 0;
        glBindBuffer_ELEMENT_ARRAY 0; glUseProgram 0].
Proof.
  assert (Hz : state_zeroed finalized_triangle_state).
  { repeat constructor. }
  destruct (finalize_is_idempotent finalized_triangle_state fresh_world Hz)
    as (H1 & _ & H3).
  split; [exact H1 | rewrite H3; reflexivity].
Defined.

(** C10.  With a NULL state, or a state whose window is NULL, the public
    render call returns at once: no call is made, and neither the state
    nor the error channel changes. *)
Theorem render_null_guard :
  forall (env : Backend) (s : option SkrState) (w : World),
    s = None \/ (exists st, s = Some st /\ Window st = None) ->
    SkrRendererRender env s w = (s, w).
Proof.
  intros env s w [->|(st & -> & Hw)]; unfold SkrRendererRender.
  - reflexivity.
  - rewrite Hw. reflexivity.
Qed.

Lemma render_null_guard_witness :
  SkrRendererRender demo_backend None fresh_world = (None, fresh_world)
  /\ SkrRendererRender demo_backend (Some (mkState None [] [])) fresh_world
     = (Some (mkState None [] []), fresh_world).
Proof.
  split.
  - apply (render_null_guard demo_backend None fresh_world).
    left; reflexivity.
  - apply (render_null_guard demo_backend (Some (mkState None [] []))
                             fresh_world).
    right; eexists; split; reflexivity.
Defined.

(** ** Camera *)

Lemma SFcompare_antisym (x y : spec_float) :
  SFcompare y x = option_map CompOpp (SFcompare x y).
Proof.
  destruct x as [sx|sx| |sx mx ex], y as [sy|sy| |sy my ey];
    try reflexivity;
    try (destruct sx; reflexivity);
    try (destruct sy; reflexivity);
    try (destruct sx, sy; reflexivity).
  cbn [SFcompare option_map].
  destruct sx, sy; try reflexivity; f_equal;
    rewrite (Z.compare_antisym ex ey);
    destruct (ex ?= ey); cbn [CompOpp]; try reflexivity.
  - rewrite (Pos.compare_cont_antisym mx my Eq); reflexivity.
  - rewrite (Pos.compare_cont_antisym mx my Eq); reflexivity.
Qed.

Lemma fle_of_not_flt (x y : float) :
  x <> S754_nan -> y <> S754_nan -> flt y x = false -> fle x y = true.
Proof.
  unfold flt, fle, SFltb, SFleb. intros Hx Hy.
  rewrite (SFcompare_antisym x y).
  destruct (SFcompare x y) as [[| |]|] eqn:E; cbn [option_map CompOpp];
    try reflexivity; try discriminate.
  intros _. destruct x, y; try congruence; discriminate E.
Qed.

Lemma not_flt_of_fle (x y : float) : fle x y = true -> flt y x = false.
Proof.
  unfold flt, fle, SFltb, SFleb.
  rewrite (SFcompare_antisym x y).
  destruct (SFcompare x y) as [[| |]|]; cbn [option_map CompOpp];
    try reflexivity; discriminate.
Qed.

Lemma flt_nan_l (y : float) : flt S754_nan y = false.
Proof. reflexivity. Qed.

Lemma flt_nan_r (x : float) : flt x S754_nan = false.
Proof. destruct x; reflexivity. Qed.

(** Nothing is both above 89 and below -89. *)
Lemma above_not_below (p : float) : fgt p f89 = true -> flt p fm89 = false.
Proof.
  unfold fgt, flt, SFltb.
  destruct p as [s|s| |s m e]; try discriminate; try reflexivity.
  - destruct s; [discriminate | reflexivity].
  - destruct s; [discriminate | reflexivity].
Qed.

Lemma clamp_pitch_cases (p : float) :
  (fgt p f89 = true /\ clamp_pitch p = f89)
  \/ (fgt p f89 = false /\ flt p fm89 = true /\ clamp_pitch p = fm89)
  \/ (fgt p f89 = false /\ flt p fm89 = false /\ clamp_pitch p = p).
Proof.
  unfold clamp_pitch.
  destruct (fgt p f89) eqn:Eg.
  - left. split; reflexivity.
  - right. destruct (flt p fm89) eqn:El.
    + left. repeat split; reflexivity.
    + right. repeat split; reflexivity.
Qed.

Lemma clamp_pitch_clamped (p : float) : pitch_clamped (clamp_pitch p).
Proof.
  destruct (clamp_pitch_cases p) as [(_ & ->)|[(_ & _ & ->)|(Eg & El & ->)]].
  - right. split; reflexivity.
  - right. split; reflexivity.
  - destruct p as [s|s| |s m e]; try (left; reflexivity); right;
      (split; [apply fle_of_not_flt; [discriminate | discriminate | exact El]
              |apply fle_of_not_flt; [discriminate | discriminate | exact Eg]]).
Qed.

Lemma clamp_pitch_nan (p : float) :
  clamp_pitch p = S754_nan <-> p = S754_nan.
Proof.
  split.
  - destruct (clamp_pitch_cases p) as [(_ & E)|[(_ & _ & E)|(_ & _ & E)]];
      rewrite E; try discriminate. tauto.
  - intros ->. reflexivity.
Qed.

Lemma Pitch_set_Front c v : Pitch (set_Front c v) = Pitch c.
Proof. reflexivity. Qed.

Section CameraFacts.

Variable libm : MathLib.

Lemma callback_pitch (cam : SkrCamera) :
  Pitch (mouse_clamp_front libm cam) = clamp_pitch (Pitch cam).
Proof.
  unfold mouse_clamp_front, clamp_pitch. cbv zeta.
  rewrite Pitch_set_Front.
  destruct (fgt (Pitch cam) f89); cbn [Pitch set_Pitch];
    match goal with
    | |- context [flt ?p fm89] => destruct (flt p fm89)
    end; reflexivity.
Qed.

Lemma callback_yaw (cam : SkrCamera) :
  Yaw (mouse_clamp_front libm cam) = Yaw cam.
Proof.
  unfold mouse_clamp_front. cbv zeta.
  destruct (fgt (Pitch cam) f89); cbn [Pitch set_Pitch];
    match goal with
    | |- context [flt ?p fm89] => destruct (flt p fm89)
    end; reflexivity.
Qed.

Lemma callback_front (cam : SkrCamera) :
  let cam' := mouse_clamp_front libm cam in
  Front cam'
  = glm_vec3_normalize_to libm
      (fmul (cosf libm (glm_rad libm (Yaw cam')))
            (cosf libm (glm_rad libm (Pitch cam'))),
       sinf libm (glm_rad libm (Pitch cam')),
       fmul (sinf libm (glm_rad libm (Yaw cam')))
            (cosf libm (glm_rad libm (Pitch cam')))).
Proof.
  unfold mouse_clamp_front. cbv zeta.
  destruct (fgt (Pitch cam) f89); cbn [Pitch set_Pitch];
    match goal with
    | |- context [flt ?p fm89] => destruct (flt p fm89)
    end; reflexivity.
Qed.

Lemma mouse_moves_clamped (events : list (spec_float * spec_float)) :
  forall cam,
    Forall (fun c => pitch_clamped (Pitch c)) (mouse_moves libm cam events).
Proof.
  induction events as [|[x y] events IH]; intros cam; cbn [mouse_moves].
  - constructor.
  - constructor; [|apply IH].
    unfold m_skr_gl_glfw_mouse_callback. rewrite callback_pitch.
    apply clamp_pitch_clamped.
Qed.

(** C5 (as amended).  After every call the pitch is NaN or lies in
    [[-89, 89]], and it is NaN exactly when the pitch accumulated by the
    call is NaN; an accumulated pitch above 89 leaves exactly 89, one below
    -89 exactly -89; [Front] is what [glm_vec3_normalize_to] gives for the
    direction of the new yaw and pitch; and along any sequence of cursor
    events every camera reached has its pitch NaN or in [[-89, 89]]. *)
Theorem pitch_clamped_after_mouse_move :
  forall (cam : SkrCamera) (xposIn yposIn : spec_float),
    let acc := Pitch (mouse_accumulate cam xposIn yposIn) in
    let cam' := m_skr_gl_glfw_mouse_callback libm cam xposIn yposIn in
    pitch_clamped (Pitch cam')
    /\ (Pitch cam' = S754_nan <-> acc = S754_nan)
    /\ (fgt acc f89 = true -> Pitch cam' = f89)
    /\ (flt acc fm89 = true -> Pitch cam' = fm89)
    /\ Front cam'
       = glm_vec3_normalize_to libm
           (fmul (cosf libm (glm_rad libm (Yaw cam')))
                 (cosf libm (glm_rad libm (Pitch cam'))),
            sinf libm (glm_rad libm (Pitch cam')),
            fmul (sinf libm (glm_rad libm (Yaw cam')))
                 (cosf libm (glm_rad libm (Pitch cam'))))
    /\ (forall events,
          Forall (fun c => pitch_clamped (Pitch c))
                 (mouse_moves libm cam events)).
Proof.
  intros cam xposIn yposIn acc cam'.
  assert (Hp : Pitch cam' = clamp_pitch acc) by apply callback_pitch.
  split; [rewrite Hp; apply clamp_pitch_clamped|].
  split; [rewrite Hp; apply clamp_pitch_nan|].
  split.
  { intros Hg. rewrite Hp.
    destruct (clamp_pitch_cases acc)
      as [(_ & E)|[(Eg & _)|(Eg & _)]]; [exact E|congruence|congruence]. }
  split.
  { intros Hl. rewrite Hp.
    destruct (clamp_pitch_cases acc)
      as [(Eg & _)|[(_ & _ & E)|(_ & El & _)]];
      [|exact E|congruence].
    rewrite (above_not_below acc Eg) in Hl. discriminate Hl. }
  split; [apply (callback_front (mouse_accumulate cam xposIn yposIn))|].
  intros events. apply mouse_moves_clamped.
Qed.

End CameraFacts.

(** C5, as stated, fails: a NaN sensitivity makes the pitch NaN, and so
    does, with finite members only, a sensitivity of 0 when the cursor row
    moves from [-FLT_MAX] to [FLT_MAX]; NaN is not within [[-89, 89]]. *)
Lemma pitch_can_leave_the_range :
  Pitch (m_skr_gl_glfw_mouse_callback demo_math camera_nan_sensitivity
           (double_of_Z 400) (double_of_Z 200)) = S754_nan
  /\ Pitch (m_skr_gl_glfw_mouse_callback demo_math camera_far_cursor
              (double_of_Z 400) FLT_MAX_as_double) = S754_nan
  /\ fle fm89 S754_nan = false
  /\ fle S754_nan f89 = false.
Proof. vm_compute. repeat split. Qed.

Lemma fsub_self (x : float) : is_finite x = true -> fsub x x = S754_zero false.
Proof.
  destruct x as [s|s| |s m e]; try discriminate; intros _.
  - destruct s; reflexivity.
  - unfold fsub, SFsub. cbv zeta. rewrite Z.sub_diag. reflexivity.
Qed.

Lemma fmul_zero_finite (b : bool) (s : float) :
  is_finite s = true -> is_zero (fmul (S754_zero b) s) = true.
Proof. destruct s; try discriminate; reflexivity. Qed.

Lemma fadd_zero_same (y z : float) :
  is_zero z = true -> same_number (fadd y z) y.
Proof.
  destruct z as [b| | |]; try discriminate; intros _.
  destruct y as [s|s| |s m e]; try (left; reflexivity).
  right. destruct s, b; split; reflexivity.
Qed.

Lemma clamp_in_range (p q : float) :
  same_number p q -> fle fm89 q = true -> fle q f89 = true ->
  clamp_pitch p = p.
Proof.
  intros [->|[Hp Hq]] Hlo Hhi.
  - unfold clamp_pitch. unfold fgt.
    change (SFltb f89 q) with (flt f89 q).
    rewrite (not_flt_of_fle q f89 Hhi), (not_flt_of_fle fm89 q Hlo).
    reflexivity.
  - destruct p; try discriminate. reflexivity.
Qed.

Section FirstMouseFacts.

Variable libm : MathLib.

(** C6 (as amended).  The first call, [FirstMouse] true, stores the cursor
    position in [LastX], [LastY] and clears the flag.  When the position
    and the sensitivity are finite, the yaw is left as it was (as a number:
    a zero may change sign); the pitch is left as it was too, provided it
    lay in [[-89, 89]] before. *)
Theorem first_mouse_move_primes :
  forall (cam : SkrCamera) (xposIn yposIn : spec_float),
    FirstMouse cam = true ->
    let xpos := float_of_double xposIn in
    let ypos := float_of_double yposIn in
    let cam' := m_skr_gl_glfw_mouse_callback libm cam xposIn yposIn in
    LastX cam' = xpos /\ LastY cam' = ypos /\ FirstMouse cam' = false
    /\ (is_finite xpos = true -> is_finite (Sensitivity cam) = true ->
        same_number (Yaw cam') (Yaw cam))
    /\ (is_finite ypos = true -> is_finite (Sensitivity cam) = true ->
        fle fm89 (Pitch cam) = true -> fle (Pitch cam) f89 = true ->
        same_number (Pitch cam') (Pitch cam)).
Proof.
  intros cam xposIn yposIn Hfirst xpos ypos cam'.
  assert (Hacc : mouse_accumulate cam xposIn yposIn
                 = set_Pitch
                     (set_Yaw
                        (set_Last (set_FirstMouse (set_Last cam xpos ypos)
                                                  false) xpos ypos)
                        (fadd (Yaw cam)
                              (fmul (fsub xpos xpos) (Sensitivity cam))))
                     (fadd (Pitch cam)
                           (fmul (fsub ypos ypos) (Sensitivity cam)))).
  { unfold mouse_accumulate. rewrite Hfirst. reflexivity. }
  subst cam'. unfold m_skr_gl_glfw_mouse_callback. rewrite Hacc.
  repeat split.
  - unfold mouse_clamp_front. cbv zeta.
    destruct (fgt _ f89); cbn [Pitch set_Pitch];
      match goal with
      | |- context [flt ?p fm89] => destruct (flt p fm89)
      end; reflexivity.
  - unfold mouse_clamp_front. cbv zeta.
    destruct (fgt _ f89); cbn [Pitch set_Pitch];
      match goal with
      | |- context [flt ?p fm89] => destruct (flt p fm89)
      end; reflexivity.
  - unfold mouse_clamp_front. cbv zeta.
    destruct (fgt _ f89); cbn [Pitch set_Pitch];
      match goal with
      | |- context [flt ?p fm89] => destruct (flt p fm89)
      end; reflexivity.
  - intros Hx Hs. rewrite callback_yaw. cbn [Yaw set_Pitch set_Yaw].
    rewrite (fsub_self xpos Hx).
    apply fadd_zero_same, fmul_zero_finite, Hs.
  - intros Hy Hs Hlo Hhi. rewrite callback_pitch. cbn [Pitch set_Pitch].
    rewrite (fsub_self ypos Hy).
    pose proof (fadd_zero_same (Pitch cam)
                  (fmul (S754_zero false) (Sensitivity cam))
                  (fmul_zero_finite false _ Hs)) as Hsame.
    rewrite (clamp_in_range _ _ Hsame Hlo Hhi). exact Hsame.
Qed.

End FirstMouseFacts.

Lemma first_mouse_move_primes_witness :
  let cam' := m_skr_gl_glfw_mouse_callback demo_math SkrDefaultFPSCamera
                (double_of_Z 100) (double_of_Z 700) in
  LastX cam' = float_of_Z 100 /\ LastY cam' = float_of_Z 700
  /\ FirstMouse cam' = false
  /\ same_number (Yaw cam') (Yaw SkrDefaultFPSCamera)
  /\ same_number (Pitch cam') (Pitch SkrDefaultFPSCamera).
Proof.
  destruct (first_mouse_move_primes demo_math SkrDefaultFPSCamera
              (double_of_Z 100) (double_of_Z 700) eq_refl)
    as (Hx & Hy & Hf & Hyaw & Hpitch).
  cbv zeta. split; [exact Hx|]. split; [exact Hy|]. split; [exact Hf|].
  split; [apply Hyaw; reflexivity | apply Hpitch; reflexivity].
Defined.

(** C6, as stated, fails: on a camera whose pitch is 100 the first call
    leaves the pitch at 89. *)
Lemma first_mouse_move_changes_pitch :
  FirstMouse camera_pitch_100 = true
  /\ Pitch camera_pitch_100 = float_of_Z 100
  /\ Pitch (m_skr_gl_glfw_mouse_callback demo_math camera_pitch_100
              (double_of_Z 400) (double_of_Z 300)) = f89
  /\ SFeqb (float_of_Z 100) f89 = false.
Proof. vm_compute. repeat split. Qed.

(** ** The model run on concrete inputs *)

(** One frame of the triangle: events are polled after the swap. *)
Example frame_of_triangle :
  calls (snd (SkrRendererRender demo_backend (Some triangle_state)
                                fresh_world))
  = [InputHandler_call 4096; glfwGetFramebufferSize 77;
     glClear_COLOR_DEPTH;
     glUseProgram 3; glBindVertexArray 1; glDrawArrays_TRIANGLES 0 3;
     glBindVertexArray 0; glfwSwapBuffers 77; glfwPollEvents]
  /\ option_map (fun st => option_map (fun w => (Width w, Height w))
                                      (Window st))
                (fst (SkrRendererRender demo_backend (Some triangle_state)
                                        fresh_world))
     = Some (Some (1024, 768)).
Proof. vm_compute. split; reflexivity. Qed.

(** The same frame in the earlier variant of the header. *)
Example legacy_frame_of_window :
  calls (snd (Legacy.m_skr_gl_glfw_renderer_render demo_backend demo_window
                                                   fresh_world))
  = [InputHandler_call 4096; glfwPollEvents; glfwGetFramebufferSize 77;
     glClear_COLOR_DEPTH; glfwSwapBuffers 77].
Proof. vm_compute. reflexivity. Qed.

(** A source that does not compile: the message left in the channel. *)
Example compile_error_message :
  string_of_list_ascii
    (cstr (SKR_LAST_ERROR
             (snd (m_skr_gl_create_shader demo_backend GL_FRAGMENT_SHADER
                                          "garbage" fresh_world))))
  = "[SKR] ERROR skr/skr.h:802:m_skr_gl_check_compile_errors: failed to compile frag: 0:1(1): error: syntax error".
Proof. vm_compute. reflexivity. Qed.

(** Two inline shaders build a program and leave the channel ok. *)
Example program_of_two_inline_shaders :
  fst (m_skr_gl_create_program_from_shaders
         demo_backend (Some [vert_inline; geom_inline]) fresh_world) = 10
  /\ SKR_OK (SKR_LAST_ERROR
               (snd (m_skr_gl_create_program_from_shaders
                       demo_backend (Some [vert_inline; geom_inline])
                       fresh_world))) = true.
Proof. vm_compute. split; reflexivity. Qed.

(** A descriptor with both members set never opens its path. *)
Example both_members_set :
  existsb is_fopen
    (calls (snd (resolve_shader demo_backend vert_both fresh_world)))
  = false
  /\ fst (resolve_shader demo_backend vert_both fresh_world) = Some 1.
Proof. vm_compute. split; reflexivity. Qed.

(** A teardown of the triangle releases its objects once; a second
    teardown only releases the texture again. *)
Example teardown_of_triangle :
  calls (snd (m_skr_gl_renderer_finalize (Some triangle_state) fresh_world))
  = [glDeleteTextures 9; glDeleteVertexArrays 1; glDeleteBuffers 1;
     glBindVertexArray 0; glBindBuffer_ARRAY 0;
     glBindBuffer_ELEMENT_ARRAY 0; glUseProgram 0].
Proof. vm_compute. reflexivity. Qed.

(** The default camera, cursor moved up by 100 rows ten times over: the
    pitch goes 0, 10, 20, ... and stays at 89. *)
Example pitch_is_pinned :
  map Pitch
      (mouse_moves demo_math SkrDefaultFPSCamera
         (map (fun k => (double_of_Z 400, double_of_Z (300 - 100 * k)))
              [0; 1; 2; 3; 4; 5; 6; 7; 8; 9; 10; 11]))
  = map float_of_Z [0; 10; 20; 30; 40; 50; 60; 70; 80; 89; 89; 89].
Proof. vm_compute. reflexivity. Qed.

(** * Further properties *)

(** ** Error channel *)

(** X1.  What a set leaves to read does not depend on what the buffer held
    before, and is never longer than [SKR_LAST_ERROR_SIZE - 1] characters:
    only the most recent error survives. *)
Theorem set_replaces_previous_error :
  forall (file : string) (line : Z) (func msg : string) (b b' : cbuf),
    cstr (m_skr_last_error_set_with_meta file line func msg b)
    = cstr (m_skr_last_error_set_with_meta file line func msg b')
    /\ Z.of_nat (length (cstr (m_skr_last_error_set_with_meta
                                 file line func msg b)))
       < SKR_LAST_ERROR_SIZE.
Proof.
  intros file line func msg b b'.
  rewrite !set_with_meta_reads. split; [reflexivity|].
  rewrite length_firstn. pose proof SIZE_bounds. lia.
Qed.

(** X2.  In the earlier variant of the header a set writes the message
    alone: the buffer keeps its size and reads back the message cut to
    [SKR_LAST_ERROR_SIZE - 1] characters, so that a set with an empty
    message leaves the channel ok. *)
Theorem legacy_set_reads_back :
  forall (msg : string) (buf : cbuf),
    Z.of_nat (length buf) = SKR_LAST_ERROR_SIZE ->
    let buf' := LegacyError.SKR_LAST_ERROR_SET msg buf in
    Z.of_nat (length buf') = SKR_LAST_ERROR_SIZE
    /\ cstr buf' = firstn (Z.to_nat (SKR_LAST_ERROR_SIZE - 1)) (text msg)
    /\ SKR_OK buf' = is_empty (text msg).
Proof.
  intros msg buf Hlen buf'. pose proof SIZE_bounds as HS.
  assert (E : buf' = firstn (Z.to_nat (SKR_LAST_ERROR_SIZE - 1)) (text msg)
                     ++ NUL :: skipn (length
                          (firstn (Z.to_nat (SKR_LAST_ERROR_SIZE - 1))
                                  (text msg) ++ [NUL])) buf).
  { subst buf'. unfold LegacyError.SKR_LAST_ERROR_SET, snprintf.
    destruct (SKR_LAST_ERROR_SIZE <=? 0) eqn:En;
      [apply Z.leb_le in En; lia|].
    cbv beta iota delta [fst]. rewrite store_0, <- app_assoc. reflexivity. }
  clearbody buf'.
  assert (Hr : cstr buf'
               = firstn (Z.to_nat (SKR_LAST_ERROR_SIZE - 1)) (text msg)).
  { rewrite E. apply cstr_app_NUL, nonul_firstn, cstr_nonul. }
  split; [|split; [exact Hr|]].
  - rewrite E, length_app. cbn [length]. rewrite length_skipn, length_app.
    cbn [length]. rewrite length_firstn.
    lia.
  - rewrite SKR_OK_cstr, Hr.
    replace (Z.to_nat (SKR_LAST_ERROR_SIZE - 1))
      with (S (Z.to_nat (SKR_LAST_ERROR_SIZE - 2)))
      by (unfold SKR_LAST_ERROR_SIZE; lia).
    destruct (text msg); reflexivity.
Qed.

Lemma legacy_set_reads_back_witness :
  SKR_OK (LegacyError.SKR_LAST_ERROR_SET "" stale_buffer) = true
  /\ SKR_OK (LegacyError.SKR_LAST_ERROR_SET "failed to open" stale_buffer)
     = false.
Proof.
  assert (H : Z.of_nat (length stale_buffer) = SKR_LAST_ERROR_SIZE)
    by (vm_compute; reflexivity).
  destruct (legacy_set_reads_back "" stale_buffer H) as (_ & _ & H1).
  destruct (legacy_set_reads_back "failed to open" stale_buffer H)
    as (_ & _ & H2).
  split; [rewrite H1 | rewrite H2]; reflexivity.
Defined.

(** ** Loader and shaders *)

Lemma skipn_own_length {A} (l r : list A) : skipn (length l) (l ++ r) = r.
Proof.
  rewrite skipn_app, skipn_all, Nat.sub_diag. reflexivity.
Qed.

Lemma stdio_read_file_run (env : Backend) (libc : Libc) (path : string)
    (w : World) :
  let t0 := calls w ++ [fopen path] in
  let len := ftell_result libc (t0 ++ [fseek_end; ftell]) in
  let t := stream_calls (calls w) path len in
  let bytes := fread_result libc (t ++ [fread len]) in
  let block := map (malloc_block libc t) (seq 0 (Z.to_nat (len + 1))) in
  Stdio.m_skr_read_file env libc path w
  = match fopen_result env t0 with
    | None =>
        (Returned None,
         mkWorld (m_skr_last_error_set_with_meta (FILE_ env) 632
                    "m_skr_read_file" "failed to open" (SKR_LAST_ERROR w))
                 t0)
    | Some _ =>
        if LONG_MAX libc <=? len then
          (Undefined,
           mkWorld (SKR_LAST_ERROR w) (t0 ++ [fseek_end; ftell; rewind]))
        else if malloc_result env t then
          if len <? 0 then
            (Undefined, mkWorld (SKR_LAST_ERROR w) (t ++ [fread len]))
          else
            (Returned
               (Some (store (store block 0 (firstn (Z.to_nat len) bytes))
                            (Z.to_nat len) [NUL])),
             mkWorld (m_skr_last_error_clear (SKR_LAST_ERROR w))
                     (t ++ [fread len; fclose]))
        else
          (Returned None,
           mkWorld (m_skr_last_error_set_with_meta (FILE_ env) 643
                      "m_skr_read_file" "failed to open" (SKR_LAST_ERROR w))
                   (t ++ [fclose]))
    end.
Proof.
  cbv zeta. unfold Stdio.m_skr_read_file, stream_calls. run_M.
  destruct (fopen_result env _) as [contents|]; norm_trace;
    [|reflexivity].
  destruct (LONG_MAX libc <=? _); norm_trace; [reflexivity|].
  destruct (malloc_result env _); norm_trace; [|reflexivity].
  destruct (_ <? 0); norm_trace; reflexivity.
Qed.

(** The buffer after [fread] and the write of the terminator. *)
Lemma loaded_buffer (block bytes : list ascii) (n : nat) :
  length block = S n ->
  let delivered := firstn n bytes in
  store (store block 0 delivered) n [NUL]
  = delivered ++ firstn (n - length delivered)
                        (skipn (length delivered) block)
    ++ [NUL].
Proof.
  intros Hb delivered.
  assert (Hd : (length delivered <= n)%nat).
  { unfold delivered. rewrite length_firstn. lia. }
  rewrite store_0. unfold store.
  assert (Hs : skipn (n + length [NUL])
                     (delivered ++ skipn (length delivered) block) = []).
  { apply skipn_all2. rewrite length_app, length_skipn. cbn [length]. lia. }
  rewrite Hs, firstn_app, (firstn_all2 delivered) by exact Hd.
  rewrite app_nil_r, <- app_assoc. reflexivity.
Qed.


(** X28.  On a regular file that is read whole ([ftell] answers the
    length of the file, below [LONG_MAX], and [fread] delivers its bytes)
    the loader makes the calls, leaves the error buffer and returns the
    result of the plain [m_skr_read_file] that the shader functions use:
    NULL in the same cases, and otherwise the bytes of the file followed
    by the terminator, which as a C string is the file's contents when the
    file holds no NUL byte. *)
Theorem read_file_of_regular_file :
  forall (env : Backend) (libc : Libc) (path contents : string) (w : World),
    let len := Z.of_nat (String.length contents) in
    let t := stream_calls (calls w) path len in
    fopen_result env (calls w ++ [fopen path]) = Some contents ->
    ftell_result libc (calls w ++ [fopen path] ++ [fseek_end; ftell]) = len ->
    len < LONG_MAX libc ->
    fread_result libc (t ++ [fread len]) = list_ascii_of_string contents ->
    let plain := m_skr_read_file env path w in
    Stdio.m_skr_read_file env libc path w
    = (Returned (option_map (fun file => list_ascii_of_string file ++ [NUL])
                            (fst plain)),
       snd plain)
    /\ (~ In NUL (list_ascii_of_string contents) ->
        forall buffer,
          fst (Stdio.m_skr_read_file env libc path w)
          = Returned (Some buffer) ->
          Some (string_of_list_ascii (cstr buffer)) = fst plain).
Proof.
  intros env libc path contents w len t Hopen Htell Hmax Hread plain.
  assert (E : Stdio.m_skr_read_file env libc path w
              = (Returned
                   (option_map
                      (fun file => list_ascii_of_string file ++ [NUL])
                      (fst plain)),
                 snd plain)).
  { subst plain. rewrite stdio_read_file_run, read_file_run. cbv zeta.
    rewrite Hopen. rewrite app_assoc in Htell. rewrite Htell.
    change (read_calls (calls w) path contents) with t.
    change (Z.of_nat (String.length contents)) with len.
    change (stream_calls (calls w) path len) with t. rewrite Hread.
    destruct (Z.leb_spec (LONG_MAX libc) len) as [H|_]; [lia|].
    destruct (malloc_result env t); [|reflexivity].
    destruct (Z.ltb_spec len 0) as [H|_]; [lia|].
    cbn [fst snd option_map].
    assert (Hb : length (map (malloc_block libc t)
                             (seq 0 (Z.to_nat (len + 1))))
                 = S (Z.to_nat len)).
    { rewrite length_map, length_seq. lia. }
    rewrite (loaded_buffer _ _ _ Hb). cbv zeta.
    assert (Hl : length (list_ascii_of_string contents) = Z.to_nat len).
    { unfold len. rewrite Nat2Z.id. clear.
      induction contents as [|c s IH]; simpl; congruence. }
    rewrite firstn_all2 by lia. rewrite Hl, Nat.sub_diag.
    cbn [firstn app]. reflexivity. }
  split; [exact E|].
  intros Hnul buffer Hbuf. rewrite E in Hbuf. cbn [fst] in Hbuf.
  destruct (fst plain) as [file|] eqn:Ef; [|discriminate].
  cbn [option_map] in Hbuf. injection Hbuf as <-.
  assert (file = contents) as ->.
  { subst plain. rewrite read_file_run, Hopen in Ef. cbv zeta in Ef.
    destruct (malloc_result env _); cbn [fst] in Ef; congruence. }
  rewrite cstr_app_NUL by exact Hnul.
  rewrite string_of_list_ascii_of_string. reflexivity.
Qed.

Lemma read_file_of_regular_file_witness :
  Stdio.m_skr_read_file demo_backend (regular_file "garbage") "bad.vert"
                        fresh_world
  = (Returned (Some (list_ascii_of_string "garbage" ++ [NUL])),
     snd (m_skr_read_file demo_backend "bad.vert" fresh_world))
  /\ calls (snd (m_skr_read_file demo_backend "bad.vert" fresh_world))
     = [fopen "bad.vert"; fseek_end; ftell; rewind; malloc 8; fread 7;
        fclose].
Proof.
  split; [|vm_compute; reflexivity].
  edestruct (read_file_of_regular_file
               demo_backend (regular_file "garbage") "bad.vert" "garbage"
               fresh_world) as [E _].
  - reflexivity.
  - reflexivity.
  - reflexivity.
  - reflexivity.
  - rewrite E. reflexivity.
Defined.

(** A stream that cannot be positioned: [ftell] answers -1, the block has
    no byte, and the write of the terminator falls before it. *)
Example read_file_of_unseekable_stream :
  Stdio.m_skr_read_file demo_backend (unseekable_stream "garbage")
                        "fifo.vert" fresh_world
  = (Undefined,
     mkWorld blank_buffer
             [fopen "fifo.vert"; fseek_end; ftell; rewind; malloc 0;
              fread (-1)]).
Proof. vm_compute. reflexivity. Qed.

(** A read that stops after three bytes: the buffer keeps what [malloc]
    left behind them, and is handed on with the channel ok. *)
Example read_file_of_short_read :
  fst (Stdio.m_skr_read_file demo_backend (short_read "garbage" 3)
                             "bad.vert" fresh_world)
  = Returned (Some (list_ascii_of_string "gar????" ++ [NUL]))
  /\ SKR_OK (SKR_LAST_ERROR
               (snd (Stdio.m_skr_read_file demo_backend
                       (short_read "garbage" 3) "bad.vert" fresh_world)))
     = true.
Proof. vm_compute. split; reflexivity. Qed.

(** X4.  [m_skr_gl_create_shader] returns the new shader when the driver
    reports the compilation as successful, and 0 otherwise; the channel is
    ok exactly in the first case.  On failure the message read back is the
    driver's log after the label of the shader type, and the shader object
    is deleted before the function returns; on success nothing is
    deleted. *)
Theorem create_shader_contract :
  forall (env : Backend) (type : GLenum) (source : string) (w : World),
    let shader := glCreate_result env (calls w ++ [glCreateShader type]) in
    let t := compile_calls env (calls w) type source in
    let compiled := COMPILE_STATUS env t in
    let r := m_skr_gl_create_shader env type source w in
    fst r = (if compiled then shader else 0)
    /\ SKR_OK (SKR_LAST_ERROR (snd r)) = compiled
    /\ calls (snd r)
       = t ++ (if compiled then []
               else [glGetShaderInfoLog shader; glDeleteShader shader])
    /\ (compiled = false ->
        cstr (SKR_LAST_ERROR (snd r))
        = firstn (Z.to_nat (SKR_LAST_ERROR_SIZE - 1))
            ((if prefix_fits (FILE_ env) 802 "m_skr_gl_check_compile_errors"
              then meta_prefix (FILE_ env) 802
                               "m_skr_gl_check_compile_errors"
              else [])
             ++ text ("failed to compile " ++ type_str type ++ ": "
                      ++ InfoLog env (t ++ [glGetShaderInfoLog shader])))).
Proof.
  intros env type source w shader t compiled r.
  subst r. rewrite create_shader_run. cbv zeta.
  fold shader. fold t. fold compiled.
  destruct compiled; cbn [fst snd SKR_LAST_ERROR calls].
  - split; [reflexivity|]. split; [apply clear_is_ok|].
    split; [rewrite app_nil_r; reflexivity | discriminate].
  - split; [reflexivity|].
    split; [apply set_nonempty_not_ok; reflexivity|].
    split; [reflexivity|]. intros _. apply set_with_meta_reads.
Qed.

(** X5.  When the file cannot be read, [m_skr_gl_create_shader_from_file]
    returns 0 with the loader's error in the channel and makes no call
    beyond those of the loader: no shader object is created. *)
Theorem create_shader_from_file_unreadable :
  forall (env : Backend) (type : GLenum) (path : string) (w : World),
    fst (m_skr_read_file env path w) = None ->
    let r := m_skr_gl_create_shader_from_file env type path w in
    fst r = 0
    /\ SKR_OK (SKR_LAST_ERROR (snd r)) = false
    /\ snd r = snd (m_skr_read_file env path w).
Proof.
  intros env type path w Hread r.
  pose proof (read_file_failure_not_ok env path w Hread) as Hok.
  subst r. unfold m_skr_gl_create_shader_from_file, bind.
  destruct (m_skr_read_file env path w) as [[source|] w1];
    cbn [fst snd] in *; [discriminate Hread|].
  unfold ret. cbn [fst snd]. repeat split; [exact Hok].
Qed.

Lemma create_shader_from_file_unreadable_witness :
  fst (m_skr_gl_create_shader_from_file
         demo_backend GL_VERTEX_SHADER "missing.glsl" fresh_world) = 0
  /\ calls (snd (m_skr_gl_create_shader_from_file
                   demo_backend GL_VERTEX_SHADER "missing.glsl" fresh_world))
     = [fopen "missing.glsl"].
Proof.
  destruct (create_shader_from_file_unreadable
              demo_backend GL_VERTEX_SHADER "missing.glsl" fresh_world
              eq_refl) as (H0 & _ & Hw).
  split; [exact H0 | rewrite Hw; reflexivity].
Defined.

(** X6.  When the file is read, [m_skr_gl_create_shader_from_file] returns
    what compiling its bytes returns, and frees the buffer as its last
    call, whether the compilation succeeded or not. *)
Theorem create_shader_from_file_frees_source :
  forall (env : Backend) (type : GLenum) (path contents : string)
         (w : World),
    fst (m_skr_read_file env path w) = Some contents ->
    let w1 := snd (m_skr_read_file env path w) in
    let r := m_skr_gl_create_shader_from_file env type path w in
    fst r = fst (m_skr_gl_create_shader env type contents w1)
    /\ calls (snd r)
       = calls (snd (m_skr_gl_create_shader env type contents w1)) ++ [free].
Proof.
  intros env type path contents w Hread w1 r.
  subst r w1. unfold m_skr_gl_create_shader_from_file, bind.
  destruct (m_skr_read_file env path w) as [[source|] w1];
    cbn [fst snd] in *; [|discriminate Hread].
  injection Hread as ->.
  destruct (m_skr_gl_create_shader env type contents w1) as [shader w2].
  run_M. split; reflexivity.
Qed.

Lemma create_shader_from_file_frees_source_witness :
  calls (snd (m_skr_gl_create_shader_from_file
                demo_backend GL_VERTEX_SHADER "bad.vert" fresh_world))
  = [fopen "bad.vert"; fseek_end; ftell; rewind; malloc 8; fread 7; fclose;
     glCreateShader GL_VERTEX_SHADER; glShaderSource 8 "garbage";
     glCompileShader 8; glGetShaderiv_COMPILE_STATUS 8;
     glGetShaderInfoLog 8; glDeleteShader 8; free].
Proof.
  destruct (create_shader_from_file_frees_source
              demo_backend GL_VERTEX_SHADER "bad.vert" "garbage" fresh_world
              eq_refl) as (_ & Hc).
  rewrite Hc. vm_compute. reflexivity.
Defined.

(** The run of [m_skr_gl_create_program]. *)
Lemma create_program_link_run (env : Backend) (shaders : list GLuint)
    (w : World) :
  let program := glCreate_result env (calls w ++ [glCreateProgram]) in
  let t := link_calls env (calls w) shaders in
  m_skr_gl_create_program env shaders w
  = if LINK_STATUS env t then
      (program, mkWorld (m_skr_last_error_clear (SKR_LAST_ERROR w))
                        (t ++ release_calls program shaders))
    else
      (0, mkWorld
            (m_skr_last_error_set_with_meta (FILE_ env) 793
               "m_skr_gl_check_compile_errors"
               ("failed to link prog: "
                ++ InfoLog env (t ++ [glGetProgramInfoLog program]))
               (SKR_LAST_ERROR w))
            (t ++ [glGetProgramInfoLog program; glDeleteProgram program])).
Proof.
  cbv zeta. unfold m_skr_gl_create_program, link_calls.
  set (program := glCreate_result env (calls w ++ [glCreateProgram])).
  unfold bind at 1. unfold extern at 1. cbv zeta. fold program.
  unfold bind at 1. rewrite for_each_calls. cbn [calls SKR_LAST_ERROR].
  unfold bind at 1. unfold call at 1, extern at 1. cbv zeta.
  cbn [calls SKR_LAST_ERROR].
  unfold m_skr_gl_check_compile_errors.
  change (String.eqb "prog" "prog") with true. cbv beta iota.
  unfold bind at 1. unfold bind at 1. unfold extern at 1. cbv zeta.
  cbn [calls SKR_LAST_ERROR]. norm_trace.
  destruct (LINK_STATUS env _); cbn [negb].
  - unfold ret at 1. change (Z.eqb 1 0) with false. cbv beta iota.
    unfold bind at 1.
    rewrite (for_each_flat shaders _
               (fun sh => [glDetachShader program sh; glDeleteShader sh])).
    + run_M. norm_trace. reflexivity.
    + intros sh w0. run_M. norm_trace. reflexivity.
  - run_M. norm_trace. reflexivity.
Qed.

(** X7.  [m_skr_gl_create_program] returns the new program when the driver
    reports the link as successful, and 0 otherwise; the channel is ok
    exactly in the first case.  After a successful link every shader is
    detached and deleted, in order; after a failed one the program is
    deleted and no shader is detached or deleted. *)
Theorem create_program_contract :
  forall (env : Backend) (shaders : list GLuint) (w : World),
    let program := glCreate_result env (calls w ++ [glCreateProgram]) in
    let t := link_calls env (calls w) shaders in
    let linked := LINK_STATUS env t in
    let r := m_skr_gl_create_program env shaders w in
    fst r = (if linked then program else 0)
    /\ SKR_OK (SKR_LAST_ERROR (snd r)) = linked
    /\ calls (snd r)
       = t ++ (if linked then release_calls program shaders
               else [glGetProgramInfoLog program; glDeleteProgram program]).
Proof.
  intros env shaders w program t linked r.
  subst r. rewrite create_program_link_run. cbv zeta.
  fold program. fold t. fold linked.
  destruct linked; cbn [fst snd SKR_LAST_ERROR calls].
  - split; [reflexivity|]. split; [apply clear_is_ok | reflexivity].
  - split; [reflexivity|].
    split; [apply set_nonempty_not_ok; reflexivity | reflexivity].
Qed.

(** ** Building a program *)

(** X8.  With a NULL array or a count of 0,
    [m_skr_gl_create_program_from_shaders] returns 0 with an error set and
    makes no call at all. *)
Theorem create_program_rejects_empty_input :
  forall (env : Backend) (w : World),
    let null := m_skr_gl_create_program_from_shaders env None w in
    let none := m_skr_gl_create_program_from_shaders env (Some []) w in
    fst null = 0 /\ calls (snd null) = calls w
    /\ SKR_OK (SKR_LAST_ERROR (snd null)) = false
    /\ none = null.
Proof.
  intros env w null none. subst null none.
  unfold m_skr_gl_create_program_from_shaders. run_M.
  repeat split. apply set_nonempty_not_ok. reflexivity.
Qed.

(** X9.  When the allocation of the shader array fails, the function
    returns 0 with an error set, and the allocation is its only call:
    nothing is compiled. *)
Theorem create_program_out_of_memory :
  forall (env : Backend) (input : list SkrShader) (w : World),
    input <> [] ->
    let request := malloc (4 * Z.of_nat (length input)) in
    malloc_result env (calls w ++ [request]) = false ->
    let r := m_skr_gl_create_program_from_shaders env (Some input) w in
    fst r = 0
    /\ SKR_OK (SKR_LAST_ERROR (snd r)) = false
    /\ calls (snd r) = calls w ++ [request].
Proof.
  intros env input w Hne request Hmalloc r.
  subst r. rewrite (create_program_run env input w Hne). cbv zeta.
  cbn [calls]. fold request. rewrite Hmalloc.
  cbn [fst snd SKR_LAST_ERROR calls].
  repeat split. apply set_nonempty_not_ok. reflexivity.
Qed.

Lemma create_program_out_of_memory_witness :
  fst (m_skr_gl_create_program_from_shaders
         no_memory_backend (Some [vert_inline; geom_inline]) fresh_world) = 0
  /\ calls (snd (m_skr_gl_create_program_from_shaders
                   no_memory_backend (Some [vert_inline; geom_inline])
                   fresh_world))
     = [malloc 8].
Proof.
  destruct (create_program_out_of_memory
              no_memory_backend [vert_inline; geom_inline] fresh_world)
    as (H0 & _ & Hc).
  - discriminate.
  - reflexivity.
  - split; [exact H0 | rewrite Hc; reflexivity].
Defined.

(** X10.  A batch that holds a descriptor with neither source nor path
    never gives a program: the function returns 0, wherever the descriptor
    stands and whatever the driver answers. *)
Theorem absent_descriptor_never_builds :
  forall (env : Backend) (batch : list SkrShader) (w : World),
    Exists (fun d => shader_Source d = None /\ shader_Path d = None) batch ->
    fst (m_skr_gl_create_program_from_shaders env (Some batch) w) = 0.
Proof.
  intros env batch w H. exact (absent_descriptor_returns_0 env batch w H).
Qed.

Lemma absent_descriptor_never_builds_witness :
  fst (m_skr_gl_create_program_from_shaders
         demo_backend (Some [vert_inline; frag_absent; geom_inline])
         fresh_world) = 0.
Proof.
  apply (absent_descriptor_never_builds
           demo_backend [vert_inline; frag_absent; geom_inline] fresh_world).
  right; left; split; reflexivity.
Defined.

(** X11.  When the descriptors before it compile, a descriptor with
    neither source nor path makes the function return 0 with the channel
    not ok, reading back the message that names the two NULL members. *)
Theorem absent_descriptor_is_reported :
  forall (env : Backend) (pre : list SkrShader) (d : SkrShader)
         (post : list SkrShader) (w : World) (hs : list GLuint) (wk : World),
    let count := Z.of_nat (length (pre ++ d :: post)) in
    let w0 := mkWorld (SKR_LAST_ERROR w) (calls w ++ [malloc (4 * count)]) in
    malloc_result env (calls w0) = true ->
    resolve_prefix env pre w0 = Some (hs, wk) ->
    shader_Source d = None -> shader_Path d = None ->
    let r :=
      m_skr_gl_create_program_from_shaders env (Some (pre ++ d :: post)) w in
    fst r = 0
    /\ SKR_OK (SKR_LAST_ERROR (snd r)) = false
    /\ cstr (SKR_LAST_ERROR (snd r))
       = firstn (Z.to_nat (SKR_LAST_ERROR_SIZE - 1))
           ((if prefix_fits (FILE_ env) 946
                            "m_skr_gl_create_program_from_shaders"
             then meta_prefix (FILE_ env) 946
                              "m_skr_gl_create_program_from_shaders"
             else [])
            ++ text "shader.Source and shader.Path are NULL").
Proof.
  intros env pre d post w hs wk count w0 Hmalloc Hpre Hs Hp r.
  subst r.
  rewrite (absent_descriptor_first_failure env pre d post w hs wk
             Hmalloc Hpre Hs Hp).
  cbn [fst snd SKR_LAST_ERROR].
  split; [reflexivity|].
  split; [apply set_nonempty_not_ok; reflexivity|].
  apply set_with_meta_reads.
Qed.

Lemma absent_descriptor_is_reported_witness :
  string_of_list_ascii
    (cstr (SKR_LAST_ERROR
             (snd (m_skr_gl_create_program_from_shaders
                     demo_backend (Some ([vert_inline] ++ frag_absent :: []))
                     fresh_world))))
  = "[SKR] ERROR skr/skr.h:946:m_skr_gl_create_program_from_shaders: shader.Source and shader.Path are NULL".
Proof.
  edestruct (absent_descriptor_is_reported
               demo_backend [vert_inline] frag_absent [] fresh_world)
    as (_ & _ & Hmsg).
  - vm_compute; reflexivity.
  - vm_compute; reflexivity.
  - reflexivity.
  - reflexivity.
  - rewrite Hmsg. vm_compute. reflexivity.
Defined.

Lemma compile_all_success (env : Backend) (batch : list SkrShader)
    (shaders hs : list GLuint) (w wk : World) :
  resolve_prefix env batch w = Some (hs, wk) ->
  compile_all env batch shaders w = (Some (shaders ++ hs), wk).
Proof.
  intros H.
  pose proof (compile_all_prefix env batch [] shaders hs w wk H) as E.
  rewrite app_nil_r in E. exact E.
Qed.

(** X12.  When every descriptor of a batch compiles, the function links
    the shaders obtained and frees its array last.  It returns the program
    when the link succeeds and 0 when it fails, and the channel is ok
    exactly when the link succeeded.  After a failed link the program is
    deleted but none of the compiled shaders is. *)
Theorem create_program_links_compiled :
  forall (env : Backend) (batch : list SkrShader) (w : World)
         (hs : list GLuint) (wk : World),
    batch <> [] ->
    let count := Z.of_nat (length batch) in
    let w0 := mkWorld (SKR_LAST_ERROR w) (calls w ++ [malloc (4 * count)]) in
    malloc_result env (calls w0) = true ->
    resolve_prefix env batch w0 = Some (hs, wk) ->
    let program := glCreate_result env (calls wk ++ [glCreateProgram]) in
    let t := link_calls env (calls wk) hs in
    let linked := LINK_STATUS env t in
    let r := m_skr_gl_create_program_from_shaders env (Some batch) w in
    fst r = (if linked then program else 0)
    /\ SKR_OK (SKR_LAST_ERROR (snd r)) = linked
    /\ calls (snd r)
       = t ++ (if linked then release_calls program hs
               else [glGetProgramInfoLog program; glDeleteProgram program])
           ++ [free].
Proof.
  intros env batch w hs wk Hne count w0 Hmalloc Hpre program t linked r.
  assert (Er : r = link_compiled env hs wk).
  { subst r. rewrite (create_program_run env batch w Hne). cbv zeta.
    fold count. fold w0. rewrite Hmalloc.
    rewrite (compile_all_success env batch [] hs w0 wk Hpre).
    reflexivity. }
  rewrite Er. clear Er r.
  assert (El : exists b,
             link_compiled env hs wk
             = (if linked then program else 0,
                mkWorld
                  (if linked then m_skr_last_error_clear b
                   else m_skr_last_error_set_with_meta (FILE_ env) 793
                          "m_skr_gl_check_compile_errors"
                          ("failed to link prog: "
                           ++ InfoLog env (t ++ [glGetProgramInfoLog program]))
                          (SKR_LAST_ERROR wk))
                  (t ++ (if linked then release_calls program hs
                         else [glGetProgramInfoLog program;
                               glDeleteProgram program])
                     ++ [free]))).
  { unfold link_compiled. unfold bind at 1.
    rewrite create_program_link_run. cbv zeta.
    fold program. fold t. fold linked.
    destruct linked.
    - unfold bind at 1. unfold call at 1, extern at 1. cbv zeta.
      cbn [calls SKR_LAST_ERROR].
      destruct (program =? 0) eqn:E0.
      + apply Z.eqb_eq in E0. run_M. norm_trace. rewrite E0.
        eexists. reflexivity.
      + run_M. norm_trace. exists (m_skr_last_error_clear (SKR_LAST_ERROR wk)).
        reflexivity.
    - run_M. norm_trace. exists []. reflexivity. }
  destruct El as [b ->]. cbn [fst snd SKR_LAST_ERROR calls].
  split; [reflexivity|]. split; [|reflexivity].
  destruct linked; [apply clear_is_ok|].
  apply set_nonempty_not_ok. reflexivity.
Qed.

Lemma create_program_links_compiled_witness :
  fst (m_skr_gl_create_program_from_shaders
         no_link_backend (Some [vert_inline; geom_inline]) fresh_world) = 0
  /\ calls (snd (m_skr_gl_create_program_from_shaders
                   no_link_backend (Some [vert_inline; geom_inline])
                   fresh_world))
     = [malloc 8;
        glCreateShader GL_VERTEX_SHADER; glShaderSource 2 "void main() {}";
        glCompileShader 2; glGetShaderiv_COMPILE_STATUS 2;
        glCreateShader GL_GEOMETRY_SHADER; glShaderSource 6 "void main() {}";
        glCompileShader 6; glGetShaderiv_COMPILE_STATUS 6;
        glCreateProgram; glAttachShader 10 2; glAttachShader 10 6;
        glLinkProgram 10; glGetProgramiv_LINK_STATUS 10;
        glGetProgramInfoLog 10; glDeleteProgram 10; free].
Proof.
  edestruct (create_program_links_compiled
               no_link_backend [vert_inline; geom_inline] fresh_world)
    as (H0 & _ & Hc).
  - discriminate.
  - vm_compute; reflexivity.
  - vm_compute; reflexivity.
  - split; [rewrite H0; vm_compute; reflexivity|].
    rewrite Hc. vm_compute. reflexivity.
Defined.

(** ** Precedence of the in-memory source *)

Section PrecedenceFacts.

Variable env : Backend.

(** Calls are only ever added to the trace. *)
Lemma read_file_extends (path : string) (w : World) :
  exists rest, calls (snd (m_skr_read_file env path w)) = calls w ++ rest.
Proof.
  rewrite read_file_run.
  destruct (fopen_result env _) as [contents|]; cbv zeta.
  - unfold read_calls. destruct (malloc_result env _); cbn [snd calls];
      rewrite <- app_assoc; eexists; reflexivity.
  - cbn [snd calls]. eexists; reflexivity.
Qed.

Lemma create_shader_extends (type : GLenum) (source : string) (w : World) :
  exists rest,
    calls (snd (m_skr_gl_create_shader env type source w)) = calls w ++ rest.
Proof.
  rewrite create_shader_run. cbv zeta. unfold compile_calls.
  destruct (COMPILE_STATUS env _); cbn [snd calls];
    rewrite <- ?app_assoc; eexists; reflexivity.
Qed.

Lemma create_shader_from_file_extends (type : GLenum) (path : string)
    (w : World) :
  exists rest,
    calls (snd (m_skr_gl_create_shader_from_file env type path w))
    = calls w ++ rest.
Proof.
  unfold m_skr_gl_create_shader_from_file. unfold bind at 1.
  destruct (read_file_extends path w) as [r1 E1].
  destruct (m_skr_read_file env path w) as [[source|] w1]; cbn [snd] in E1.
  - unfold bind at 1.
    destruct (create_shader_extends type source w1) as [r2 E2].
    destruct (m_skr_gl_create_shader env type source w1) as [shader w2].
    cbn [snd] in E2. run_M. rewrite E2, E1, <- !app_assoc.
    eexists; reflexivity.
  - unfold ret. cbn [snd]. rewrite E1. eexists; reflexivity.
Qed.

Lemma resolve_shader_extends (d : SkrShader) (w : World) :
  exists rest, calls (snd (resolve_shader env d w)) = calls w ++ rest.
Proof.
  unfold resolve_shader.
  destruct (shader_Source d) as [source|]; [|destruct (shader_Path d) as [path|]].
  - unfold bind.
    destruct (create_shader_extends (shader_Type d) source w) as [r E].
    destruct (m_skr_gl_create_shader env (shader_Type d) source w).
    exact (ex_intro _ r E).
  - unfold bind.
    destruct (create_shader_from_file_extends (shader_Type d) path w)
      as [r E].
    destruct (m_skr_gl_create_shader_from_file env (shader_Type d) path w).
    exact (ex_intro _ r E).
  - exists []. unfold ret. cbn [snd]. rewrite app_nil_r. reflexivity.
Qed.

Lemma compile_all_extends (batch : list SkrShader) :
  forall (shaders : list GLuint) (w : World),
    exists rest,
      calls (snd (compile_all env batch shaders w)) = calls w ++ rest.
Proof.
  induction batch as [|d batch IH]; intros shaders w.
  - exists []. cbn [compile_all]. unfold ret. cbn [snd].
    rewrite app_nil_r. reflexivity.
  - rewrite compile_all_step.
    destruct (resolve_shader_extends d w) as [r1 E1].
    destruct (resolve_shader env d w) as [[shader|] w1]; cbn [snd] in E1.
    + destruct (shader =? 0).
      * cbn [snd calls]. rewrite E1, <- app_assoc. eexists; reflexivity.
      * destruct (IH (shaders ++ [shader]) w1) as [r2 E2].
        rewrite E2, E1, <- app_assoc. eexists; reflexivity.
    + cbn [snd calls]. rewrite E1, <- app_assoc. eexists; reflexivity.
Qed.

Lemma link_compiled_extends (shaders : list GLuint) (w : World) :
  exists rest,
    calls (snd (link_compiled env shaders w)) = calls w ++ rest.
Proof.
  unfold link_compiled. unfold bind at 1.
  rewrite create_program_link_run. cbv zeta. unfold link_calls.
  destruct (LINK_STATUS env _); run_M; norm_trace.
  - destruct (glCreate_result env _ =? 0); cbn [snd calls];
      eexists; reflexivity.
  - eexists; reflexivity.
Qed.

(** C8.  In a batch whose descriptors before index [k] compile, a
    descriptor at index [k] with both [Source] and [Path] is compiled from
    its [Source]: right after the calls of the prefix the function calls
    [glCreateShader], [glShaderSource] with the in-memory source,
    [glCompileShader] and the status query, and these are all the calls
    made for the descriptor before the loop goes on or cleans up; no
    [fopen] is among them.  The result and the calls are those of the batch
    in which that descriptor has no [Path], and of the batch in which no
    descriptor with a [Source] has one. *)
Theorem source_takes_precedence :
  forall (pre : list SkrShader) (d : SkrShader) (post : list SkrShader)
         (source path : string) (w : World) (hs : list GLuint) (wk : World),
    let count := Z.of_nat (length (pre ++ d :: post)) in
    let w0 := mkWorld (SKR_LAST_ERROR w) (calls w ++ [malloc (4 * count)]) in
    malloc_result env (calls w0) = true ->
    resolve_prefix env pre w0 = Some (hs, wk) ->
    shader_Source d = Some source ->
    shader_Path d = Some path ->
    let result :=
      m_skr_gl_create_program_from_shaders env (Some (pre ++ d :: post)) w in
    let shader :=
      glCreate_result env (calls wk ++ [glCreateShader (shader_Type d)]) in
    let compiled :=
      calls wk ++ [glCreateShader (shader_Type d);
                   glShaderSource shader source;
                   glCompileShader shader;
                   glGetShaderiv_COMPILE_STATUS shader] in
    let status := COMPILE_STATUS env compiled in
    (exists rest,
        calls (snd result) = compiled ++ rest
        /\ (status && negb (shader =? 0) = false ->
            rest = (if status then []
                    else [glGetShaderInfoLog shader; glDeleteShader shader])
                   ++ map glDeleteShader hs ++ [free]))
    /\ (if status && negb (shader =? 0) then
          result
          = match compile_all env post (hs ++ [shader])
                    (mkWorld (m_skr_last_error_clear (SKR_LAST_ERROR wk))
                             compiled) with
            | (Some shaders, w1) => link_compiled env shaders w1
            | (None, w1) => (0, w1)
            end
        else fst result = 0)
    /\ existsb is_fopen (skipn (length (calls wk)) compiled) = false
    /\ result
       = m_skr_gl_create_program_from_shaders
           env (Some (pre ++ mkShader (shader_Type d) (Some source) None
                          :: post)) w
    /\ result
       = m_skr_gl_create_program_from_shaders
           env (Some (map without_shadowed_path (pre ++ d :: post))) w.
Proof.
  intros pre d post source path w hs wk count w0 Hmalloc Hpre Hs Hp
         result shader compiled status.
  assert (Hstep : forall d',
             shader_Type d' = shader_Type d ->
             shader_Source d' = Some source ->
             m_skr_gl_create_program_from_shaders
               env (Some (pre ++ d' :: post)) w
             = if status then
                 if shader =? 0 then
                   (0, mkWorld (m_skr_last_error_clear (SKR_LAST_ERROR wk))
                               (compiled ++ map glDeleteShader hs ++ [free]))
                 else
                   match compile_all env post (hs ++ [shader])
                           (mkWorld
                              (m_skr_last_error_clear (SKR_LAST_ERROR wk))
                              compiled) with
                   | (Some shaders, w1) => link_compiled env shaders w1
                   | (None, w1) => (0, w1)
                   end
               else
                 (0, mkWorld
                       (m_skr_last_error_set_with_meta (FILE_ env) 802
                          "m_skr_gl_check_compile_errors"
                          ("failed to compile " ++ type_str (shader_Type d)
                           ++ ": "
                           ++ InfoLog env
                                (compiled ++ [glGetShaderInfoLog shader]))
                          (SKR_LAST_ERROR wk))
                       (compiled
                        ++ [glGetShaderInfoLog shader; glDeleteShader shader]
                        ++ map glDeleteShader hs ++ [free]))).
  { intros d' Ht Hs'.
    rewrite create_program_run by (destruct pre; discriminate).
    replace (length (pre ++ d' :: post)) with (length (pre ++ d :: post))
      by (rewrite !length_app; reflexivity).
    fold count. cbv zeta. fold w0. rewrite Hmalloc.
    rewrite (compile_all_prefix env pre (d' :: post) [] hs w0 wk Hpre).
    cbn [app]. rewrite compile_all_step.
    unfold resolve_shader. rewrite Hs', Ht.
    unfold bind. rewrite create_shader_run. cbv zeta.
    unfold compile_calls. fold shader. fold compiled. fold status.
    destruct status.
    - unfold ret. destruct (shader =? 0); reflexivity.
    - unfold ret. change (Z.eqb 0 0) with true. cbv beta iota.
      cbn [calls SKR_LAST_ERROR]. rewrite <- !app_assoc. reflexivity. }
  pose proof (Hstep d eq_refl Hs) as E. fold result in E.
  split; [|split; [|split; [|split]]].
  - rewrite E. destruct status; cbn [andb].
    + destruct (shader =? 0); cbn [negb].
      * cbn [snd calls]. eexists. split; [reflexivity|]. reflexivity.
      * destruct (compile_all_extends post (hs ++ [shader])
                    (mkWorld (m_skr_last_error_clear (SKR_LAST_ERROR wk))
                             compiled)) as [r1 E1].
        destruct (compile_all env post (hs ++ [shader]) _)
          as [[shaders|] w1]; cbn [snd calls] in E1.
        -- destruct (link_compiled_extends shaders w1) as [r2 E2].
           rewrite E2, E1, <- app_assoc.
           eexists. split; [reflexivity | discriminate].
        -- cbn [snd]. rewrite E1.
           eexists. split; [reflexivity | discriminate].
    + cbn [snd calls]. eexists. split; [reflexivity|]. reflexivity.
  - rewrite E. destruct status; cbn [andb]; [|reflexivity].
    destruct (shader =? 0); reflexivity.
  - unfold compiled. rewrite skipn_app, skipn_all, Nat.sub_diag.
    reflexivity.
  - rewrite E. symmetry. apply Hstep; reflexivity.
  - subst result.
    rewrite (create_program_run env (pre ++ d :: post))
      by (destruct pre; discriminate).
    rewrite (create_program_run
               env (map without_shadowed_path (pre ++ d :: post)))
      by (destruct pre; discriminate).
    rewrite length_map. cbv zeta.
    rewrite compile_all_without_shadowed_path. reflexivity.
Qed.

End PrecedenceFacts.

Lemma source_takes_precedence_witness :
  (exists rest,
      calls (snd (m_skr_gl_create_program_from_shaders
                    demo_backend
                    (Some ([vert_inline] ++ vert_both :: [geom_inline]))
                    fresh_world))
      = [malloc 12;
         glCreateShader GL_VERTEX_SHADER; glShaderSource 2 "void main() {}";
         glCompileShader 2; glGetShaderiv_COMPILE_STATUS 2;
         glCreateShader GL_VERTEX_SHADER; glShaderSource 6 "void main() {}";
         glCompileShader 6; glGetShaderiv_COMPILE_STATUS 6]
        ++ rest)
  /\ m_skr_gl_create_program_from_shaders
       demo_backend (Some ([vert_inline] ++ vert_both :: [geom_inline]))
       fresh_world
     = m_skr_gl_create_program_from_shaders
         demo_backend
         (Some ([vert_inline]
                ++ mkShader GL_VERTEX_SHADER (Some "void main() {}") None
                :: [geom_inline]))
         fresh_world.
Proof.
  edestruct (source_takes_precedence
               demo_backend [vert_inline] vert_both [geom_inline]
               "void main() {}" "missing.glsl" fresh_world)
    as ((rest & Hc & _) & _ & _ & Hsame & _).
  - vm_compute; reflexivity.
  - vm_compute; reflexivity.
  - reflexivity.
  - reflexivity.
  - split; [|exact Hsame].
    exists rest. rewrite Hc. reflexivity.
Defined.

(** ** Teardown and drawing *)

Lemma map_M_run {A B} (l : list A) (body : A -> M B) (g : A -> B)
    (f : A -> Trace) :
  (forall a w,
      body a w = (g a, mkWorld (SKR_LAST_ERROR w) (calls w ++ f a))) ->
  forall w,
    map_M l body w
    = (map g l, mkWorld (SKR_LAST_ERROR w) (calls w ++ flat_map f l)).
Proof.
  intros Hbody. induction l as [|a l IH]; intros w;
    cbn [map_M map flat_map].
  - unfold ret. rewrite app_nil_r. destruct w; reflexivity.
  - unfold bind at 1. rewrite Hbody. unfold bind at 1. rewrite IH.
    unfold ret. norm_trace. reflexivity.
Qed.

Lemma finalize_mesh_any (mesh : SkrMesh) (w : World) :
  finalize_mesh mesh w
  = (zero_mesh mesh,
     mkWorld (SKR_LAST_ERROR w) (calls w ++ mesh_finalize_calls mesh)).
Proof.
  unfold finalize_mesh, mesh_finalize_calls, mesh_texture_deletes, when,
    zero_mesh.
  unfold bind at 1.
  assert (E : forall w0,
             match mesh_Textures mesh with
             | Some (t :: ts) =>
                 for_each (t :: ts)
                   (fun tex => call (glDeleteTextures (texture_ID tex)))
             | _ => ret tt
             end w0
             = (tt, mkWorld (SKR_LAST_ERROR w0)
                      (calls w0
                       ++ match mesh_Textures mesh with
                          | Some l =>
                              map (fun t => glDeleteTextures (texture_ID t)) l
                          | None => []
                          end))).
  { intros w0. destruct (mesh_Textures mesh) as [[|t ts]|].
    - unfold ret. cbn [map]. rewrite app_nil_r. destruct w0; reflexivity.
    - apply for_each_calls.
    - unfold ret. rewrite app_nil_r. destruct w0; reflexivity. }
  rewrite E.
  destruct (VAO mesh =? 0), (VBO mesh =? 0), (EBO mesh =? 0);
    run_M; norm_trace; rewrite ?app_nil_r; reflexivity.
Qed.

Lemma finalize_model_any (model : SkrModel) (w : World) :
  finalize_model model w
  = (zero_model model,
     mkWorld (SKR_LAST_ERROR w) (calls w ++ model_finalize_calls model)).
Proof.
  unfold finalize_model, zero_model, model_finalize_calls.
  destruct (Meshes model) as [meshes|].
  - unfold bind.
    rewrite (map_M_run meshes finalize_mesh zero_mesh mesh_finalize_calls
               finalize_mesh_any).
    reflexivity.
  - unfold ret. rewrite app_nil_r. destruct w; reflexivity.
Qed.

Lemma finalize_any (s : SkrState) (w : World) :
  m_skr_gl_renderer_finalize (Some s) w
  = (Some (mkState (Window s) (map zero_model (Models s)) (Programs s)),
     mkWorld (SKR_LAST_ERROR w)
             (calls w ++ flat_map model_finalize_calls (Models s)
                      ++ unbind_calls)).
Proof.
  unfold m_skr_gl_renderer_finalize. unfold bind at 1.
  rewrite (map_M_run (Models s) finalize_model zero_model
             model_finalize_calls finalize_model_any).
  run_M. norm_trace. reflexivity.
Qed.

Lemma zero_mesh_twice (mesh : SkrMesh) :
  zero_mesh (zero_mesh mesh) = zero_mesh mesh.
Proof. reflexivity. Qed.

Lemma zero_model_twice (model : SkrModel) :
  zero_model (zero_model model) = zero_model model.
Proof.
  unfold zero_model. destruct (Meshes model) as [meshes|] eqn:E.
  - cbn [Meshes model_Textures model_Path]. rewrite map_map.
    reflexivity.
  - rewrite E. reflexivity.
Qed.

Lemma zeroed_model_deletes_no_object (model : SkrModel) :
  existsb is_object_delete (model_finalize_calls (zero_model model)) = false.
Proof.
  unfold zero_model, model_finalize_calls.
  destruct (Meshes model) as [meshes|] eqn:E.
  - cbn [Meshes]. clear E.
    induction meshes as [|mesh meshes IH]; [reflexivity|].
    cbn [map flat_map]. rewrite existsb_app, IH, orb_false_r.
    unfold mesh_finalize_calls, mesh_texture_deletes, zero_mesh.
    cbn [VAO VBO EBO mesh_Textures]. change (Z.eqb 0 0) with true.
    cbv beta iota. rewrite !app_nil_r.
    destruct (mesh_Textures mesh) as [l|]; [|reflexivity].
    induction l as [|t l IHl]; [reflexivity | exact IHl].
  - rewrite E. reflexivity.
Qed.

(** X13.  Whatever the state, the teardown returns it with every mesh's
    [VAO], [VBO], [EBO] and program at zero and everything else as it
    was (window, programs, vertex counts, textures), and leaves the error
    channel exactly as it found it. *)
Theorem finalize_zeroes_every_mesh :
  forall (s : SkrState) (w : World),
    let r := m_skr_gl_renderer_finalize (Some s) w in
    fst r = Some (mkState (Window s) (map zero_model (Models s))
                          (Programs s))
    /\ state_zeroed (mkState (Window s) (map zero_model (Models s))
                             (Programs s))
    /\ SKR_LAST_ERROR (snd r) = SKR_LAST_ERROR w.
Proof.
  intros s w r. subst r. rewrite finalize_any.
  cbn [fst snd SKR_LAST_ERROR].
  split; [reflexivity|]. split; [|reflexivity].
  unfold state_zeroed. cbn [Models]. apply Forall_map, Forall_forall.
  intros model _. unfold model_zeroed, zero_model.
  destruct (Meshes model) as [meshes|] eqn:E.
  - cbn [Meshes]. apply Forall_map, Forall_forall.
    intros mesh _. repeat split.
  - rewrite E. exact I.
Qed.

(** X14.  A teardown run on the state a teardown returned gives the same
    state again and deletes no vertex array and no buffer. *)
Theorem finalize_twice :
  forall (s : SkrState) (w w' : World),
    let once := m_skr_gl_renderer_finalize (Some s) w in
    let twice := m_skr_gl_renderer_finalize (fst once) w' in
    fst twice = fst once
    /\ existsb is_object_delete (skipn (length (calls w')) (calls (snd twice)))
       = false.
Proof.
  intros s w w' once twice. subst twice once.
  rewrite (finalize_any s w). cbn [fst]. rewrite finalize_any.
  cbn [fst snd calls Window Models Programs].
  split.
  - rewrite map_map.
    rewrite (map_ext _ zero_model zero_model_twice). reflexivity.
  - rewrite skipn_own_length, existsb_app. cbn [unbind_calls existsb].
    rewrite orb_false_r.
    induction (Models s) as [|model models IH]; [reflexivity|].
    cbn [map flat_map]. rewrite existsb_app, IH, orb_false_r.
    apply zeroed_model_deletes_no_object.
Qed.

Lemma zeroed_model_draws_nothing (model : SkrModel) :
  model_draw_calls (zero_model model) = [].
Proof.
  unfold zero_model, model_draw_calls.
  destruct (Meshes model) as [meshes|] eqn:E.
  - cbn [Meshes]. clear E.
    induction meshes as [|mesh meshes IH]; [reflexivity|].
    cbn [map flat_map]. rewrite IH. reflexivity.
  - rewrite E. reflexivity.
Qed.

(** X15.  After a teardown the draw pass draws nothing: on the state the
    teardown returned it only clears the buffers and unbinds the vertex
    array. *)
Theorem nothing_drawn_after_finalize :
  forall (s : SkrState) (w w' : World),
    match fst (m_skr_gl_renderer_finalize (Some s) w) with
    | Some s' =>
        calls (snd (m_skr_gl_renderer_render s' w'))
        = calls w' ++ [glClear_COLOR_DEPTH; glBindVertexArray 0]
    | None => False
    end.
Proof.
  intros s w w'. rewrite finalize_any. cbn [fst].
  rewrite renderer_render_run. cbn [snd calls Models].
  f_equal. f_equal.
  induction (Models s) as [|model models IH]; [reflexivity|].
  cbn [map flat_map]. rewrite zeroed_model_draws_nothing. exact IH.
Qed.

(** X16.  The teardown never passes the name 0 to [glDeleteVertexArrays]
    or [glDeleteBuffers]. *)
Theorem finalize_never_deletes_zero :
  forall (s : SkrState) (w : World),
    let added :=
      skipn (length (calls w))
            (calls (snd (m_skr_gl_renderer_finalize (Some s) w))) in
    ~ In (glDeleteVertexArrays 0) added /\ ~ In (glDeleteBuffers 0) added.
Proof.
  intros s w added. subst added. rewrite finalize_any.
  cbn [snd calls]. rewrite skipn_own_length.
  assert (Hmesh : forall mesh,
             ~ In (glDeleteVertexArrays 0) (mesh_finalize_calls mesh)
             /\ ~ In (glDeleteBuffers 0) (mesh_finalize_calls mesh)).
  { intros mesh. unfold mesh_finalize_calls, mesh_texture_deletes.
    assert (Ht : forall c,
               In c match mesh_Textures mesh with
                    | Some l =>
                        map (fun t => glDeleteTextures (texture_ID t)) l
                    | None => []
                    end -> exists n, c = glDeleteTextures n).
    { intros c Hc. destruct (mesh_Textures mesh) as [l|]; [|destruct Hc].
      apply in_map_iff in Hc. destruct Hc as (t & <- & _). eexists.
      reflexivity. }
    split; intros Hin;
      repeat (apply in_app_or in Hin; destruct Hin as [Hin|Hin]);
      try (apply Ht in Hin; destruct Hin as [n Hn]; discriminate Hn);
      repeat match type of Hin with
             | In _ (if ?c then _ else _) => destruct c eqn:?
             end;
      repeat (destruct Hin as [Hin|Hin]);
      try discriminate Hin; try contradiction;
      try (injection Hin as Hin;
           match goal with
           | E : (?x =? 0) = false |- _ =>
               rewrite Hin in E; discriminate E
           end). }
  assert (Hmodel : forall model,
             ~ In (glDeleteVertexArrays 0) (model_finalize_calls model)
             /\ ~ In (glDeleteBuffers 0) (model_finalize_calls model)).
  { intros model. unfold model_finalize_calls.
    destruct (Meshes model) as [meshes|]; [|split; intros []].
    split; intros Hin; apply in_flat_map in Hin;
      destruct Hin as (mesh & _ & Hin); apply (Hmesh mesh) in Hin;
      exact Hin. }
  split; intros Hin; apply in_app_or in Hin; destruct Hin as [Hin|Hin];
    try (apply in_flat_map in Hin; destruct Hin as (model & _ & Hin);
         apply (Hmodel model) in Hin; exact Hin);
    cbn [unbind_calls In] in Hin;
    repeat (destruct Hin as [Hin|Hin]; try discriminate Hin);
    exact Hin.
Qed.

(** ** Program objects *)

(** X17.  [m_skr_gl_shader_destroy] deletes a program whose name is not 0,
    sets the name to 0 and leaves the channel ok; run again on the name it
    left, or run on a name that is 0 or on a NULL pointer, it calls nothing
    and leaves the world, a pending error included, as it is. *)
Theorem shader_destroy_once :
  forall (p : GLuint) (w : World),
    let r := m_skr_gl_shader_destroy (Some p) w in
    fst r = Some 0
    /\ calls (snd r)
       = calls w ++ (if p =? 0 then [] else [glDeleteProgram p])
    /\ (if p =? 0 then snd r = w
        else SKR_OK (SKR_LAST_ERROR (snd r)) = true)
    /\ m_skr_gl_shader_destroy (fst r) (snd r) = (Some 0, snd r)
    /\ m_skr_gl_shader_destroy None w = (None, w).
Proof.
  intros p w r. subst r. unfold m_skr_gl_shader_destroy.
  destruct (p =? 0) eqn:E0; cbn [negb].
  - apply Z.eqb_eq in E0. subst p. unfold ret. cbn [fst snd].
    rewrite app_nil_r. repeat split.
  - run_M. repeat split. apply clear_is_ok.
Qed.

(** ** Camera *)

Section CameraFrame.

Variable libm : MathLib.

(** X18.  A cursor event changes the yaw, the pitch and [Front] only:
    position, [Up], [Right], [WorldUp], field of view, sensitivity and the
    [Initialized] flag are left as they were, the cursor position is stored
    in [LastX], [LastY], and [FirstMouse] is false afterwards. *)
Theorem mouse_callback_frame :
  forall (cam : SkrCamera) (xposIn yposIn : spec_float),
    let cam' := m_skr_gl_glfw_mouse_callback libm cam xposIn yposIn in
    Position cam' = Position cam /\ Up cam' = Up cam
    /\ Right cam' = Right cam /\ WorldUp cam' = WorldUp cam
    /\ FOV cam' = FOV cam /\ Sensitivity cam' = Sensitivity cam
    /\ Initialized cam' = Initialized cam
    /\ LastX cam' = float_of_double xposIn
    /\ LastY cam' = float_of_double yposIn
    /\ FirstMouse cam' = false.
Proof.
  intros cam xposIn yposIn cam'. subst cam'.
  unfold m_skr_gl_glfw_mouse_callback, mouse_clamp_front, mouse_accumulate.
  cbv zeta.
  destruct (FirstMouse cam) eqn:Ef;
    cbn [Pitch set_Pitch set_Yaw set_Last set_FirstMouse Sensitivity LastX
         LastY Yaw FirstMouse];
    match goal with
    | |- context [fgt ?p f89] => destruct (fgt p f89)
    end;
    cbn [Pitch set_Pitch];
    match goal with
    | |- context [flt ?p fm89] => destruct (flt p fm89)
    end;
    cbn; rewrite ?Ef; repeat split.
Qed.

(** X19.  A cursor event at the position already stored — the camera past
    its first event, position and sensitivity finite, the pitch within
    [[-89, 89]] — leaves yaw and pitch as they were, as numbers. *)
Theorem mouse_at_rest_does_not_turn :
  forall (cam : SkrCamera) (xposIn yposIn : spec_float),
    FirstMouse cam = false ->
    LastX cam = float_of_double xposIn ->
    LastY cam = float_of_double yposIn ->
    is_finite (LastX cam) = true -> is_finite (LastY cam) = true ->
    is_finite (Sensitivity cam) = true ->
    fle fm89 (Pitch cam) = true -> fle (Pitch cam) f89 = true ->
    let cam' := m_skr_gl_glfw_mouse_callback libm cam xposIn yposIn in
    same_number (Yaw cam') (Yaw cam) /\ same_number (Pitch cam') (Pitch cam).
Proof.
  intros cam xposIn yposIn Hfirst Hx Hy Hfx Hfy Hs Hlo Hhi cam'.
  subst cam'. unfold m_skr_gl_glfw_mouse_callback.
  rewrite callback_yaw, callback_pitch.
  unfold mouse_accumulate. rewrite Hfirst. cbv zeta.
  cbn [Pitch Yaw set_Pitch set_Yaw set_Last Sensitivity LastX LastY].
  rewrite <- Hx, <- Hy, (fsub_self _ Hfx), (fsub_self _ Hfy).
  pose proof (fmul_zero_finite false _ Hs) as Hz.
  split; [apply fadd_zero_same, Hz|].
  pose proof (fadd_zero_same (Pitch cam) _ Hz) as Hsame.
  rewrite (clamp_in_range _ _ Hsame Hlo Hhi). exact Hsame.
Qed.

End CameraFrame.

Lemma mouse_at_rest_does_not_turn_witness :
  let cam := set_FirstMouse SkrDefaultFPSCamera false in
  let cam' := m_skr_gl_glfw_mouse_callback demo_math cam
                (double_of_Z 400) (double_of_Z 300) in
  same_number (Yaw cam') (Yaw cam) /\ same_number (Pitch cam') (Pitch cam).
Proof.
  cbv zeta.
  apply (mouse_at_rest_does_not_turn demo_math
           (set_FirstMouse SkrDefaultFPSCamera false)
           (double_of_Z 400) (double_of_Z 300)); reflexivity.
Defined.

(** ** The earlier variant of the frame *)

(** X20.  In the earlier variant of the header a frame calls the input
    handler when one is installed, then polls the events, queries the
    framebuffer size and stores it in the window, clears, and swaps the
    buffers: events are polled second, and no mesh is drawn. *)
Theorem legacy_frame_polls_second :
  forall (env : Backend) (win : SkrWindow) (w : World),
    let handler_calls :=
      match InputHandler win with
      | Some handler => [InputHandler_call handler]
      | None => []
      end in
    let win1 :=
      match InputHandler win with
      | Some handler =>
          InputHandler_effect env (calls w ++ handler_calls) win
      | None => win
      end in
    let query := glfwGetFramebufferSize (Handler_GLFW win1) in
    let size :=
      FramebufferSize env
        (calls w ++ handler_calls ++ [glfwPollEvents; query]) in
    let r := Legacy.m_skr_gl_glfw_renderer_render env win w in
    calls (snd r)
    = calls w ++ handler_calls
      ++ [glfwPollEvents; query; glClear_COLOR_DEPTH;
          glfwSwapBuffers (Handler_GLFW win1)]
    /\ fst r = mkWindow (Title win1) (fst size) (snd size)
                        (InputHandler win1) (Backend_Type win1)
                        (Handler_GLFW win1).
Proof.
  intros env win w handler_calls win1 query size r.
  subst r size query win1 handler_calls.
  unfold Legacy.m_skr_gl_glfw_renderer_render,
    Legacy.m_skr_gl_renderer_render.
  destruct (InputHandler win) as [handler|]; run_M; norm_trace;
    cbn [Handler_GLFW]; rewrite ?app_nil_r; repeat split; reflexivity.
Qed.

(** ** Window and textures *)

Ltac run_P :=
  unfold pbind, pret, pcall, pextern, p_error_set, p_error_clear;
  cbn [fst snd sys_calls sys_error].

Ltac norm_sys_step :=
  first [ progress cbn [fst snd sys_calls sys_error app negb]
        | progress change (Z.eqb 0 0) with true
        | progress change (Z.eqb 1 0) with false
        | progress cbv beta iota
        | rewrite <- app_assoc ].

Ltac norm_sys := repeat norm_sys_step.

Lemma lift_run {A} (c : M A) (s : System) (a : A) (e : cbuf)
    (added : Trace) :
  c (mkWorld (sys_error s) (core_calls (sys_calls s)))
  = (a, mkWorld e (core_calls (sys_calls s) ++ added)) ->
  lift c s = (a, mkSystem e (sys_calls s ++ map core added)).
Proof.
  intros H. unfold lift. cbv zeta. rewrite H.
  cbn [SKR_LAST_ERROR calls]. rewrite skipn_own_length. reflexivity.
Qed.

Lemma load_texture_run (env : Backend) (plat : Platform) (path : string)
    (s : System) :
  let texture := glGen_result plat (sys_calls s ++ [glGenTextures]) in
  let t := texture_load_calls plat (sys_calls s) path in
  m_skr_gl_load_texture_2d_from_path env plat path s
  = match load_image_result plat t with
    | None =>
        ((0, texture),
         mkSystem (m_skr_last_error_set_with_meta (FILE_ env) 1186
                     "m_skr_gl_load_texture_2d_from_path"
                     "failed to load texture" (sys_error s))
                  t)
    | Some image =>
        ((1, texture),
         mkSystem (m_skr_last_error_clear (sys_error s))
                  (t ++ upload_calls (Some image)))
    end.
Proof.
  cbv zeta. unfold m_skr_gl_load_texture_2d_from_path, texture_load_calls.
  run_P. norm_sys.
  destruct (load_image_result plat _) as [[[width height] nrChannels]|];
    norm_sys; reflexivity.
Qed.

Lemma load_texture_deletes_nothing (env : Backend) (plat : Platform)
    (path : string) (s : System) :
  existsb is_texture_delete
    (skipn (length (sys_calls s))
       (sys_calls (snd (m_skr_gl_load_texture_2d_from_path
                          env plat path s)))) = false.
Proof.
  rewrite load_texture_run. cbv zeta.
  destruct (load_image_result plat _) as [[[width height] nrChannels]|];
    cbn [snd sys_calls]; unfold texture_load_calls;
    rewrite <- ?app_assoc, skipn_own_length; reflexivity.
Qed.

(** X21.  [m_skr_gl_load_texture_2d_from_path] returns 1 with the channel
    ok when the image loader gives an image, and 0 with an error set when
    it gives NULL.  Either way the texture name generated is written to
    the caller; the image is uploaded, with the format chosen from its
    channel count, and freed only in the first case; and no texture is
    ever deleted, so that after a failure the texture object created
    remains. *)
Theorem load_texture_contract :
  forall (env : Backend) (plat : Platform) (path : string) (s : System),
    let texture := glGen_result plat (sys_calls s ++ [glGenTextures]) in
    let t := texture_load_calls plat (sys_calls s) path in
    let image := load_image_result plat t in
    let r := m_skr_gl_load_texture_2d_from_path env plat path s in
    fst r = (if is_some image then 1 else 0, texture)
    /\ SKR_OK (sys_error (snd r)) = is_some image
    /\ sys_calls (snd r) = t ++ upload_calls image
    /\ existsb is_texture_delete
         (skipn (length (sys_calls s)) (sys_calls (snd r))) = false.
Proof.
  intros env plat path s texture t image r.
  pose proof (load_texture_deletes_nothing env plat path s) as Hd.
  subst r. revert Hd. rewrite load_texture_run. cbv zeta.
  fold texture. fold t. fold image.
  destruct image as [img|] eqn:Ei;
    cbn [fst snd sys_error sys_calls is_some]; intros Hd.
  - split; [reflexivity|]. split; [apply clear_is_ok|].
    split; [reflexivity | exact Hd].
  - split; [reflexivity|].
    split; [apply set_nonempty_not_ok; reflexivity|].
    split; [cbn [upload_calls]; rewrite app_nil_r; reflexivity | exact Hd].
Qed.

(** The calls a load adds hold no texture deletion, and a prefix of loads
    only adds calls. *)
Lemma load_texture_adds (env : Backend) (plat : Platform) (path : string)
    (s : System) :
  sys_calls (snd (m_skr_gl_load_texture_2d_from_path env plat path s))
  = sys_calls s
    ++ skipn (length (sys_calls s))
         (sys_calls (snd (m_skr_gl_load_texture_2d_from_path
                            env plat path s))).
Proof.
  rewrite load_texture_run. cbv zeta.
  destruct (load_image_result plat _) as [img|]; cbn [snd sys_calls];
    unfold texture_load_calls; rewrite <- ?app_assoc, skipn_own_length;
    reflexivity.
Qed.

Lemma load_prefix_adds (env : Backend) (plat : Platform)
    (paths : list string) :
  forall (s sk : System) (names : list GLuint),
    load_prefix env plat paths s = Some (names, sk) ->
    exists added,
      sys_calls sk = sys_calls s ++ added
      /\ existsb is_texture_delete added = false
      /\ length names = length paths.
Proof.
  induction paths as [|path paths IH]; intros s sk names H.
  - injection H as <- <-. exists []. rewrite app_nil_r. repeat split.
  - cbn [load_prefix] in H.
    pose proof (load_texture_deletes_nothing env plat path s) as Hd.
    pose proof (load_texture_adds env plat path s) as Ha.
    destruct (m_skr_gl_load_texture_2d_from_path env plat path s)
      as [r s1].
    cbn [snd] in *.
    destruct (fst r =? 0); [discriminate H|].
    destruct (load_prefix env plat paths s1) as [[names' s2]|] eqn:E;
      [|discriminate H].
    injection H as <- <-.
    destruct (IH _ _ _ E) as (added & Hadd & Hno & Hlen).
    exists (skipn (length (sys_calls s)) (sys_calls s1) ++ added).
    split; [rewrite Hadd, Ha at 1; rewrite <- app_assoc; reflexivity|].
    split; [rewrite existsb_app, Hd, Hno; reflexivity|].
    cbn [length]. congruence.
Qed.

Lemma load_textures_prefix (env : Backend) (plat : Platform)
    (pre rest : list string) :
  forall (written names : list GLuint) (s sk : System),
    load_prefix env plat pre s = Some (names, sk) ->
    load_textures_from env plat (pre ++ rest) written s
    = load_textures_from env plat rest (written ++ names) sk.
Proof.
  induction pre as [|path pre IH]; intros written names s sk H.
  - injection H as <- <-. rewrite app_nil_r. reflexivity.
  - cbn [load_prefix] in H. cbn [app load_textures_from].
    unfold pbind at 1.
    destruct (m_skr_gl_load_texture_2d_from_path env plat path s)
      as [r s1].
    destruct (fst r =? 0); [discriminate H|].
    destruct (load_prefix env plat pre s1) as [[names' s2]|] eqn:E;
      [|discriminate H].
    injection H as <- <-.
    rewrite (IH _ _ _ _ E), <- app_assoc. reflexivity.
Qed.

(** X22.  [m_skr_gl_load_textures_2d_from_paths] stops at the first path
    that fails to load: it returns 0 with the system exactly as that load
    left it, so nothing is called for the paths after it; the names
    written are those of the textures loaded before and of the one that
    failed; and no texture is deleted: the textures created stay. *)
Theorem load_textures_stops_at_first_failure :
  forall (env : Backend) (plat : Platform) (pre : list string)
         (path : string) (post : list string) (s sk : System)
         (names : list GLuint),
    load_prefix env plat pre s = Some (names, sk) ->
    let failed := m_skr_gl_load_texture_2d_from_path env plat path sk in
    fst (fst failed) = 0 ->
    let r := m_skr_gl_load_textures_2d_from_paths
               env plat (pre ++ path :: post) s in
    fst r = (0, names ++ [snd (fst failed)])
    /\ snd r = snd failed
    /\ SKR_OK (sys_error (snd r)) = false
    /\ existsb is_texture_delete
         (skipn (length (sys_calls s)) (sys_calls (snd r))) = false.
Proof.
  intros env plat pre path post s sk names Hpre failed Hfail r.
  assert (Er : r = ((0, names ++ [snd (fst failed)]), snd failed)).
  { subst r. unfold m_skr_gl_load_textures_2d_from_paths.
    rewrite (load_textures_prefix env plat pre (path :: post) [] names s sk
               Hpre).
    cbn [app load_textures_from]. unfold pbind.
    subst failed.
    destruct (m_skr_gl_load_texture_2d_from_path env plat path sk)
      as [r1 s1].
    cbn [fst snd] in *. rewrite Hfail. reflexivity. }
  rewrite Er. cbn [fst snd].
  split; [reflexivity|]. split; [reflexivity|].
  destruct (load_prefix_adds env plat pre s sk names Hpre)
    as (added & Hadd & Hno & _).
  pose proof (load_texture_deletes_nothing env plat path sk) as Hd.
  pose proof (load_texture_adds env plat path sk) as Ha.
  fold failed in Hd, Ha.
  split.
  - subst failed. revert Hfail. rewrite load_texture_run. cbv zeta.
    destruct (load_image_result plat _) as [img|];
      cbn [fst snd sys_error]; [discriminate|].
    intros _. apply set_nonempty_not_ok. reflexivity.
  - rewrite Ha, Hadd, <- app_assoc, skipn_own_length, existsb_app.
    rewrite <- Hadd, Hd, Hno. reflexivity.
Qed.

Lemma load_textures_stops_at_first_failure_witness :
  fst (m_skr_gl_load_textures_2d_from_paths
         demo_backend demo_platform
         (["wall.png"] ++ "missing.png" :: ["roof.png"]) fresh_system)
  = (0, [1; 11])
  /\ existsb is_texture_delete
       (sys_calls (snd (m_skr_gl_load_textures_2d_from_paths
                          demo_backend demo_platform
                          (["wall.png"] ++ "missing.png" :: ["roof.png"])
                          fresh_system))) = false.
Proof.
  edestruct (load_textures_stops_at_first_failure
               demo_backend demo_platform ["wall.png"] "missing.png"
               ["roof.png"] fresh_system) as (H1 & _ & _ & H4).
  - vm_compute; reflexivity.
  - vm_compute; reflexivity.
  - split; [rewrite H1; vm_compute; reflexivity | exact H4].
Defined.

(** X23.  When every path loads, the function returns 1 with the channel
    ok and one name written per path, in order; with no path at all it
    returns 1 at once, calling nothing. *)
Theorem load_textures_all_loaded :
  forall (env : Backend) (plat : Platform) (paths : list string)
         (s sk : System) (names : list GLuint),
    load_prefix env plat paths s = Some (names, sk) ->
    let r := m_skr_gl_load_textures_2d_from_paths env plat paths s in
    fst r = (1, names)
    /\ length names = length paths
    /\ SKR_OK (sys_error (snd r)) = true
    /\ sys_calls (snd r) = sys_calls sk
    /\ sys_calls
         (snd (m_skr_gl_load_textures_2d_from_paths env plat [] s))
       = sys_calls s.
Proof.
  intros env plat paths s sk names Hpre r.
  assert (Er : r = ((1, names),
                    mkSystem (m_skr_last_error_clear (sys_error sk))
                             (sys_calls sk))).
  { subst r. unfold m_skr_gl_load_textures_2d_from_paths.
    pose proof (load_textures_prefix env plat paths [] [] names s sk Hpre)
      as E.
    rewrite app_nil_r in E. rewrite E. reflexivity. }
  rewrite Er. cbn [fst snd sys_error sys_calls].
  destruct (load_prefix_adds env plat paths s sk names Hpre)
    as (_ & _ & _ & Hlen).
  repeat split; [exact Hlen | apply clear_is_ok].
Qed.

Lemma load_textures_all_loaded_witness :
  fst (m_skr_gl_load_textures_2d_from_paths
         demo_backend demo_platform ["wall.png"; "roof.png"] fresh_system)
  = (1, [1; 11]).
Proof.
  edestruct (load_textures_all_loaded
               demo_backend demo_platform ["wall.png"; "roof.png"]
               fresh_system) as (H1 & _).
  - vm_compute; reflexivity.
  - exact H1.
Defined.

Lemma glfw_init_run (env : Backend) (plat : Platform)
    (camera : option SkrCamera) (w : option SkrWindow) (s : System) :
  m_skr_gl_glfw_init env plat camera w s
  = match glfwInit_result plat (sys_calls s ++ [glfwInit]), w with
    | true, Some win =>
        let t := init_window_calls plat (sys_calls s) win in
        let handle := glfwCreateWindow_result plat t in
        if handle =? 0 then
          ((0, Some (set_Handler_GLFW win handle)),
           mkSystem (m_skr_last_error_set_with_meta (FILE_ env) 756
                       "m_skr_gl_glfw_init" "window backend is NULL"
                       (sys_error s))
                    (t ++ [glfwTerminate]))
        else
          ((1, Some (set_Handler_GLFW win handle)),
           mkSystem (m_skr_last_error_clear (sys_error s))
                    (t ++ [glfwSetFramebufferSizeCallback handle;
                           glfwMakeContextCurrent handle]
                       ++ match camera with
                          | Some _ => [glfwSetCursorPosCallback handle]
                          | None => []
                          end))
    | _, _ =>
        ((0, w),
         mkSystem (m_skr_last_error_set_with_meta (FILE_ env) 738
                     "m_skr_gl_glfw_init"
                     "either glfwInit != 1 or SkrWindow == NULL"
                     (sys_error s))
                  (sys_calls s ++ [glfwInit]))
    end.
Proof.
  unfold m_skr_gl_glfw_init, init_window_calls.
  unfold pbind at 1. unfold pextern at 1. cbv zeta.
  destruct (glfwInit_result plat (sys_calls s ++ [glfwInit]));
    [|destruct w; run_P; reflexivity].
  destruct w as [win|]; [|run_P; reflexivity].
  destruct (APPLE plat); run_P; norm_sys;
    match goal with
    | |- context [glfwCreateWindow_result plat ?t =? 0] =>
        destruct (glfwCreateWindow_result plat t =? 0)
    end; norm_sys;
    destruct camera; norm_sys; rewrite ?app_nil_r; reflexivity.
Qed.

(** X24.  [m_skr_gl_glfw_init] returns 1 with the channel ok, or 0 with an
    error set.  It calls [glfwInit] first, also when the window pointer is
    NULL; when [glfwInit] fails or the pointer is NULL that is its only
    call, and the library is not terminated.  When the window cannot be
    created the library is terminated as the last call.  On success the
    handle is stored in the window, the resize callback is installed and
    the context made current, and the cursor callback is installed exactly
    when a global camera is set. *)
Theorem glfw_init_contract :
  forall (env : Backend) (plat : Platform) (camera : option SkrCamera)
         (w : option SkrWindow) (s : System),
    let r := m_skr_gl_glfw_init env plat camera w s in
    SKR_OK (sys_error (snd r)) = (fst (fst r) =? 1)
    /\ match glfwInit_result plat (sys_calls s ++ [glfwInit]), w with
       | true, Some win =>
           let t := init_window_calls plat (sys_calls s) win in
           let handle := glfwCreateWindow_result plat t in
           snd (fst r) = Some (set_Handler_GLFW win handle)
           /\ fst (fst r) = (if handle =? 0 then 0 else 1)
           /\ sys_calls (snd r)
              = t ++ (if handle =? 0 then [glfwTerminate]
                      else [glfwSetFramebufferSizeCallback handle;
                            glfwMakeContextCurrent handle]
                           ++ (if is_some camera
                               then [glfwSetCursorPosCallback handle]
                               else []))
       | _, _ =>
           fst r = (0, w) /\ sys_calls (snd r) = sys_calls s ++ [glfwInit]
       end.
Proof.
  intros env plat camera w s r. subst r. rewrite glfw_init_run.
  destruct (glfwInit_result plat (sys_calls s ++ [glfwInit])).
  - destruct w as [win|]; cbv zeta.
    + destruct (glfwCreateWindow_result plat _ =? 0);
        cbn [fst snd sys_error sys_calls].
      * split; [apply set_nonempty_not_ok; reflexivity|].
        repeat split.
      * split; [apply clear_is_ok|].
        destruct camera; repeat split.
    + cbn [fst snd sys_error sys_calls].
      split; [apply set_nonempty_not_ok; reflexivity | split; reflexivity].
  - destruct w; cbn [fst snd sys_error sys_calls];
      (split; [apply set_nonempty_not_ok; reflexivity | split; reflexivity]).
Qed.

(** X25.  On the OpenGL and GLFW build, [SkrInit] leaves the channel ok
    exactly when the state it returns has a window: after a failure the
    state is all zero, after a success it points to the window given, now
    holding a handle that is not NULL; it never has models or programs. *)
Theorem SkrInit_ok_iff_window :
  forall (env : Backend) (plat : Platform) (camera : option SkrCamera)
         (w : option SkrWindow) (s : System),
    SKR_BACKEND_API env = SKR_BACKEND_API_GL ->
    SKR_BACKEND_WINDOW env = SKR_BACKEND_WINDOW_GLFW ->
    let r := SkrInit env plat camera w s in
    SKR_OK (sys_error (snd r)) = is_some (Window (fst r))
    /\ Models (fst r) = [] /\ Programs (fst r) = []
    /\ (forall win', Window (fst r) = Some win' ->
        Handler_GLFW win' <> 0
        /\ exists win, w = Some win
                       /\ win' = set_Handler_GLFW win (Handler_GLFW win')).
Proof.
  intros env plat camera w s Hapi Hwin r.
  subst r. unfold SkrInit, SkrWindowInit. rewrite Hapi, Hwin.
  unfold pbind. rewrite glfw_init_run.
  destruct (glfwInit_result plat (sys_calls s ++ [glfwInit])).
  - destruct w as [win|]; cbv zeta.
    + destruct (glfwCreateWindow_result plat _ =? 0) eqn:E0; run_P;
        norm_sys; cbn [Window Models Programs is_some].
      * split; [apply set_nonempty_not_ok; reflexivity|].
        repeat split; discriminate.
      * split; [apply clear_is_ok|]. split; [reflexivity|].
        split; [reflexivity|].
        intros win' H. injection H as <-. cbn [Handler_GLFW set_Handler_GLFW].
        split; [apply Z.eqb_neq; exact E0|].
        exists win. split; reflexivity.
    + run_P. norm_sys. cbn [Window Models Programs is_some].
      split; [apply set_nonempty_not_ok; reflexivity|].
      repeat split; discriminate.
  - destruct w; run_P; norm_sys; cbn [Window Models Programs is_some];
      (split; [apply set_nonempty_not_ok; reflexivity|]);
      repeat split; discriminate.
Qed.

Lemma SkrInit_ok_iff_window_witness :
  Window (fst (SkrInit demo_backend demo_platform None (Some demo_window)
                       fresh_system))
  = Some (set_Handler_GLFW demo_window 77)
  /\ Window (fst (SkrInit demo_backend no_window_platform None
                          (Some demo_window) fresh_system)) = None
  /\ SKR_OK (sys_error (snd (SkrInit demo_backend no_window_platform None
                                     (Some demo_window) fresh_system)))
     = false.
Proof.
  destruct (SkrInit_ok_iff_window demo_backend no_window_platform None
              (Some demo_window) fresh_system eq_refl eq_refl)
    as (Hok & _).
  split; [reflexivity|]. split; [reflexivity|].
  rewrite Hok. reflexivity.
Defined.

(** X26.  On the OpenGL build, [SkrFinalize] on a state with a window runs
    the teardown, terminates GLFW as its last call exactly when the window
    is a GLFW one, and returns the state with no window and no models,
    leaving the error channel as it found it.  On the state it returned a
    render call does nothing, and a second [SkrFinalize] reads through the
    NULL window. *)
Theorem SkrFinalize_clears_state :
  forall (env : Backend) (s : SkrState) (win : SkrWindow)
         (sys sys' : System) (w : World),
    SKR_BACKEND_API env = SKR_BACKEND_API_GL ->
    Window s = Some win ->
    let r := SkrFinalize env s sys in
    let s' := mkState None [] (Programs s) in
    fst r = Some s'
    /\ sys_error (snd r) = sys_error sys
    /\ sys_calls (snd r)
       = sys_calls sys
         ++ map core (flat_map model_finalize_calls (Models s)
                      ++ unbind_calls)
         ++ match Backend_Type win with
            | SKR_BACKEND_WINDOW_GLFW => [glfwTerminate]
            | _ => []
            end
    /\ SkrRendererRender env (Some s') w = (Some s', w)
    /\ fst (SkrFinalize env s' sys') = None.
Proof.
  intros env s win sys sys' w Hapi Hwin r s'.
  assert (Hlift : forall st sy,
             lift (m_skr_gl_renderer_finalize (Some st)) sy
             = (Some (mkState (Window st) (map zero_model (Models st))
                              (Programs st)),
                mkSystem (sys_error sy)
                  (sys_calls sy
                   ++ map core (flat_map model_finalize_calls (Models st)
                                ++ unbind_calls)))).
  { intros st sy. apply lift_run. rewrite finalize_any. reflexivity. }
  split; [|split; [|split; [|split]]].
  - subst r. unfold SkrFinalize. rewrite Hapi. unfold pbind at 1.
    rewrite Hlift, Hwin.
    destruct (Backend_Type win); run_P; reflexivity.
  - subst r. unfold SkrFinalize. rewrite Hapi. unfold pbind at 1.
    rewrite Hlift, Hwin.
    destruct (Backend_Type win); run_P; reflexivity.
  - subst r. unfold SkrFinalize. rewrite Hapi. unfold pbind at 1.
    rewrite Hlift, Hwin.
    destruct (Backend_Type win); run_P; norm_sys; rewrite ?app_nil_r;
      reflexivity.
  - reflexivity.
  - unfold SkrFinalize. rewrite Hapi. unfold pbind at 1.
    rewrite Hlift. reflexivity.
Qed.

Lemma SkrFinalize_clears_state_witness :
  fst (SkrFinalize demo_backend triangle_state fresh_system)
  = Some (mkState None [] [])
  /\ sys_calls (snd (SkrFinalize demo_backend triangle_state fresh_system))
     = [core (glDeleteTextures 9); core (glDeleteVertexArrays 1);
        core (glDeleteBuffers 1); core (glBindVertexArray 0);
        core (glBindBuffer_ARRAY 0); core (glBindBuffer_ELEMENT_ARRAY 0);
        core (glUseProgram 0); glfwTerminate].
Proof.
  destruct (SkrFinalize_clears_state demo_backend
              triangle_state demo_window fresh_system fresh_system
              fresh_world eq_refl eq_refl) as (H1 & _ & H3 & _).
  split; [exact H1 | rewrite H3; reflexivity].
Defined.

(** X27.  [m_skr_gl_triangle] does not check the result of the shader
    build: whatever it is, the state gets one model of one mesh of three
    vertices carrying that program name (0 after a failed build), and the
    error channel is left as the build left it.  A draw pass on that state
    then draws the three vertices with that program whenever the vertex
    array name is not 0. *)
Theorem triangle_ignores_build_result :
  forall (env : Backend) (plat : Platform) (s : SkrState) (sys : System),
    let build :=
      lift (m_skr_gl_create_program_from_shaders env
              (Some [mkShader GL_VERTEX_SHADER (Some triangle_vert) None;
                     mkShader GL_FRAGMENT_SHADER (Some triangle_frag) None]))
           sys in
    let program := fst build in
    let r := m_skr_gl_triangle env plat s sys in
    fst (fst r) = program
    /\ sys_error (snd r) = sys_error (snd build)
    /\ exists vao vbo,
         snd (fst r)
         = mkState (Window s)
                   [mkModel (Some [mkMesh vao vbo 0 3 0 None program])
                            None None]
                   (Programs s)
         /\ forall w,
              calls (snd (m_skr_gl_renderer_render (snd (fst r)) w))
              = calls w ++ glClear_COLOR_DEPTH
                  :: (if vao =? 0 then []
                      else [glUseProgram program; glBindVertexArray vao;
                            glDrawArrays_TRIANGLES 0 3])
                  ++ [glBindVertexArray 0].
Proof.
  intros env plat s sys build program r.
  assert (E : exists vao vbo t,
             r = ((program,
                   mkState (Window s)
                     [mkModel (Some [mkMesh vao vbo 0 3 0 None program])
                              None None]
                     (Programs s)),
                  mkSystem (sys_error (snd build)) t)).
  { subst r program. unfold m_skr_gl_triangle. unfold pbind at 1.
    fold build. destruct build as [program sys1].
    run_P. do 3 eexists. reflexivity. }
  destruct E as (vao & vbo & t & ->). cbn [fst snd sys_error].
  split; [reflexivity|]. split; [reflexivity|].
  exists vao, vbo. split; [reflexivity|].
  intros w. rewrite renderer_render_run. cbn [snd calls Models flat_map].
  unfold model_draw_calls, mesh_draw_calls.
  cbn [Meshes flat_map VAO VertexCount GL_Program].
  change (Z.eqb 3 0) with false. rewrite orb_false_r.
  destruct (vao =? 0); reflexivity.
Qed.
